(** * rgl: growable instance buffer and vertex layouts

    A shallow embedding of [src/rgl/modules/shader_data_type.hpp],
    [vertex_buffer_layout.hpp], [vertex_buffer.hpp] and
    [vertex_buffer_inst.hpp], together with the part of the OpenGL buffer
    API those headers call.  The first half of the file holds the model,
    the second half the facts proved about it. *)

From Stdlib Require Import ZArith Lia Zpower Floats.SpecFloat Reals Lra.
From stdpp Require Import base option list gmap strings.

#[local] Open Scope Z_scope.

(* ===================================================================== *)
(** * Part I: the model                                                   *)
(* ===================================================================== *)

(** ** Machine integers

    [std::size_t] and [ptrdiff_t] are 64 bits wide, [std::uint32_t] and
    [std::int32_t] 32 bits.  Values are kept in [Z]; the conversions below
    write the wrap-around out. *)
Module Machine.

Definition to_size_t (z : Z) : Z := z mod 2 ^ 64.

Definition to_ptrdiff_t (z : Z) : Z :=
  let w := z mod 2 ^ 64 in
  if w <? 2 ^ 63 then w else w - 2 ^ 64.

Definition to_uint32_t (z : Z) : Z := z mod 2 ^ 32.

Definition INT32_MAX : Z := 2 ^ 31 - 1.

Definition to_int32_t (z : Z) : Z :=
  let w := z mod 2 ^ 32 in
  if w <? 2 ^ 31 then w else w - 2 ^ 32.

End Machine.

(** ** IEEE 754 binary64

    [double] arithmetic is the round-to-nearest-even arithmetic of
    [SpecFloat] at precision 53 and maximal exponent 1024. *)
Module Double.

Definition prec : Z := 53.
Definition emax : Z := 1024.

(** [std::numbers::phi] as a [double]: 0x1.9e3779b97f4a8p+0, the binary64
    number nearest to the golden ratio. *)
Definition phi_mantissa : positive := 7286977268806824.
Definition phi : spec_float := S754_finite false phi_mantissa (-52).

(** [static_cast<double>(n)] for an unsigned integer [n]. *)
Definition of_size_t (n : Z) : spec_float := binary_normalize prec emax n 0 false.

Definition mul : spec_float -> spec_float -> spec_float := SFmul prec emax.

(** [static_cast<std::size_t>(f)]: the fractional part is discarded; the
    conversion is undefined ([None]) when the truncated value does not fit. *)
Definition to_size_t (f : spec_float) : option Z :=
  match f with
  | S754_zero _ => Some 0
  | S754_finite s m e =>
      let a := if 0 <=? e then Z.pos m * 2 ^ e else Z.pos m / 2 ^ (- e) in
      if s then (if a =? 0 then Some 0 else None)
      else if a <? 2 ^ 64 then Some a else None
  | _ => None
  end.

End Double.

(** ** shader_data_type.hpp *)
Module shader_data_type.

Inductive ShaderArrayType := f32_arr | vec2_arr | vec3_arr | vec4_arr | mat3_arr | mat4_arr.

Inductive U_Type := f32 | vec2 | vec3 | vec4 | mat3 | mat4.

(** [static_cast<U_Type>(in_type)]: both enumerations number their
    members 0..5 in the same order. *)
Definition of_array_type (t : ShaderArrayType) : U_Type :=
  match t with
  | f32_arr => f32 | vec2_arr => vec2 | vec3_arr => vec3
  | vec4_arr => vec4 | mat3_arr => mat3 | mat4_arr => mat4
  end.

Definition sizeof_float : Z := 4.

Definition size (type : U_Type) : Z :=
  match type with
  | f32 => sizeof_float
  | vec2 => sizeof_float * 2
  | vec3 => sizeof_float * 3
  | vec4 => sizeof_float * 4
  | mat3 => (sizeof_float * 4) * 3
  | mat4 => (sizeof_float * 4) * 4
  end.

(** The OpenGL type enumerators the header returns. *)
Inductive GLenum :=
| GL_FLOAT | GL_FLOAT_VEC2 | GL_FLOAT_VEC3 | GL_FLOAT_VEC4 | GL_FLOAT_MAT3 | GL_FLOAT_MAT4.

Definition to_opengl_type (type : U_Type) : GLenum :=
  match type with
  | vec2 => GL_FLOAT_VEC2
  | vec3 => GL_FLOAT_VEC3
  | vec4 => GL_FLOAT_VEC4
  | mat3 => GL_FLOAT_MAT3
  | mat4 => GL_FLOAT_MAT4
  | f32 => GL_FLOAT
  end.

Definition to_opengl_underlying_type (type : U_Type) : GLenum :=
  match type with
  | vec2 | vec3 | vec4 | mat3 | mat4 | f32 => GL_FLOAT
  end.

Definition component_count (type : U_Type) : Z :=
  match type with
  | vec2 => 2
  | vec3 => 3
  | vec4 => 4
  | mat3 => 12
  | mat4 => 16
  | f32 => 1
  end.

End shader_data_type.

(** ** vertex_buffer_layout.hpp *)
Record VertexAttribute := {
  type : shader_data_type.U_Type;
  name : string;
  offset : Z;          (* std::uint32_t *)
  element_count : Z    (* std::size_t, 1 unless given *)
}.

Module VertexAttribute_ctor.

Definition scalar (in_type : shader_data_type.U_Type) (in_name : string) : VertexAttribute :=
  {| type := in_type; name := in_name; offset := 0; element_count := 1 |}.

Definition array (in_type : shader_data_type.ShaderArrayType) (in_name : string)
    (element_count : Z) : VertexAttribute :=
  {| type := shader_data_type.of_array_type in_type; name := in_name; offset := 0;
     element_count := element_count |}.

End VertexAttribute_ctor.

Record VertexBufferLayout := {
  m_stride : Z;                         (* std::size_t *)
  m_attributes : list VertexAttribute
}.

Module Layout.

(** [VertexBufferLayout() = default] *)
Definition empty : VertexBufferLayout := {| m_stride := 0; m_attributes := [] |}.

(** The loop of the constructor: it walks the attributes in order, stores
    the running stride into [offset] (a 32-bit field) and advances the
    running stride (a [size_t]). *)
Fixpoint assign_offsets (m_stride : Z) (attributes : list VertexAttribute)
    : Z * list VertexAttribute :=
  match attributes with
  | [] => (m_stride, [])
  | attribute :: rest =>
      let attribute' :=
        {| type := type attribute; name := name attribute;
           offset := Machine.to_uint32_t m_stride;
           element_count := element_count attribute |} in
      let m_stride' :=
        Machine.to_size_t
          (m_stride +
           Machine.to_size_t (shader_data_type.size (type attribute) * element_count attribute)) in
      let '(total, rest') := assign_offsets m_stride' rest in
      (total, attribute' :: rest')
  end.

(** [VertexBufferLayout(std::initializer_list<VertexAttribute>)] *)
Definition make (attributes : list VertexAttribute) : VertexBufferLayout :=
  let '(total, attrs) := assign_offsets 0 attributes in
  {| m_stride := total; m_attributes := attrs |}.

Definition stride (l : VertexBufferLayout) : Z := m_stride l.

Definition stride_elements (l : VertexBufferLayout) : Z :=
  m_stride l / shader_data_type.sizeof_float.

Definition get_attributes (l : VertexBufferLayout) : list VertexAttribute := m_attributes l.

(** [operator[]]: an unchecked [std::vector] access; an index past the end
    is undefined behaviour ([None]). *)
Definition at_index (l : VertexBufferLayout) (index : Z) : option VertexAttribute :=
  if (0 <=? index) && (index <? Z.of_nat (length (m_attributes l)))
  then m_attributes l !! Z.to_nat index
  else None.

End Layout.

(** ** Client memory: floats and spans

    A [float] occupies four bytes; only its object representation matters
    here, no arithmetic is done on instance data. *)
Record float32 := Float32 {
  byte0 : Byte.byte; byte1 : Byte.byte; byte2 : Byte.byte; byte3 : Byte.byte
}.

Module span.

(** [std::span<const float>]: a view of [size] floats.  [null n] is a span
    of [n > 0] elements whose storage cannot be read (a null pointer, or a
    pointer into a mapping that is too short); reading it is undefined. *)
Inductive t :=
| of_list (elems : list float32)
| null (n : Z).

Definition size (s : t) : Z :=
  match s with
  | of_list elems => Z.of_nat (length elems)
  | null n => n
  end.

Definition size_bytes (s : t) : Z :=
  Machine.to_size_t (size s * shader_data_type.sizeof_float).

Definition float_bytes (f : float32) : list Byte.byte :=
  [byte0 f; byte1 f; byte2 f; byte3 f].

Definition bytes (elems : list float32) : list Byte.byte :=
  flat_map float_bytes elems.

(** [data()]: the bytes the pointer designates, or [None] for [null]. *)
Definition data (s : t) : option (list Byte.byte) :=
  match s with
  | of_list elems => Some (bytes elems)
  | null _ => None
  end.

(** [static_cast<float*>(p)]: the floats stored in a run of bytes. *)
Fixpoint floats (bs : list Byte.byte) : list float32 :=
  match bs with
  | b0 :: b1 :: b2 :: b3 :: rest => Float32 b0 b1 b2 b3 :: floats rest
  | _ => []
  end.

(** [std::span<const float>{ptr, n}] where [ptr] is the result of mapping a
    buffer range ([None]: the mapping failed and returned a null pointer). *)
Definition of_pointer (ptr : option (list Byte.byte)) (n : Z) : t :=
  match ptr with
  | Some bs =>
      if n <=? Z.of_nat (length (floats bs))
      then of_list (take (Z.to_nat n) (floats bs))
      else null n
  | None => if n =? 0 then of_list [] else null n
  end.

End span.

(** ** The OpenGL buffer API (glad/glad.h)

    The context holds the data store of every buffer object and the three
    binding points the wrapper uses.  A command that raises a GL error
    leaves the context unchanged; a command that would read client memory
    through an unreadable pointer is undefined ([None]).  Mapping state is
    not tracked: [glBufferSubData] is taken to accept a range that lies
    outside the currently mapped range (OpenGL 4.4 and later); a write of the
    mapped range onto itself, which those versions reject, would store the
    bytes that are already there. *)
Module GL.

Inductive target := GL_ARRAY_BUFFER | GL_COPY_READ_BUFFER | GL_COPY_WRITE_BUFFER.

Inductive usage := GL_STATIC_DRAW | GL_DYNAMIC_DRAW | GL_STREAM_DRAW.

Record context := Context {
  buffers : gmap N (list Byte.byte);
  array_buffer : N;
  copy_read_buffer : N;
  copy_write_buffer : N
}.

Definition initial : context :=
  {| buffers := ∅; array_buffer := 0; copy_read_buffer := 0; copy_write_buffer := 0 |}.

(** Commands are state transformers over the context that may be
    undefined. *)
Definition M (A : Type) : Type := context -> option (A * context).

Definition ret {A} (a : A) : M A := fun c => Some (a, c).

Definition bind {A B} (m : M A) (k : A -> M B) : M B :=
  fun c => match m c with
           | Some (a, c') => k a c'
           | None => None
           end.

Definition undefined {A} : M A := fun _ => None.

Definition binding (t : target) (c : context) : N :=
  match t with
  | GL_ARRAY_BUFFER => array_buffer c
  | GL_COPY_READ_BUFFER => copy_read_buffer c
  | GL_COPY_WRITE_BUFFER => copy_write_buffer c
  end.

Definition set_binding (t : target) (id : N) (c : context) : context :=
  match t with
  | GL_ARRAY_BUFFER =>
      {| buffers := buffers c; array_buffer := id;
         copy_read_buffer := copy_read_buffer c; copy_write_buffer := copy_write_buffer c |}
  | GL_COPY_READ_BUFFER =>
      {| buffers := buffers c; array_buffer := array_buffer c;
         copy_read_buffer := id; copy_write_buffer := copy_write_buffer c |}
  | GL_COPY_WRITE_BUFFER =>
      {| buffers := buffers c; array_buffer := array_buffer c;
         copy_read_buffer := copy_read_buffer c; copy_write_buffer := id |}
  end.

Definition set_buffers (b : gmap N (list Byte.byte)) (c : context) : context :=
  {| buffers := b; array_buffer := array_buffer c;
     copy_read_buffer := copy_read_buffer c; copy_write_buffer := copy_write_buffer c |}.

(** The data store of the buffer bound to [t]; name 0 is "no buffer". *)
Definition data_store (t : target) (c : context) : option (list Byte.byte) :=
  if (binding t c =? 0)%N then None else buffers c !! binding t c.

Definition set_data_store (t : target) (bs : list Byte.byte) (c : context) : context :=
  set_buffers (<[binding t c := bs]> (buffers c)) c.

(** Overwrite [bs] into [store] from position [off] on. *)
Definition write_range (store : list Byte.byte) (off : nat) (bs : list Byte.byte)
    : list Byte.byte :=
  take off store ++ bs ++ drop (off + length bs) store.

Definition read_range (store : list Byte.byte) (off len : nat) : list Byte.byte :=
  take len (drop off store).

(** [glGenBuffers(1, &id)]: an unused non-zero name, with an empty store. *)
Definition glGenBuffers : M N := fun c =>
  let id := fresh ({[0%N]} ∪ dom (buffers c)) in
  Some (id, set_buffers (<[id := []]> (buffers c)) c).

Definition glBindBuffer (t : target) (id : N) : M unit := fun c =>
  Some (tt, set_binding t id c).

(** [glBufferData(t, size, data, usage)]: a new store of [size] bytes for
    the bound buffer, initialised from [data] unless it is null.  The
    contents of a store created from a null pointer are unspecified; the
    model fills it with zero bytes. *)
Definition glBufferData (t : target) (size : Z) (data : option (list Byte.byte))
    (u : usage) : M unit := fun c =>
  match data_store t c with
  | None => Some (tt, c)                               (* GL_INVALID_OPERATION *)
  | Some _ =>
      if size <? 0 then Some (tt, c)                   (* GL_INVALID_VALUE *)
      else match data with
           | None => Some (tt, set_data_store t (replicate (Z.to_nat size) Byte.x00) c)
           | Some bs =>
               if Z.of_nat (length bs) <? size then None
               else Some (tt, set_data_store t (take (Z.to_nat size) bs) c)
           end
  end.

(** [glBufferSubData(t, offset, size, data)] *)
Definition glBufferSubData (t : target) (offset size : Z) (data : option (list Byte.byte))
    : M unit := fun c =>
  match data_store t c with
  | None => Some (tt, c)                               (* GL_INVALID_OPERATION *)
  | Some store =>
      if (offset <? 0) || (size <? 0) || (Z.of_nat (length store) <? offset + size)
      then Some (tt, c)                                (* GL_INVALID_VALUE *)
      else match data with
           | None => if size =? 0 then Some (tt, c) else None
           | Some bs =>
               if Z.of_nat (length bs) <? size then None
               else Some (tt, set_data_store t
                                (write_range store (Z.to_nat offset) (take (Z.to_nat size) bs)) c)
           end
  end.

(** [glCopyBufferSubData(rt, wt, roff, woff, size)] *)
Definition glCopyBufferSubData (rt wt : target) (roff woff size : Z) : M unit := fun c =>
  match data_store rt c, data_store wt c with
  | Some rstore, Some wstore =>
      if (roff <? 0) || (woff <? 0) || (size <? 0)
         || (Z.of_nat (length rstore) <? roff + size)
         || (Z.of_nat (length wstore) <? woff + size)
      then Some (tt, c)                                (* GL_INVALID_VALUE *)
      else if (binding rt c =? binding wt c)%N
              && (roff <? woff + size) && (woff <? roff + size)
      then Some (tt, c)                                (* overlapping ranges *)
      else Some (tt, set_data_store wt
                       (write_range wstore (Z.to_nat woff)
                          (read_range rstore (Z.to_nat roff) (Z.to_nat size))) c)
  | _, _ => Some (tt, c)                               (* GL_INVALID_OPERATION *)
  end.

(** [glMapBufferRange(t, offset, length, access)]: the bytes of the range,
    or a null pointer ([None]) when the call fails. *)
Definition glMapBufferRange (t : target) (offset length : Z) : M (option (list Byte.byte)) :=
  fun c =>
  match data_store t c with
  | None => Some (None, c)
  | Some store =>
      if (offset <? 0) || (length <=? 0) || (Z.of_nat (List.length store) <? offset + length)
      then Some (None, c)
      else Some (Some (read_range store (Z.to_nat offset) (Z.to_nat length)), c)
  end.

Definition glUnmapBuffer (t : target) : M unit := fun c => Some (tt, c).

(** [glDeleteBuffers(1, &id)]: name 0 is ignored; bindings of the deleted
    buffer revert to 0. *)
Definition glDeleteBuffers (id : N) : M unit := fun c =>
  if (id =? 0)%N then Some (tt, c)
  else
    let unbind b := if (b =? id)%N then 0%N else b in
    Some (tt, {| buffers := delete id (buffers c);
                 array_buffer := unbind (array_buffer c);
                 copy_read_buffer := unbind (copy_read_buffer c);
                 copy_write_buffer := unbind (copy_write_buffer c) |}).

End GL.

Notation "x <- m ;; k" := (GL.bind m (fun x => k))
  (at level 100, m at next level, right associativity).
Notation "m ;; k" := (GL.bind m (fun _ => k))
  (at level 100, right associativity).

(** ** vertex_buffer.hpp *)
Inductive DriverDrawHint := STATIC_DRAW | DYNAMIC_DRAW | STREAM_DRAW.

Definition to_usage (hint : DriverDrawHint) : GL.usage :=
  match hint with
  | STATIC_DRAW => GL.GL_STATIC_DRAW
  | DYNAMIC_DRAW => GL.GL_DYNAMIC_DRAW
  | STREAM_DRAW => GL.GL_STREAM_DRAW
  end.

Record VertexBuffer := {
  id_ : N;                      (* std::uint32_t *)
  layout_ : VertexBufferLayout
}.

Module VertexBuffer_impl.
Import GL.

(** [VertexBuffer(vertices, layout, hint)] *)
Definition make (vertices : list float32) (layout : VertexBufferLayout)
    (hint : DriverDrawHint) : M VertexBuffer :=
  id <- glGenBuffers ;;
  glBindBuffer GL_ARRAY_BUFFER id ;;
  glBufferData GL_ARRAY_BUFFER
    (Machine.to_ptrdiff_t (span.size_bytes (span.of_list vertices)))
    (span.data (span.of_list vertices)) (to_usage hint) ;;
  ret {| id_ := id; layout_ := layout |}.

(** [VertexBuffer(vertices, hint)] *)
Definition make_no_layout (vertices : list float32) (hint : DriverDrawHint) : M VertexBuffer :=
  make vertices Layout.empty hint.

(** [~VertexBuffer()] *)
Definition destroy (b : VertexBuffer) : M unit :=
  if (id_ b =? 0)%N then ret tt else glDeleteBuffers (id_ b).

(** What [std::move(other.layout_)] leaves behind: the stride is a scalar
    and is copied, the attribute vector is emptied. *)
Definition moved_from_layout (l : VertexBufferLayout) : VertexBufferLayout :=
  {| m_stride := m_stride l; m_attributes := [] |}.

(** [VertexBuffer(VertexBuffer&& other)]: the new object and what is left
    of [other]. *)
Definition move_construct (other : VertexBuffer) : VertexBuffer * VertexBuffer :=
  ({| id_ := id_ other; layout_ := layout_ other |},
   {| id_ := 0; layout_ := moved_from_layout (layout_ other) |}).

Definition bind (b : VertexBuffer) : M unit := glBindBuffer GL_ARRAY_BUFFER (id_ b).

Definition unbind : M unit := glBindBuffer GL_ARRAY_BUFFER 0.

Definition set_layout (b : VertexBuffer) (layout : VertexBufferLayout) : VertexBuffer :=
  {| id_ := id_ b; layout_ := layout |}.

Definition size (b : VertexBuffer) : Z := Layout.stride (layout_ b).

(** [set_data(vertices)]: a new data store for the buffer, with usage
    [GL_STATIC_DRAW]. *)
Definition set_data (b : VertexBuffer) (vertices : list float32) : M unit :=
  glBindBuffer GL_ARRAY_BUFFER (id_ b) ;;
  glBufferData GL_ARRAY_BUFFER
    (Machine.to_ptrdiff_t (span.size_bytes (span.of_list vertices)))
    (span.data (span.of_list vertices)) GL_STATIC_DRAW.

End VertexBuffer_impl.

(** ** vertex_buffer_inst.hpp

    [VertexBufferInst] derives from [VertexBuffer]; the base sub-object is
    the field [base], used as a coercion. *)
Record VertexBufferInst := {
  base :> VertexBuffer;
  capacity_ : Z;                (* std::size_t *)
  count_ : Z                    (* std::int32_t *)
}.

Module VertexBufferInst_impl.
Import GL.

Definition instance_count (v : VertexBufferInst) : Z := count_ v.
Definition instance_size (v : VertexBufferInst) : Z := Layout.stride (layout_ v).
Definition capacity (v : VertexBufferInst) : Z := capacity_ v.

Definition with_capacity (v : VertexBufferInst) (c : Z) : VertexBufferInst :=
  {| base := base v; capacity_ := c; count_ := count_ v |}.

Definition with_count (v : VertexBufferInst) (n : Z) : VertexBufferInst :=
  {| base := base v; capacity_ := capacity_ v; count_ := n |}.

(** [VertexBufferInst(instance_data, layout)]: the base is built first,
    then [capacity_{instance_data.size()}]; [count_] keeps its default
    member initialiser. *)
Definition make (instance_data : list float32) (layout : VertexBufferLayout)
    : M VertexBufferInst :=
  b <- VertexBuffer_impl.make instance_data layout DYNAMIC_DRAW ;;
  ret {| base := b; capacity_ := span.size (span.of_list instance_data); count_ := 0 |}.

(** [VertexBufferInst(instance_data)] *)
Definition make_no_layout (instance_data : list float32) : M VertexBufferInst :=
  b <- VertexBuffer_impl.make_no_layout instance_data DYNAMIC_DRAW ;;
  ret {| base := b; capacity_ := span.size (span.of_list instance_data); count_ := 0 |}.

Definition calc_capacity (v : VertexBufferInst) (capacity : Z) : option Z :=
  if capacity =? 0 then Some (instance_size v)
  else if capacity =? instance_size v then Some (Machine.to_size_t (instance_size v * 32))
  else Double.to_size_t (Double.mul (Double.of_size_t capacity) Double.phi).

Definition resize_buffer (v : VertexBufferInst) (old_capacity new_capacity : Z) : M unit :=
  let live := Machine.to_ptrdiff_t (Machine.to_size_t (count_ v) * Layout.stride (layout_ v)) in
  new_id <- glGenBuffers ;;
  glBindBuffer GL_COPY_WRITE_BUFFER new_id ;;
  glBufferData GL_COPY_WRITE_BUFFER (Machine.to_ptrdiff_t old_capacity) None GL_DYNAMIC_DRAW ;;
  glBindBuffer GL_COPY_READ_BUFFER (id_ v) ;;
  glCopyBufferSubData GL_COPY_READ_BUFFER GL_COPY_WRITE_BUFFER 0 0 live ;;
  glBindBuffer GL_COPY_WRITE_BUFFER (id_ v) ;;
  glBufferData GL_COPY_WRITE_BUFFER (Machine.to_ptrdiff_t new_capacity) None GL_DYNAMIC_DRAW ;;
  glBindBuffer GL_COPY_READ_BUFFER new_id ;;
  glCopyBufferSubData GL_COPY_READ_BUFFER GL_COPY_WRITE_BUFFER 0 0 live ;;
  glDeleteBuffers new_id ;;
  glBindBuffer GL_ARRAY_BUFFER (id_ v).

(** Release build: the assertion under [RGL_DEBUG] is compiled out. *)
Definition update_instance (v : VertexBufferInst) (index : Z) (instance_data : span.t)
    : M unit :=
  glBindBuffer GL_ARRAY_BUFFER (id_ v) ;;
  glBufferSubData GL_ARRAY_BUFFER
    (Machine.to_ptrdiff_t (Machine.to_size_t index * span.size_bytes instance_data))
    (Machine.to_ptrdiff_t (span.size_bytes instance_data))
    (span.data instance_data).

(** [count_ + 1] and [count_++] overflow a signed 32-bit integer when
    [count_] is [INT32_MAX]: undefined. *)
Definition add_instance (v : VertexBufferInst) (instance_data : span.t)
    : M VertexBufferInst :=
  if Machine.INT32_MAX <=? count_ v then undefined
  else
    v1 <- (if capacity_ v <?
              Machine.to_size_t (Machine.to_size_t (count_ v + 1) * Layout.stride (layout_ v))
           then match calc_capacity v (capacity_ v) with
                | None => undefined
                | Some new_capacity =>
                    resize_buffer v (capacity_ v) new_capacity ;;
                    ret (with_capacity v new_capacity)
                end
           else ret v) ;;
    update_instance v1 (count_ v1) instance_data ;;
    ret (with_count v1 (count_ v1 + 1)).

Definition delete_instance (v : VertexBufferInst) (index : Z) : M (Z * VertexBufferInst) :=
  if (count_ v <=? index) || (index <? 0) then ret (count_ v, v)
  else
    last_instance_ptr <-
      glMapBufferRange GL_ARRAY_BUFFER
        (Machine.to_ptrdiff_t (Machine.to_size_t (count_ v - 1) * Layout.stride (layout_ v)))
        (Machine.to_uint32_t (Layout.stride (layout_ v))) ;;
    let last_instance :=
      span.of_pointer last_instance_ptr (Layout.stride_elements (layout_ v)) in
    update_instance v index last_instance ;;
    glUnmapBuffer GL_ARRAY_BUFFER ;;
    ret (index, with_count v (count_ v - 1)).

(** [VertexBufferInst(VertexBufferInst&&) = default]: the base is
    move-constructed, the scalar members are copied. *)
Definition move_construct (other : VertexBufferInst) : VertexBufferInst * VertexBufferInst :=
  let '(b, b_other) := VertexBuffer_impl.move_construct other in
  ({| base := b; capacity_ := capacity_ other; count_ := count_ other |},
   {| base := b_other; capacity_ := capacity_ other; count_ := count_ other |}).

End VertexBufferInst_impl.

(** ** Objects in memory

    Move assignment compares the addresses of its two operands, so the
    objects live in a store indexed by address. *)
Module Objects.
Import GL.

Definition address := positive.

(** [VertexBuffer::operator=(VertexBuffer&& other)] followed by the
    member-wise assignment of the defaulted
    [VertexBufferInst::operator=(VertexBufferInst&&)]. *)
Definition move_assign (this other : address) (objs : gmap address VertexBufferInst)
    : M (gmap address VertexBufferInst) :=
  match (objs !! this : option VertexBufferInst),
        (objs !! other : option VertexBufferInst) with
  | Some t, Some o =>
      if decide (this = other) then ret objs
      else
        glDeleteBuffers (id_ t) ;;
        ret (<[other := {| base := {| id_ := 0; layout_ := layout_ o |};
                           capacity_ := capacity_ o; count_ := count_ o |}]>
             (<[this := {| base := {| id_ := id_ o; layout_ := layout_ o |};
                           capacity_ := capacity_ o; count_ := count_ o |}]> objs))
  | _, _ => undefined
  end.

(** The special member functions as the two classes declare them. *)
Inductive special_member :=
| copy_constructor | copy_assignment | move_constructor | move_assignment | destructor.

Inductive declaration := deleted | defaulted | user_provided.

Definition VertexBuffer_declares (m : special_member) : declaration :=
  match m with
  | copy_constructor => deleted
  | copy_assignment => deleted
  | move_constructor => user_provided
  | move_assignment => user_provided
  | destructor => user_provided
  end.

Definition VertexBufferInst_declares (m : special_member) : declaration :=
  match m with
  | copy_constructor => deleted
  | copy_assignment => deleted
  | move_constructor => defaulted
  | move_assignment => defaulted
  | destructor => defaulted
  end.

End Objects.

(** ** index_buffer.hpp

    Only the data members: [VertexArray] holds an [IndexBuffer] by value. *)
Module IndexBuffer.

Record t := {
  id_ : N;                      (* std::uint32_t *)
  count_ : Z                    (* std::int32_t *)
}.

(** [IndexBuffer() = default] *)
Definition default : t := {| id_ := 0; count_ := 0 |}.

End IndexBuffer.

(** ** vertex_array.hpp

    Buffer commands act on the context as before.  The commands that set
    vertex array state are not interpreted: each method returns the list of
    those it issues, in order. *)
Module VertexArray.

Record t := {
  id_ : N;                                      (* std::uint32_t *)
  vertex_buffers_ : list VertexBuffer;          (* std::list<VertexBuffer> *)
  instanced_vbo_ : option VertexBufferInst;     (* std::optional<VertexBufferInst> *)
  index_buffer_ : IndexBuffer.t;
  attrib_index_ : Z                             (* uint32_t *)
}.

End VertexArray.

Module VertexArray_impl.
Import GL.

Inductive call :=
| glBindVertexArray (array : N)
| glEnableVertexAttribArray (index : Z)
| glVertexAttribPointer (index size : Z) (type : shader_data_type.GLenum)
    (normalized : bool) (stride pointer : Z)
| glVertexAttribDivisor (index divisor : Z).

(** The loop of [add_vertex_buffer] over the attributes of the layout:
    the calls issued and the value [attrib_index_] is left with. *)
Fixpoint add_vertex_buffer_loop (layout : VertexBufferLayout) (attrib_index : Z)
    (attributes : list VertexAttribute) : list call * Z :=
  match attributes with
  | [] => ([], attrib_index)
  | attribute :: rest =>
      let '(calls, last) :=
        add_vertex_buffer_loop layout (Machine.to_uint32_t (attrib_index + 1)) rest in
      (glEnableVertexAttribArray attrib_index ::
       glVertexAttribPointer attrib_index
         (Machine.to_int32_t
            (Machine.to_size_t
               (shader_data_type.component_count (type attribute) * element_count attribute)))
         (shader_data_type.to_opengl_underlying_type (type attribute)) false
         (Machine.to_int32_t (Layout.stride layout))
         (offset attribute) ::
       calls, last)
  end.

(** [add_vertex_buffer(VertexBuffer&& vbo)]: the array, the position in
    [vertex_buffers_] the returned iterator designates, what is left of the
    argument, and the vertex array calls issued. *)
Definition add_vertex_buffer (va : VertexArray.t) (vbo : VertexBuffer)
    : M (VertexArray.t * nat * VertexBuffer * list call) :=
  let '(element, vbo_left) := VertexBuffer_impl.move_construct vbo in
  let vertex_buffers := VertexArray.vertex_buffers_ va ++ [element] in
  VertexBuffer_impl.bind element ;;
  let '(calls, last) :=
    add_vertex_buffer_loop (layout_ element) (VertexArray.attrib_index_ va)
      (Layout.get_attributes (layout_ element)) in
  ret ({| VertexArray.id_ := VertexArray.id_ va;
          VertexArray.vertex_buffers_ := vertex_buffers;
          VertexArray.instanced_vbo_ := VertexArray.instanced_vbo_ va;
          VertexArray.index_buffer_ := VertexArray.index_buffer_ va;
          VertexArray.attrib_index_ := last |},
       pred (length vertex_buffers), vbo_left,
       glBindVertexArray (VertexArray.id_ va) :: calls).

(** The loop of [set_instance_buffer]. *)
Fixpoint set_instance_buffer_loop (layout : VertexBufferLayout) (attrib_index : Z)
    (attributes : list VertexAttribute) : list call * Z :=
  match attributes with
  | [] => ([], attrib_index)
  | attribute :: rest =>
      let next := Machine.to_uint32_t (attrib_index + 1) in
      let '(calls, last) := set_instance_buffer_loop layout next rest in
      (glEnableVertexAttribArray attrib_index ::
       glVertexAttribPointer attrib_index
         (Machine.to_int32_t
            (Machine.to_size_t
               (shader_data_type.component_count (type attribute) * element_count attribute)))
         (shader_data_type.to_opengl_underlying_type (type attribute)) false
         (Machine.to_int32_t (Layout.stride layout))
         (offset attribute) ::
       glVertexAttribDivisor (Machine.to_uint32_t (next - 1)) 1 ::
       calls, last)
  end.

(** The argument of [set_instance_buffer], an rvalue reference: to the
    store the array holds (the value of [instanced_data()], moved), or to
    another object. *)
Inductive store_reference :=
| store_held
| other_store (vbo : VertexBufferInst).

(** The store a reference designates. *)
Definition designated (held : option VertexBufferInst) (vbo : store_reference)
    : option VertexBufferInst :=
  match vbo with
  | store_held => held
  | other_store vbo => Some vbo
  end.

(** [instanced_vbo_ = std::move(vbo)]: an engaged optional move-assigns its
    value, an empty one move-constructs it.  The base [operator=] does
    nothing when the argument is the object assigned to; otherwise it
    deletes the buffer held so far and copies the layout.  The value held,
    and what is left of the argument when that is another object. *)
Definition assign_instanced_vbo (held : option VertexBufferInst) (vbo : store_reference)
    : M (VertexBufferInst * option VertexBufferInst) :=
  match held, vbo with
  | Some old, store_held => ret (old, None)
  | None, store_held => undefined          (* a reference into an empty optional *)
  | Some old, other_store vbo =>
      glDeleteBuffers (id_ old) ;;
      ret ({| base := {| id_ := id_ vbo; layout_ := layout_ vbo |};
              capacity_ := capacity_ vbo; count_ := count_ vbo |},
           Some {| base := {| id_ := 0; layout_ := layout_ vbo |};
                   capacity_ := capacity_ vbo; count_ := count_ vbo |})
  | None, other_store vbo =>
      ret ((VertexBufferInst_impl.move_construct vbo).1,
           Some (VertexBufferInst_impl.move_construct vbo).2)
  end.

(** [set_instance_buffer(VertexBufferInst&& vbo)]: the array, what is left
    of the argument when that is another object, and the vertex array
    calls issued. *)
Definition set_instance_buffer (va : VertexArray.t) (vbo : store_reference)
    : M (VertexArray.t * option VertexBufferInst * list call) :=
  r <- assign_instanced_vbo (VertexArray.instanced_vbo_ va) vbo ;;
  let '(held, vbo_left) := r in
  VertexBuffer_impl.bind held ;;
  let '(calls, last) :=
    set_instance_buffer_loop (layout_ held) (VertexArray.attrib_index_ va)
      (Layout.get_attributes (layout_ held)) in
  ret ({| VertexArray.id_ := VertexArray.id_ va;
          VertexArray.vertex_buffers_ := VertexArray.vertex_buffers_ va;
          VertexArray.instanced_vbo_ := Some held;
          VertexArray.index_buffer_ := VertexArray.index_buffer_ va;
          VertexArray.attrib_index_ := last |},
       vbo_left,
       glBindVertexArray (VertexArray.id_ va) :: calls).

(** [clear_instance_buffer()]: [instanced_vbo_.reset()] destroys the value
    held, if any. *)
Definition clear_instance_buffer (va : VertexArray.t) : M VertexArray.t :=
  match VertexArray.instanced_vbo_ va with
  | Some held => VertexBuffer_impl.destroy held
  | None => ret tt
  end ;;
  ret {| VertexArray.id_ := VertexArray.id_ va;
         VertexArray.vertex_buffers_ := VertexArray.vertex_buffers_ va;
         VertexArray.instanced_vbo_ := None;
         VertexArray.index_buffer_ := VertexArray.index_buffer_ va;
         VertexArray.attrib_index_ := VertexArray.attrib_index_ va |}.

End VertexArray_impl.

(** ** The OpenGL uniform buffer binding points (glad/glad.h)

    The context extended with the general [GL_UNIFORM_BUFFER] binding and
    the indexed binding points; [max_uniform_buffer_bindings] is the
    implementation's [GL_MAX_UNIFORM_BUFFER_BINDINGS]. *)
Module UniformGL.

Inductive target := GL_UNIFORM_BUFFER.

Record context := Context {
  gl : GL.context;
  uniform_buffer : N;
  uniform_buffer_bindings : gmap Z N;
  max_uniform_buffer_bindings : Z
}.

Definition M (A : Type) : Type := context -> option (A * context).

Definition ret {A} (a : A) : M A := fun x => Some (a, x).

Definition bind {A B} (m : M A) (k : A -> M B) : M B :=
  fun x => match m x with
           | Some (a, x') => k a x'
           | None => None
           end.

Definition undefined {A} : M A := fun _ => None.

Definition set_gl (c : GL.context) (x : context) : context :=
  {| gl := c; uniform_buffer := uniform_buffer x;
     uniform_buffer_bindings := uniform_buffer_bindings x;
     max_uniform_buffer_bindings := max_uniform_buffer_bindings x |}.

Definition set_uniform_buffer (id : N) (x : context) : context :=
  {| gl := gl x; uniform_buffer := id;
     uniform_buffer_bindings := uniform_buffer_bindings x;
     max_uniform_buffer_bindings := max_uniform_buffer_bindings x |}.

(** A command on the buffer targets of [GL], run in the extended context. *)
Definition lift {A} (m : GL.M A) : M A := fun x =>
  match m (gl x) with
  | Some (a, c) => Some (a, set_gl c x)
  | None => None
  end.

(** The data store of the buffer bound to [GL_UNIFORM_BUFFER]. *)
Definition data_store (t : target) (x : context) : option (list Byte.byte) :=
  if (uniform_buffer x =? 0)%N then None else GL.buffers (gl x) !! uniform_buffer x.

Definition set_data_store (t : target) (bs : list Byte.byte) (x : context) : context :=
  set_gl (GL.set_buffers (<[uniform_buffer x := bs]> (GL.buffers (gl x))) (gl x)) x.

Definition glGenBuffers : M N := lift GL.glGenBuffers.

Definition glBindBuffer (t : target) (id : N) : M unit := fun x =>
  Some (tt, set_uniform_buffer id x).

(** As [GL.glBufferData], for the buffer bound to [GL_UNIFORM_BUFFER]. *)
Definition glBufferData (t : target) (size : Z) (data : option (list Byte.byte))
    (u : GL.usage) : M unit := fun x =>
  match data_store t x with
  | None => Some (tt, x)                               (* GL_INVALID_OPERATION *)
  | Some _ =>
      if size <? 0 then Some (tt, x)                   (* GL_INVALID_VALUE *)
      else match data with
           | None => Some (tt, set_data_store t (replicate (Z.to_nat size) Byte.x00) x)
           | Some bs =>
               if Z.of_nat (length bs) <? size then None
               else Some (tt, set_data_store t (take (Z.to_nat size) bs) x)
           end
  end.

(** As [GL.glBufferSubData], for the buffer bound to [GL_UNIFORM_BUFFER]. *)
Definition glBufferSubData (t : target) (offset size : Z) (data : option (list Byte.byte))
    : M unit := fun x =>
  match data_store t x with
  | None => Some (tt, x)                               (* GL_INVALID_OPERATION *)
  | Some store =>
      if (offset <? 0) || (size <? 0) || (Z.of_nat (length store) <? offset + size)
      then Some (tt, x)                                (* GL_INVALID_VALUE *)
      else match data with
           | None => if size =? 0 then Some (tt, x) else None
           | Some bs =>
               if Z.of_nat (length bs) <? size then None
               else Some (tt, set_data_store t
                                (GL.write_range store (Z.to_nat offset)
                                   (take (Z.to_nat size) bs)) x)
           end
  end.

(** [glBindBufferBase(t, index, buffer)]: binds an existing buffer (or 0)
    to the indexed binding point and to the general one; an index that is
    not below [GL_MAX_UNIFORM_BUFFER_BINDINGS] is an error. *)
Definition glBindBufferBase (t : target) (index : Z) (buffer : N) : M unit := fun x =>
  if (index <? 0) || (max_uniform_buffer_bindings x <=? index)
  then Some (tt, x)                                    (* GL_INVALID_VALUE *)
  else if negb (buffer =? 0)%N && bool_decide (GL.buffers (gl x) !! buffer = None)
  then Some (tt, x)                                    (* GL_INVALID_VALUE *)
  else Some (tt, {| gl := gl x; uniform_buffer := buffer;
                    uniform_buffer_bindings := <[index := buffer]> (uniform_buffer_bindings x);
                    max_uniform_buffer_bindings := max_uniform_buffer_bindings x |}).

(** [glDeleteBuffers(1, &id)]: the uniform binding points of the deleted
    buffer revert to 0 as well. *)
Definition glDeleteBuffers (id : N) : M unit := fun x =>
  if (id =? 0)%N then Some (tt, x)
  else
    let unbind b := if (b =? id)%N then 0%N else b in
    match GL.glDeleteBuffers id (gl x) with
    | Some (_, c) =>
        Some (tt, {| gl := c; uniform_buffer := unbind (uniform_buffer x);
                     uniform_buffer_bindings := unbind <$> uniform_buffer_bindings x;
                     max_uniform_buffer_bindings := max_uniform_buffer_bindings x |})
    | None => None
    end.

End UniformGL.

Declare Scope uniform_scope.
Delimit Scope uniform_scope with uniform.
Notation "x <- m ;; k" := (UniformGL.bind m (fun x => k))
  (at level 100, m at next level, right associativity) : uniform_scope.
Notation "m ;; k" := (UniformGL.bind m (fun _ => k))
  (at level 100, right associativity) : uniform_scope.

(** ** uniform_buffer.hpp

    [attr_cache_] maps a name to a reference to an attribute of [layout_];
    the reference is modelled by the position of the attribute. *)
Module UniformBuffer.

Record t := {
  id_ : N;                              (* std::uint32_t *)
  binding_point_ : Z;                   (* int32_t *)
  attr_cache_ : gmap string nat;        (* std::unordered_map<std::string_view, AttrRef> *)
  layout_ : VertexBufferLayout
}.

End UniformBuffer.

Module UniformBuffer_impl.
Import UniformGL.
#[local] Open Scope uniform_scope.

(** What a method call does besides changing the context: it returns, or
    leaves by an exception. *)
Inductive outcome := returned | thrown_out_of_range.

(** The loop that fills the cache: [emplace] inserts nothing when the key
    is present. *)
Fixpoint fill_attr_cache (attr_cache : gmap string nat) (position : nat)
    (attributes : list VertexAttribute) : gmap string nat :=
  match attributes with
  | [] => attr_cache
  | attr :: rest =>
      fill_attr_cache
        (match attr_cache !! name attr with
         | Some _ => attr_cache
         | None => <[name attr := position]> attr_cache
         end)
        (S position) rest
  end.

(** [UniformBuffer(contents, layout, binding_point)] *)
Definition make (contents : list float32) (layout : VertexBufferLayout) (binding_point : Z)
    : M UniformBuffer.t :=
  id <- glGenBuffers ;;
  glBindBuffer GL_UNIFORM_BUFFER id ;;
  glBufferData GL_UNIFORM_BUFFER
    (Machine.to_ptrdiff_t (span.size_bytes (span.of_list contents)))
    (span.data (span.of_list contents)) GL.GL_DYNAMIC_DRAW ;;
  glBindBufferBase GL_UNIFORM_BUFFER (Machine.to_uint32_t binding_point) id ;;
  glBindBuffer GL_UNIFORM_BUFFER 0 ;;
  ret {| UniformBuffer.id_ := id;
         UniformBuffer.binding_point_ := binding_point;
         UniformBuffer.attr_cache_ := fill_attr_cache ∅ 0 (Layout.get_attributes layout);
         UniformBuffer.layout_ := layout |}.

(** [UniformBuffer(layout, binding_point)] *)
Definition make_from_layout (layout : VertexBufferLayout) (binding_point : Z)
    : M UniformBuffer.t :=
  id <- glGenBuffers ;;
  glBindBuffer GL_UNIFORM_BUFFER id ;;
  glBufferData GL_UNIFORM_BUFFER (Machine.to_ptrdiff_t (Layout.stride layout)) None
    GL.GL_DYNAMIC_DRAW ;;
  glBindBufferBase GL_UNIFORM_BUFFER (Machine.to_uint32_t binding_point) id ;;
  glBindBuffer GL_UNIFORM_BUFFER 0 ;;
  ret {| UniformBuffer.id_ := id;
         UniformBuffer.binding_point_ := binding_point;
         UniformBuffer.attr_cache_ := fill_attr_cache ∅ 0 (Layout.get_attributes layout);
         UniformBuffer.layout_ := layout |}.

Definition bind (ubo : UniformBuffer.t) : M unit :=
  glBindBuffer GL_UNIFORM_BUFFER (UniformBuffer.id_ ubo).

Definition unbind : M unit := glBindBuffer GL_UNIFORM_BUFFER 0.

(** [~UniformBuffer()] *)
Definition destroy (ubo : UniformBuffer.t) : M unit :=
  if (UniformBuffer.id_ ubo =? 0)%N then ret tt else glDeleteBuffers (UniformBuffer.id_ ubo).

(** [set_attribute_data(uniform_data, name, offset)]: [attr_cache_.at(name)]
    throws [std::out_of_range] for a name that is not a key.  The third
    parameter is [offset] in the source. *)
Definition set_attribute_data_by_name_at (ubo : UniformBuffer.t) (uniform_data : span.t)
    (name : string) (float_offset : Z) : M outcome :=
  match UniformBuffer.attr_cache_ ubo !! name with
  | None => ret thrown_out_of_range
  | Some position =>
      match m_attributes (UniformBuffer.layout_ ubo) !! position with
      | None => undefined                              (* a dangling reference *)
      | Some attr =>
          glBufferSubData GL_UNIFORM_BUFFER
            (Machine.to_ptrdiff_t
               (Machine.to_size_t
                  (offset attr +
                   Machine.to_size_t (float_offset * shader_data_type.sizeof_float))))
            (Machine.to_ptrdiff_t (span.size_bytes uniform_data))
            (span.data uniform_data) ;;
          ret returned
      end
  end.

(** [set_attribute_data(uniform_data, name)] *)
Definition set_attribute_data_by_name (ubo : UniformBuffer.t) (uniform_data : span.t)
    (name : string) : M outcome :=
  set_attribute_data_by_name_at ubo uniform_data name 0.

(** [set_attribute_data(uniform_data, attribute_index, offset)]:
    [layout_[attribute_index]] is unchecked. *)
Definition set_attribute_data_by_index_at (ubo : UniformBuffer.t) (uniform_data : span.t)
    (attribute_index : Z) (float_offset : Z) : M unit :=
  match Layout.at_index (UniformBuffer.layout_ ubo) attribute_index with
  | None => undefined
  | Some attr =>
      glBufferSubData GL_UNIFORM_BUFFER
        (Machine.to_ptrdiff_t
           (Machine.to_size_t
              (offset attr +
               Machine.to_size_t (float_offset * shader_data_type.sizeof_float))))
        (Machine.to_ptrdiff_t (span.size_bytes uniform_data))
        (span.data uniform_data)
  end.

(** [set_attribute_data(uniform_data, attribute_index)] *)
Definition set_attribute_data_by_index (ubo : UniformBuffer.t) (uniform_data : span.t)
    (attribute_index : Z) : M unit :=
  set_attribute_data_by_index_at ubo uniform_data attribute_index 0.

End UniformBuffer_impl.

(** ** Vocabulary of the statements *)

(** [floor (c * phi)] for the golden ratio [phi = (1 + sqrt 5) / 2], in
    integer arithmetic: [floor ((c + floor (sqrt (5 c^2))) / 2)]. *)
Definition floor_mul_phi (c : Z) : Z := (c + Z.sqrt (5 * c * c)) / 2.

Definition golden_ratio : R := ((1 + sqrt 5) / 2)%R.

(** What [n] right shifts of [SpecFloat] leave of a mantissa [M]: the
    quotient, and the position of the discarded bits relative to one half. *)
Definition shr_inv (M k : Z) (mrs : shr_record) : Prop :=
  shr_m mrs = M / 2 ^ k /\
  match shr_r mrs, shr_s mrs with
  | false, false => M mod 2 ^ k = 0
  | false, true => 0 < 2 * (M mod 2 ^ k) < 2 ^ k
  | true, false => 2 * (M mod 2 ^ k) = 2 ^ k
  | true, true => 2 ^ k < 2 * (M mod 2 ^ k)
  end.

(** Bytes of one field of a layout, and the packed offset of field [i]. *)
Definition field_bytes (a : VertexAttribute) : Z :=
  shader_data_type.size (type a) * element_count a.

Definition sum_field_bytes (attributes : list VertexAttribute) : Z :=
  foldr (fun a acc => field_bytes a + acc) 0 attributes.

Definition packed_offset (attributes : list VertexAttribute) (i : nat) : Z :=
  sum_field_bytes (take i attributes).

(** The bytes of slot [i] in a store of records of [s] bytes. *)
Definition slot (store : list Byte.byte) (s i : Z) : list Byte.byte :=
  GL.read_range store (Z.to_nat (i * s)) (Z.to_nat s).

(** The record a store holds at slot [i], read from its own buffer. *)
Definition record_at (c : GL.context) (v : VertexBufferInst) (i : Z)
    : option (list Byte.byte) :=
  match GL.buffers c !! id_ v with
  | Some store =>
      if (0 <=? i) && ((i + 1) * VertexBufferInst_impl.instance_size v <=? Z.of_nat (length store))
      then Some (slot store (VertexBufferInst_impl.instance_size v) i)
      else None
  | None => None
  end.

(** The store owns a buffer object holding all its live records. *)
Definition holds_records (c : GL.context) (v : VertexBufferInst) (store : list Byte.byte)
    : Prop :=
  id_ v <> 0%N /\
  GL.buffers c !! id_ v = Some store /\
  0 <= count_ v /\
  count_ v <= Machine.INT32_MAX /\
  count_ v * VertexBufferInst_impl.instance_size v <= Z.of_nat (length store) /\
  Z.of_nat (length store) < 2 ^ 63.

(** The read interface of [VertexBufferLayout]: every public accessor the
    class declares, and what it answers. *)
Module LayoutInterface.

Inductive query :=
| q_stride
| q_stride_elements
| q_get_attributes
| q_index (index : Z).

Inductive answer :=
| a_size (n : Z)
| a_attributes (l : list VertexAttribute)
| a_attribute (a : VertexAttribute)
| a_undefined.

Definition ask (l : VertexBufferLayout) (q : query) : answer :=
  match q with
  | q_stride => a_size (Layout.stride l)
  | q_stride_elements => a_size (Layout.stride_elements l)
  | q_get_attributes => a_attributes (Layout.get_attributes l)
  | q_index index =>
      match Layout.at_index l index with
      | Some a => a_attribute a
      | None => a_undefined
      end
  end.

(** A lookup by name, were the class to offer one: some accessor chosen
    from the name alone that answers with the field of that name when the
    layout has one, and with no field when it has none. *)
Definition is_lookup_by_name (by_name : string -> query) : Prop :=
  forall (l : VertexBufferLayout) (n : string),
    match List.find (fun a => String.eqb (name a) n) (m_attributes l) with
    | Some a => ask l (by_name n) = a_attribute a
    | None => forall a, ask l (by_name n) <> a_attribute a
    end.

End LayoutInterface.

(** A store whose bookkeeping agrees with its buffer: the allocation is
    [capacity_] bytes and holds the [count_] live records, and the capacity
    is one the growth policy produces from an empty store. *)
Definition well_sized (c : GL.context) (v : VertexBufferInst) : Prop :=
  let s := VertexBufferInst_impl.instance_size v in
  id_ v <> 0%N /\
  0 <= count_ v /\
  (exists store, GL.buffers c !! id_ v = Some store /\ Z.of_nat (length store) = capacity_ v) /\
  count_ v * s <= capacity_ v /\
  (capacity_ v = 0 \/ capacity_ v = s \/ 32 * s <= capacity_ v) /\
  (capacity_ v <= 32 * s \/ capacity_ v <= 2 * count_ v * s).

(** A store whose allocation is exactly [capacity_] bytes, fewer than
    [2^63], and holds the [count_] live records, with a capacity of 0, of
    one record, or of at least 32 records. *)
Definition well_allocated (c : GL.context) (v : VertexBufferInst) : Prop :=
  let s := VertexBufferInst_impl.instance_size v in
  id_ v <> 0%N /\
  0 <= count_ v /\
  (exists store, GL.buffers c !! id_ v = Some store /\ Z.of_nat (length store) = capacity_ v) /\
  count_ v * s <= capacity_ v /\
  (capacity_ v = 0 \/ capacity_ v = s \/ 32 * s <= capacity_ v) /\
  capacity_ v < 2 ^ 63.

(** A sequence of appends. *)
Fixpoint add_all (v : VertexBufferInst) (records : list (list float32)) : GL.M VertexBufferInst :=
  match records with
  | [] => GL.ret v
  | r :: rest => v' <- VertexBufferInst_impl.add_instance v (span.of_list r) ;; add_all v' rest
  end.

(** A command that is defined in every context. *)
Definition total {A} (m : GL.M A) : Prop :=
  forall c, exists a c', m c = Some (a, c').

(** The byte size of the data store a store owns. *)
Definition allocation_size (v : VertexBufferInst) : GL.M (option Z) :=
  fun c => Some ((fun store => Z.of_nat (length store)) <$> GL.buffers c !! id_ v, c).

(** Observing a program: its result when run from the initial context. *)
Definition run {A} (m : GL.M A) : option A := fst <$> m GL.initial.

Definition read_record (v : VertexBufferInst) (i : Z) : GL.M (option (list Byte.byte)) :=
  fun c => Some (record_at c v i, c).

(** The whole data store of the buffer a store owns. *)
Definition read_store (v : VertexBufferInst) : GL.M (option (list Byte.byte)) :=
  fun c => Some (GL.buffers c !! id_ v, c).

(** The vertex array calls of one kind in a list of calls, in order. *)
Definition enabled_indices (calls : list VertexArray_impl.call) : list Z :=
  omap (fun c => match c with
                 | VertexArray_impl.glEnableVertexAttribArray index => Some index
                 | _ => None
                 end) calls.

Record attrib_pointer := {
  ap_index : Z; ap_size : Z; ap_type : shader_data_type.GLenum;
  ap_normalized : bool; ap_stride : Z; ap_pointer : Z
}.

Definition pointer_calls (calls : list VertexArray_impl.call) : list attrib_pointer :=
  omap (fun c => match c with
                 | VertexArray_impl.glVertexAttribPointer index size type normalized
                     stride pointer =>
                     Some {| ap_index := index; ap_size := size; ap_type := type;
                             ap_normalized := normalized; ap_stride := stride;
                             ap_pointer := pointer |}
                 | _ => None
                 end) calls.

Definition divisor_calls (calls : list VertexArray_impl.call) : list (Z * Z) :=
  omap (fun c => match c with
                 | VertexArray_impl.glVertexAttribDivisor index divisor => Some (index, divisor)
                 | _ => None
                 end) calls.

(** The first attribute of a list that carries a given name, with its
    position. *)
Definition first_named (attributes : list VertexAttribute) (n : string)
    : option (nat * VertexAttribute) :=
  list_find (fun a => name a = n) attributes.

(** Concrete inputs used in examples. *)
Module Examples.
Import GL VertexBufferInst_impl.

Definition pos_uv_fields : list VertexAttribute :=
  [VertexAttribute_ctor.scalar shader_data_type.vec3 "pos";
   VertexAttribute_ctor.scalar shader_data_type.vec2 "uv"].

Definition layout_pos_uv : VertexBufferLayout := Layout.make pos_uv_fields.

Definition layout_f32 : VertexBufferLayout :=
  Layout.make [VertexAttribute_ctor.scalar shader_data_type.f32 "x"].

Definition fl (b : Byte.byte) : float32 := Float32 b Byte.x00 Byte.x00 Byte.x00.

Definition r0 : list float32 := [fl Byte.x10].
Definition r1 : list float32 := [fl Byte.x11].
Definition r2 : list float32 := [fl Byte.x12].

Definition five_floats : list float32 :=
  [fl Byte.x01; fl Byte.x02; fl Byte.x03; fl Byte.x04; fl Byte.x05].

Definition five_other_floats : list float32 :=
  [fl Byte.xa1; fl Byte.xa2; fl Byte.xa3; fl Byte.xa4; fl Byte.xa5].

(** A store of three one-float records and a context holding its buffer. *)
Definition small_store : VertexBufferInst :=
  {| base := {| id_ := 1; layout_ := layout_f32 |}; capacity_ := 12; count_ := 3 |}.

Definition small_context : context :=
  {| buffers := {[ 1%N := span.bytes (r0 ++ r1 ++ r2) ]};
     array_buffer := 1; copy_read_buffer := 0; copy_write_buffer := 0 |}.

(** A store of one-float records filled to its capacity of 32 records. *)
Definition full_store : VertexBufferInst :=
  {| base := {| id_ := 1; layout_ := layout_f32 |}; capacity_ := 128; count_ := 32 |}.

(** Two stores of one record each, owning the buffers 1 and 2, and the
    context that creating them one after the other leaves. *)
Definition store_a : VertexBufferInst :=
  {| base := {| id_ := 1; layout_ := layout_f32 |}; capacity_ := 4; count_ := 1 |}.

Definition store_b : VertexBufferInst :=
  {| base := {| id_ := 2; layout_ := layout_f32 |}; capacity_ := 4; count_ := 1 |}.

Definition two_stores_context : context :=
  {| buffers := {[ 1%N := span.bytes r0; 2%N := span.bytes r1 ]};
     array_buffer := 2; copy_read_buffer := 0; copy_write_buffer := 2 |}.

Definition two_stores : M (VertexBufferInst * VertexBufferInst) :=
  a <- make [] layout_f32 ;;
  a <- add_instance a (span.of_list r0) ;;
  b <- make [] layout_f32 ;;
  b <- add_instance b (span.of_list r1) ;;
  ret (a, b).

(** The two stores as objects at addresses 1 and 2. *)
Definition two_objects : gmap positive VertexBufferInst :=
  {[ 1%positive := store_a; 2%positive := store_b ]}.

(** A field list whose total size is [2^32 + 12] bytes. *)
Definition wide_fields : list VertexAttribute :=
  [VertexAttribute_ctor.array shader_data_type.f32_arr "a" (2 ^ 30);
   VertexAttribute_ctor.scalar shader_data_type.f32 "b";
   VertexAttribute_ctor.scalar shader_data_type.vec2 "c"].

(** An empty store of one-float records, then three appends. *)
Definition three_records : M VertexBufferInst :=
  v <- make [] layout_f32 ;;
  v <- add_instance v (span.of_list r0) ;;
  v <- add_instance v (span.of_list r1) ;;
  add_instance v (span.of_list r2).

(** The same store after another vertex buffer has been created, which
    leaves that other buffer bound to [GL_ARRAY_BUFFER]. *)
Definition three_records_then_other_buffer : M VertexBufferInst :=
  v <- three_records ;;
  _ <- VertexBuffer_impl.make [fl Byte.xa0; fl Byte.xa1; fl Byte.xa2] layout_f32 STATIC_DRAW ;;
  ret v.

(** The same store after [VertexBuffer::unbind()]. *)
Definition three_records_then_unbind : M VertexBufferInst :=
  v <- three_records ;;
  VertexBuffer_impl.unbind ;;
  ret v.

(** An empty store of one-float records as its constructor leaves it in
    the initial context. *)
Definition empty_store : VertexBufferInst :=
  {| base := {| id_ := 1; layout_ := layout_f32 |}; capacity_ := 0; count_ := 0 |}.

Definition empty_context : context :=
  {| buffers := {[ 1%N := [] ]};
     array_buffer := 1; copy_read_buffer := 0; copy_write_buffer := 0 |}.

(** A store that has shrunk: grown to 207 bytes, then emptied down to two
    records. *)
Definition shrunk_store : VertexBufferInst :=
  {| base := {| id_ := 1; layout_ := layout_f32 |}; capacity_ := 207; count_ := 2 |}.

Definition shrunk_context : context :=
  {| buffers := {[ 1%N := span.bytes (r0 ++ r1) ++ replicate 199 Byte.x00 ]};
     array_buffer := 1; copy_read_buffer := 0; copy_write_buffer := 1 |}.

(** The context after [r0] has been appended to [empty_store]. *)
Definition one_record_context : context :=
  {| buffers := {[ 1%N := span.bytes r0 ]};
     array_buffer := 1; copy_read_buffer := 0; copy_write_buffer := 1 |}.


(** A vertex array with nothing attached, and one that already holds an
    instance buffer. *)
Definition empty_array : VertexArray.t :=
  {| VertexArray.id_ := 1; VertexArray.vertex_buffers_ := [];
     VertexArray.instanced_vbo_ := None; VertexArray.index_buffer_ := IndexBuffer.default;
     VertexArray.attrib_index_ := 0 |}.

Definition pos_uv_buffer : VertexBuffer := {| id_ := 1; layout_ := layout_pos_uv |}.

Definition mat4_buffer : VertexBuffer :=
  {| id_ := 1;
     layout_ := Layout.make [VertexAttribute_ctor.scalar shader_data_type.mat4 "model"] |}.

(** A vertex array that holds [small_store] as its instance buffer, with
    the one attribute index that took. *)
Definition array_with_store : VertexArray.t :=
  {| VertexArray.id_ := 1; VertexArray.vertex_buffers_ := [];
     VertexArray.instanced_vbo_ := Some small_store;
     VertexArray.index_buffer_ := IndexBuffer.default;
     VertexArray.attrib_index_ := 1 |}.

(** A context of the uniform buffer API with no buffer objects and 36
    indexed binding points. *)
Definition uniform_initial : UniformGL.context :=
  {| UniformGL.gl := initial; UniformGL.uniform_buffer := 0;
     UniformGL.uniform_buffer_bindings := ∅;
     UniformGL.max_uniform_buffer_bindings := 36 |}.

(** A layout in which two attributes share the name ["a"]. *)
Definition layout_duplicate_name : VertexBufferLayout :=
  Layout.make [VertexAttribute_ctor.scalar shader_data_type.vec4 "a";
               VertexAttribute_ctor.scalar shader_data_type.vec4 "b";
               VertexAttribute_ctor.scalar shader_data_type.vec4 "a"].

(** A uniform buffer of layout [layout_pos_uv] and a context in which its
    buffer holds five floats. *)
Definition pos_uv_ubo : UniformBuffer.t :=
  {| UniformBuffer.id_ := 1; UniformBuffer.binding_point_ := 0;
     UniformBuffer.attr_cache_ := {[ "pos" := 0%nat; "uv" := 1%nat ]};
     UniformBuffer.layout_ := layout_pos_uv |}.

Definition uniform_context : UniformGL.context :=
  {| UniformGL.gl :=
       {| buffers := {[ 1%N := span.bytes five_floats ]};
          array_buffer := 0; copy_read_buffer := 0; copy_write_buffer := 0 |};
     UniformGL.uniform_buffer := 0;
     UniformGL.uniform_buffer_bindings := {[ 0 := 1%N ]};
     UniformGL.max_uniform_buffer_bindings := 36 |}.

End Examples.

(* ===================================================================== *)
(** * Part II: facts                                                      *)
(* ===================================================================== *)

(** ** binary64 multiplication by [Double.phi]

    [SpecFloat] comes without lemmas; this section derives what the growth
    policy needs: the product of an integer below [2^50] with [Double.phi],
    truncated, lies between the two integer quotients below, and is exactly
    [floor (c * phi)] for [c < 2^25]. *)
Section DoubleFacts.

Lemma digits2_pos_size p : digits2_pos p = Pos.size p.
Proof. induction p; simpl; congruence. Qed.

Lemma digits2_pos_bounds p :
  2 ^ (Z.pos (digits2_pos p) - 1) <= Z.pos p < 2 ^ Z.pos (digits2_pos p).
Proof.
  rewrite digits2_pos_size. split.
  - pose proof (Pos.size_le p) as H.
    apply Pos2Z.pos_le_pos in H. rewrite Pos2Z.inj_pow in H.
    replace (Z.pos (Pos.size p)) with (Z.succ (Z.pos (Pos.size p) - 1)) in H by lia.
    rewrite Z.pow_succ_r in H by lia. lia.
  - pose proof (Pos.size_gt p) as H.
    apply Pos2Z.pos_lt_pos in H. now rewrite Pos2Z.inj_pow in H.
Qed.

Lemma digits2_pos_unique p d :
  2 ^ (d - 1) <= Z.pos p < 2 ^ d -> Z.pos (digits2_pos p) = d.
Proof.
  intros [Hl Hu]. destruct (digits2_pos_bounds p) as [Hl' Hu'].
  assert (0 < d).
  { destruct (Z.ltb_spec 0 d); [done|]. 
    destruct (Z.eq_dec d 0) as [->|]; [simpl in *; lia|].
    rewrite Z.pow_neg_r in Hu by lia. lia. }
  destruct (Z.lt_trichotomy (Z.pos (digits2_pos p)) d) as [Hc|[Hc|Hc]]; [|done|].
  - assert (2 ^ Z.pos (digits2_pos p) <= 2 ^ (d - 1)) by (apply Z.pow_le_mono_r; lia). lia.
  - assert (2 ^ d <= 2 ^ (Z.pos (digits2_pos p) - 1)) by (apply Z.pow_le_mono_r; lia). lia.
Qed.

Lemma iter_pos_nat {A} (f : A -> A) p x :
  SpecFloat.iter_pos f p x = Nat.iter (Pos.to_nat p) f x.
Proof.
  revert x. induction p as [p IH|p IH|]; intros x; cbn [SpecFloat.iter_pos].
  - rewrite !IH, Pos2Nat.inj_xI, <- Nat.iter_add.
    replace (S (2 * Pos.to_nat p)) with (S (Pos.to_nat p + Pos.to_nat p))%nat by lia.
    now rewrite Nat.iter_succ_r.
  - rewrite !IH, Pos2Nat.inj_xO, <- Nat.iter_add. f_equal. lia.
  - reflexivity.
Qed.


Lemma shr_1_fields m r s :
  0 <= m ->
  shr_1 (Build_shr_record m r s) = Build_shr_record (m / 2) (Z.odd m) (r || s).
Proof.
  intros Hm. destruct m as [|[p|p|]|p]; try lia; simpl; f_equal.
  - rewrite Pos2Z.inj_xI. apply Z.div_unique with 1; lia.
  - rewrite Pos2Z.inj_xO. apply Z.div_unique with 0; lia.
Qed.

Lemma shr_inv_step M k mrs :
  0 <= M -> 0 <= k -> shr_inv M k mrs -> shr_inv M (k + 1) (shr_1 mrs).
Proof.
  intros HM Hk [Hm Hloc]. destruct mrs as [m r s]; cbn [shr_m shr_r shr_s] in *.
  assert (Hp : 0 < 2 ^ k) by (apply Z.pow_pos_nonneg; lia).
  assert (Hm0 : 0 <= m) by (subst m; apply Z.div_pos; lia).
  rewrite shr_1_fields by done. 
  pose proof (Z.div_mod M (2 ^ k) ltac:(lia)) as HMeq.
  pose proof (Z.mod_pos_bound M (2 ^ k) Hp) as Hr0.
  pose proof (Z.div_mod m 2 ltac:(lia)) as Hmeq.
  pose proof (Z.mod_pos_bound m 2 ltac:(lia)) as Hr1.
  assert (Hpk : 2 ^ (k + 1) = 2 * 2 ^ k) by (rewrite Z.pow_add_r by lia; lia).
  assert (Hdiv : M / 2 ^ (k + 1) = m / 2).
  { symmetry. apply Z.div_unique with (m mod 2 * 2 ^ k + M mod 2 ^ k); [nia|].
    rewrite Hpk. subst m. nia. }
  assert (Hmod : M mod 2 ^ (k + 1) = m mod 2 * 2 ^ k + M mod 2 ^ k).
  { symmetry. apply Z.mod_unique with (m / 2); [nia|]. rewrite Hpk. subst m. nia. }
  split; cbn [shr_m shr_r shr_s]; [done|]. rewrite Hmod, Hpk, (Zmod_odd m).
  destruct (Z.odd m), r, s; simpl; lia.
Qed.

Lemma shr_inv_iter M (n : nat) :
  0 <= M -> shr_inv M (Z.of_nat n) (Nat.iter n shr_1 (Build_shr_record M false false)).
Proof.
  intros HM. induction n as [|n IH].
  - split; simpl; [now rewrite Z.div_1_r | apply Z.mod_1_r].
  - rewrite Nat2Z.inj_succ, <- Z.add_1_r. simpl. apply shr_inv_step; [done|lia|done].
Qed.

Lemma round_nearest_even_inv M k mrs :
  0 <= k -> shr_inv M k mrs ->
  let m' := round_nearest_even (shr_m mrs) (loc_of_shr_record mrs) in
  (m' = M / 2 ^ k \/ m' = M / 2 ^ k + 1) /\
  2 * Z.abs (m' * 2 ^ k - M) <= 2 ^ k.
Proof.
  intros Hk [Hm Hloc].
  assert (Hp : 0 < 2 ^ k) by (apply Z.pow_pos_nonneg; lia).
  pose proof (Z.div_mod M (2 ^ k) ltac:(lia)) as HMeq.
  pose proof (Z.mod_pos_bound M (2 ^ k) Hp) as Hr0.
  destruct mrs as [m [] []]; simpl in *; subst m.
  - split; [by right|]. nia.
  - destruct (Z.even (M / 2 ^ k)); (split; [auto|nia]).
  - split; [by left|]. nia.
  - split; [by left|]. nia.
Qed.


Lemma shr_pos_inv M e n :
  0 <= M -> 0 <= n ->
  exists mrs, shr (Build_shr_record M false false) e n = (mrs, e + n) /\ shr_inv M n mrs.
Proof.
  intros HM Hn. destruct n as [|p|p]; [| |lia].
  - exists (Build_shr_record M false false). split; [simpl; f_equal; lia|].
    apply (shr_inv_iter M 0 HM).
  - eexists. split; [reflexivity|]. rewrite iter_pos_nat.
    rewrite <- (positive_nat_Z p). by apply shr_inv_iter.
Qed.

Lemma fexp_normal d : -1021 <= d -> fexp Double.prec Double.emax d = d - 53.
Proof. unfold fexp, emin, Double.prec, Double.emax. lia. Qed.

Lemma binary_round_aux_exact (m : positive) e :
  Z.pos (digits2_pos m) = 53 -> -1074 <= e <= 971 ->
  binary_round_aux Double.prec Double.emax false (Z.pos m) e loc_Exact = S754_finite false m e.
Proof.
  intros Hd He. unfold binary_round_aux, shr_fexp. cbn [Zdigits2 shr_record_of_loc].
  rewrite Hd, fexp_normal by lia. replace (53 + e - 53 - e) with 0 by lia.
  cbn [shr loc_of_shr_record shr_m round_nearest_even Zdigits2 shr_record_of_loc].
  rewrite Hd, fexp_normal by lia. replace (53 + e - 53 - e) with 0 by lia.
  cbn [shr shr_m]. unfold Double.emax, Double.prec.
  destruct (Z.leb_spec e (1024 - 53)); [done|lia].
Qed.

Lemma binary_round_aux_inexact (M : positive) e n :
  Z.pos (digits2_pos M) = 53 + n -> 1 <= n -> -1074 <= e + n -> e + n < 971 ->
  exists (m' : positive) e',
    binary_round_aux Double.prec Double.emax false (Z.pos M) e loc_Exact = S754_finite false m' e' /\
    e + n <= e' <= e + n + 1 /\
    2 * Z.abs (Z.pos m' * 2 ^ (e' - e) - Z.pos M) <= 2 ^ n.
Proof.
  intros Hd Hn Hlo Hhi. unfold binary_round_aux, shr_fexp at 1.
  cbn [Zdigits2 shr_record_of_loc]. rewrite Hd, fexp_normal by lia.
  replace (53 + n + e - 53 - e) with n by lia.
  destruct (shr_pos_inv (Z.pos M) e n) as (mrs & -> & Hinv); [lia..|].
  assert (Hn0 : 0 <= n) by lia.
  destruct (round_nearest_even_inv _ _ _ Hn0 Hinv) as [Hcase Herr].
  set (m1 := round_nearest_even (shr_m mrs) (loc_of_shr_record mrs)) in *.
  destruct (digits2_pos_bounds M) as [HMl HMu]. rewrite Hd in HMl, HMu.
  assert (Hp : 0 < 2 ^ n) by (apply Z.pow_pos_nonneg; lia).
  replace (53 + n - 1) with (52 + n) in HMl by lia.
  rewrite Z.pow_add_r in HMl, HMu by lia.
  change (2 ^ 52) with 4503599627370496 in HMl.
  change (2 ^ 53) with 9007199254740992 in HMu.
  assert (Hq : 4503599627370496 <= Z.pos M / 2 ^ n < 9007199254740992).
  { split; [apply Z.div_le_lower_bound; lia | apply Z.div_lt_upper_bound; lia]. }
  assert (Hm1 : 4503599627370496 <= m1 <= 9007199254740992) by lia.
  destruct m1 as [|p1|p1] eqn:Ep1; [lia| |lia].
  unfold shr_fexp. cbn [Zdigits2 shr_record_of_loc].
  destruct (Z.eq_dec (Z.pos p1) 9007199254740992) as [Hcarry|Hnc].
  - injection Hcarry as ->. 
    replace (fexp Double.prec Double.emax (Z.pos (digits2_pos 9007199254740992) + (e + n)) - (e + n)) with 1
      by (change (Z.pos (digits2_pos 9007199254740992)) with 54; rewrite fexp_normal by lia; lia).
    cbn [shr SpecFloat.iter_pos shr_1 shr_m]. unfold Double.emax, Double.prec.
    destruct (Z.leb_spec (e + n + 1) (1024 - 53)); [|lia].
    eexists _, _. split; [reflexivity|]. split; [lia|].
    replace (e + n + 1 - e) with (n + 1) by lia. rewrite Z.pow_add_r by lia.
    change (2 ^ 1) with 2. lia.
  - rewrite (digits2_pos_unique p1 53)
      by (change (2 ^ (53 - 1)) with 4503599627370496;
          change (2 ^ 53) with 9007199254740992; lia).
    rewrite fexp_normal by lia.
    replace (53 + (e + n) - 53 - (e + n)) with 0 by lia. cbn [shr shr_m].
    unfold Double.emax, Double.prec. destruct (Z.leb_spec (e + n) (1024 - 53)); [|lia].
    eexists _, _. split; [reflexivity|]. split; [lia|].
    replace (e + n - e) with n by lia. done.
Qed.


Lemma pos_iter_xO (p k : positive) : Z.pos (Pos.iter xO p k) = Z.pos p * 2 ^ Z.pos k.
Proof.
  change (Pos.iter xO p k) with (shift_pos k p).
  rewrite shift_pos_correct, Z.mul_comm. reflexivity.
Qed.

Lemma scale_bounds c d j :
  0 <= j -> 1 <= d -> 2 ^ (d - 1) <= c < 2 ^ d ->
  2 ^ (d - 1 + j) <= c * 2 ^ j < 2 ^ (d + j).
Proof.
  intros Hj Hd Hc. rewrite !Z.pow_add_r by lia.
  assert (0 < 2 ^ j) by (apply Z.pow_pos_nonneg; lia). nia.
Qed.

Lemma of_size_t_normal c :
  0 < c < 2 ^ 53 ->
  exists (mc : positive) (d : Z),
    Double.of_size_t c = S754_finite false mc (d - 53) /\
    1 <= d <= 53 /\
    2 ^ (d - 1) <= c < 2 ^ d /\
    Z.pos mc = c * 2 ^ (53 - d).
Proof.
  intros [Hc0 Hc]. destruct c as [|p|p]; try lia.
  set (d := Z.pos (digits2_pos p)).
  pose proof (digits2_pos_bounds p) as Hb. fold d in Hb.
  assert (Hd : 1 <= d <= 53).
  { split; [unfold d; lia|]. destruct (Z.le_gt_cases d 53); [done|].
    assert (2 ^ 53 <= 2 ^ (d - 1)) by (apply Z.pow_le_mono_r; lia). lia. }
  assert (Hbits : forall mc : positive, Z.pos mc = Z.pos p * 2 ^ (53 - d) ->
            Z.pos (digits2_pos mc) = 53).
  { intros mc Hmc. apply digits2_pos_unique. rewrite Hmc.
    pose proof (scale_bounds (Z.pos p) d (53 - d) ltac:(lia) ltac:(lia) Hb) as Hs.
    replace (d - 1 + (53 - d)) with (53 - 1) in Hs by lia.
    replace (d + (53 - d)) with 53 in Hs by lia. exact Hs. }
  unfold Double.of_size_t, binary_normalize, binary_round, shl_align. fold d.
  rewrite fexp_normal by lia. 
  destruct (d + 0 - 53 - 0) as [|k|k] eqn:Ek; [|lia|].
  - exists p, d. assert (d = 53) as Hd53 by lia.
    rewrite binary_round_aux_exact; [|apply Hbits; rewrite Hd53; simpl; lia|lia].
    rewrite Hd53. repeat split; try lia; try (rewrite <- Hd53; apply Hb).
  - exists (Pos.iter xO p k), d.
    assert (Hk : Z.pos k = 53 - d) by lia.
    assert (Hmc : Z.pos (Pos.iter xO p k) = Z.pos p * 2 ^ (53 - d))
      by (rewrite pos_iter_xO, Hk; done).
    rewrite binary_round_aux_exact; [|by apply Hbits|lia].
    replace (d + 0 - 53) with (d - 53) by lia. repeat split; try lia; apply Hb || done.
Qed.

Lemma round_div_lower W u v M :
  0 < W -> v * W <= M -> - W <= 2 * (u * W - M) -> v <= u.
Proof. nia. Qed.


Lemma mul_phi_bounds c :
  0 < c < 2 ^ 50 ->
  exists a, Double.to_size_t (Double.mul (Double.of_size_t c) Double.phi) = Some a /\
    c * Z.pos Double.phi_mantissa / 2 ^ 52 <= a <= c * (Z.pos Double.phi_mantissa + 1) / 2 ^ 52.
Proof.
  intros Hc.
  destruct (of_size_t_normal c) as (mc & d & -> & Hd & Hcd & Hmc); [lia|].
  assert (Hd50 : d <= 50).
  { destruct (Z.le_gt_cases d 50); [done|].
    assert (2 ^ 50 <= 2 ^ (d - 1)) by (apply Z.pow_le_mono_r; lia). lia. }
  unfold Double.mul, Double.phi, SFmul. cbn [xorb].
  set (K := 2 ^ (53 - d)) in *.
  assert (HK : 0 < K) by (apply Z.pow_pos_nonneg; lia).
  assert (Hmcb : 2 ^ 52 <= Z.pos mc < 2 ^ 53).
  { rewrite Hmc.
    pose proof (scale_bounds c d (53 - d) ltac:(lia) ltac:(lia) Hcd) as Hs.
    replace (d - 1 + (53 - d)) with 52 in Hs by lia.
    replace (d + (53 - d)) with 53 in Hs by lia. exact Hs. }
  set (M := (mc * Double.phi_mantissa)%positive).
  assert (HM : Z.pos M = c * K * Z.pos Double.phi_mantissa) by (unfold M; rewrite Pos2Z.inj_mul; lia).
  pose proof (digits2_pos_bounds M) as HD.
  set (D := Z.pos (digits2_pos M)) in *.
  assert (HMb : 2 ^ 104 <= Z.pos M < 2 ^ 106).
  { unfold M. rewrite Pos2Z.inj_mul. unfold Double.phi_mantissa.
    change (2 ^ 104) with (2 ^ 52 * 2 ^ 52). change (2 ^ 106) with (2 ^ 53 * 2 ^ 53).
    change (2 ^ 52) with 4503599627370496 in *.
    change (2 ^ 53) with 9007199254740992 in *. nia. }
  assert (HDr : 105 <= D <= 106).
  { split.
    - destruct (Z.le_gt_cases 105 D); [done|].
      assert (2 ^ D <= 2 ^ 104) by (apply Z.pow_le_mono_r; lia). lia.
    - destruct (Z.le_gt_cases D 106); [done|].
      assert (2 ^ 106 <= 2 ^ (D - 1)) by (apply Z.pow_le_mono_r; lia). lia. }
  set (n := D - 53).
  destruct (binary_round_aux_inexact M (d - 53 + -52) n) as (m' & e' & -> & He' & Herr);
    [unfold n; fold D; lia | lia..|].
  set (e := d - 53 + -52) in *.
  assert (Hen : e' < 0) by lia.
  unfold Double.to_size_t. destruct (Z.leb_spec 0 e'); [lia|].
  set (W := 2 ^ n) in *. assert (HW : 0 < W) by (apply Z.pow_pos_nonneg; lia).
  set (X := 2 ^ (e' - e - n)). assert (HX : 0 < X) by (apply Z.pow_pos_nonneg; lia).
  set (Y := 2 ^ (- e')). assert (HY : 0 < Y) by (apply Z.pow_pos_nonneg; lia).
  assert (HeW : 2 ^ (e' - e) = X * W).
  { unfold X, W. rewrite <- Z.pow_add_r by lia. f_equal. lia. }
  assert (HS : K * 2 ^ 52 = Y * X * W).
  { unfold K, Y, X, W. rewrite <- !Z.pow_add_r by lia. f_equal. lia. }
  rewrite HeW in Herr.
  assert (Hdiv : Z.pos m' / Y = Z.pos m' * (X * W) / (K * 2 ^ 52)).
  { rewrite HS, <- (Z.mul_assoc Y), Z.div_mul_cancel_r by lia. done. }
  assert (Hlo : c * Z.pos Double.phi_mantissa / 2 ^ 52 <= Z.pos m' / Y).
  { rewrite Hdiv. apply Z.div_le_lower_bound; [lia|].
    set (q := c * Z.pos Double.phi_mantissa / 2 ^ 52).
    assert (Hq : q * 2 ^ 52 <= c * Z.pos Double.phi_mantissa)
      by (unfold q; rewrite Z.mul_comm; apply Z.mul_div_le; lia).
    assert (Hq0 : 0 <= q) by (apply Z.div_pos; lia).
    (* q * S is a multiple of W below M; the rounded mantissa is a multiple of W *)
    assert (Hv : (q * Y * X) * W <= Z.pos M).
    { rewrite HM. replace (q * Y * X * W) with (q * (Y * X * W)) by ring.
      rewrite <- HS. nia. }
    pose proof (round_div_lower W (Z.pos m' * X) (q * Y * X) (Z.pos M) HW Hv) as Hr.
    replace (Z.pos m' * X * W) with (Z.pos m' * (X * W)) in Hr by ring.
    specialize (Hr ltac:(lia)).
    rewrite HS. nia. }
  assert (Hhi : Z.pos m' / Y <= c * (Z.pos Double.phi_mantissa + 1) / 2 ^ 52).
  { rewrite Hdiv. rewrite <- (Z.div_mul_cancel_r (c * (Z.pos Double.phi_mantissa + 1)) (2 ^ 52) K) by lia.
    rewrite (Z.mul_comm (2 ^ 52) K). apply Z.div_le_mono; [lia|].
    (* |R' - M| <= W / 2 <= mc = c * K *)
    assert (W <= 2 ^ 53) by (apply Z.pow_le_mono_r; lia).
    rewrite Hmc in Hmcb. fold K in Hmcb.
    change (2 ^ 53) with (2 * 2 ^ 52) in H0. nia. }
  exists (Z.pos m' / Y). split; [|lia].
  assert (Z.pos m' / Y < 2 ^ 64); [|destruct (Z.ltb_spec (Z.pos m' / Y) (2 ^ 64)); [done|lia]].
  eapply Z.le_lt_trans; [apply Hhi|].
  apply Z.div_lt_upper_bound; [lia|]. unfold Double.phi_mantissa.
  change (2 ^ 50) with 1125899906842624 in Hc. 
  change (2 ^ 52 * 2 ^ 64) with 83076749736557242056487941267521536. lia.
Qed.



Lemma floor_mul_phi_spec c :
  0 <= c ->
  let N := floor_mul_phi c in
  c <= N /\ N * N - N * c - c * c <= 0 /\ 0 < (N + 1) * (N + 1) - (N + 1) * c - c * c.
Proof.
  intros Hc N. unfold floor_mul_phi in N.
  pose proof (Z.sqrt_spec (5 * c * c) ltac:(nia)) as [Hl Hu].
  pose proof (Z.sqrt_nonneg (5 * c * c)) as Hs.
  set (m := Z.sqrt (5 * c * c)) in *.
  assert (Hm : 2 * c <= m) by nia.
  pose proof (Z.div_mod (c + m) 2 ltac:(lia)) as Hdm.
  pose proof (Z.mod_pos_bound (c + m) 2 ltac:(lia)) as Hr.
  fold N in Hdm.
  assert (Hx : 0 <= 2 * N - c <= m) by lia.
  assert (Hy : m + 1 <= 2 * (N + 1) - c) by lia.
  split; [lia|]. split; nia.
Qed.

Lemma mul_phi_exact_lower c N :
  0 <= c -> c <= N -> N * N - N * c - c * c <= 0 ->
  N * 2 ^ 52 <= c * Z.pos Double.phi_mantissa.
Proof.
  intros Hc HN Hf. unfold Double.phi_mantissa.
  change (2 ^ 52) with 4503599627370496.
  set (T := 4503599627370496). set (P := 7286977268806824).
  assert (HPT : 0 < P * P - P * T - T * T) by (unfold P, T; lia).
  assert (HT : 0 < T) by (unfold T; lia).
  assert (HTP : T <= P) by (unfold P, T; lia).
  clearbody T P.
  destruct (Z.le_gt_cases (N * T) (c * P)) as [|Hgt]; [done|exfalso].
  assert (Hid : T * T * (N * N - N * c - c * c) =
                (N * T - c * P) * (N * T + c * P - c * T) + c * c * (P * P - P * T - T * T)) by ring.
  assert (0 < (N * T - c * P) * (N * T + c * P - c * T)) by (apply Z.mul_pos_pos; nia).
  assert (0 <= c * c * (P * P - P * T - T * T)) by (apply Z.mul_nonneg_nonneg; nia).
  assert (T * T * (N * N - N * c - c * c) <= 0) by (apply Z.mul_nonneg_nonpos; nia).
  lia.
Qed.

Lemma mul_phi_exact_upper c a :
  0 < c < 2 ^ 25 -> 0 <= a -> 0 < a * a - a * c - c * c ->
  c * (Z.pos Double.phi_mantissa + 1) < a * 2 ^ 52.
Proof.
  intros Hc Ha Hf. unfold Double.phi_mantissa.
  change (2 ^ 52) with 4503599627370496. change (2 ^ 25) with 33554432 in Hc.
  change (Z.pos 7286977268806824 + 1) with 7286977268806825.
  set (T := 4503599627370496). set (Q := 7286977268806825).
  assert (HD : 1125899906842624 * (Q * Q - Q * T - T * T) < T * T) by (unfold Q, T; lia).
  assert (HD0 : 0 < Q * Q - Q * T - T * T) by (unfold Q, T; lia).
  assert (HT : 0 < T) by (unfold T; lia).
  assert (HTQ : T <= Q) by (unfold Q, T; lia).
  clearbody T Q.
  destruct (Z.lt_ge_cases (c * Q) (a * T)) as [|Hge]; [done|exfalso].
  assert (Hid : c * c * (Q * Q - Q * T - T * T) =
                (c * Q - a * T) * (c * Q + a * T - c * T) + T * T * (a * a - a * c - c * c)) by ring.
  assert (0 <= (c * Q - a * T) * (c * Q + a * T - c * T)) by (apply Z.mul_nonneg_nonneg; nia).
  assert (T * T * 1 <= T * T * (a * a - a * c - c * c)) by (apply Z.mul_le_mono_nonneg_l; nia).
  assert (c * c < 1125899906842624) by nia.
  assert (c * c * (Q * Q - Q * T - T * T) <= 1125899906842624 * (Q * Q - Q * T - T * T))
    by (apply Z.mul_le_mono_nonneg_r; lia).
  lia.
Qed.

Lemma mul_phi_exact c :
  0 < c < 2 ^ 25 ->
  Double.to_size_t (Double.mul (Double.of_size_t c) Double.phi) = Some (floor_mul_phi c).
Proof.
  intros Hc.
  destruct (mul_phi_bounds c) as (a & -> & Hlo & Hhi).
  { change (2 ^ 25) with 33554432 in Hc. change (2 ^ 50) with 1125899906842624. lia. }
  f_equal.
  destruct (floor_mul_phi_spec c ltac:(lia)) as (HcN & Hle & Hlt).
  set (N := floor_mul_phi c) in *.
  pose proof (mul_phi_exact_lower c N ltac:(lia) HcN Hle) as H1.
  pose proof (mul_phi_exact_upper c (N + 1) Hc ltac:(lia) Hlt) as H2.
  assert (N <= c * Z.pos Double.phi_mantissa / 2 ^ 52) by (apply Z.div_le_lower_bound; lia).
  assert (c * (Z.pos Double.phi_mantissa + 1) / 2 ^ 52 < N + 1) by (apply Z.div_lt_upper_bound; lia).
  lia.
Qed.

Lemma floor_mul_phi_real c :
  0 <= c ->
  (IZR (floor_mul_phi c) <= IZR c * golden_ratio < IZR (floor_mul_phi c) + 1)%R.
Proof.
  intros Hc. destruct (floor_mul_phi_spec c Hc) as (HcN & Hle & Hlt).
  set (N := floor_mul_phi c) in *.
  apply IZR_le in Hc, HcN, Hle. apply IZR_lt in Hlt.
  rewrite !minus_IZR, !mult_IZR in Hle, Hlt. rewrite !plus_IZR in Hlt.
  set (n := IZR N) in *. set (x := IZR c) in *.
  assert (Hs : (sqrt 5 * sqrt 5 = 5)%R) by (apply sqrt_sqrt; lra).
  assert (Hs0 : (0 <= sqrt 5)%R) by apply sqrt_pos.
  unfold golden_ratio. set (s := sqrt 5) in *.
  assert (Hs2 : (2 < s)%R) by nra.
  split.
  - destruct (Rle_or_lt n (x * ((1 + s) / 2))) as [|Hgt]; [done|exfalso].
    assert (0 < (n - x * ((1 + s) / 2)) * (n + x * ((s - 1) / 2)))%R
      by (apply Rmult_lt_0_compat; nra).
    assert ((n - x * ((1 + s) / 2)) * (n + x * ((s - 1) / 2)) =
            n * n - n * x - x * x - x * x * (s * s - 5) / 4)%R by field.
    rewrite Hs in *. lra.
  - destruct (Rle_or_lt (n + 1) (x * ((1 + s) / 2))) as [Hge|]; [exfalso|done].
    assert (0 <= (x * ((1 + s) / 2) - (n + 1)) * (n + 1 + x * ((s - 1) / 2)))%R
      by (apply Rmult_le_pos; nra).
    assert ((x * ((1 + s) / 2) - (n + 1)) * (n + 1 + x * ((s - 1) / 2)) =
            x * x * (s * s - 5) / 4 - ((n + 1) * (n + 1) - (n + 1) * x - x * x))%R by field.
    rewrite Hs in *. lra.
Qed.

End DoubleFacts.

(** ** Layouts *)
Section LayoutFacts.

Lemma size_positive t : 0 < shader_data_type.size t.
Proof. destruct t; reflexivity. Qed.

Lemma size_multiple_of_4 t : shader_data_type.size t mod 4 = 0.
Proof. destruct t; reflexivity. Qed.

Lemma to_size_t_small z : 0 <= z < 2 ^ 64 -> Machine.to_size_t z = z.
Proof. intros H. unfold Machine.to_size_t. apply Z.mod_small. exact H. Qed.

Lemma to_uint32_t_small z : 0 <= z < 2 ^ 32 -> Machine.to_uint32_t z = z.
Proof. intros H. unfold Machine.to_uint32_t. apply Z.mod_small. exact H. Qed.

Lemma to_ptrdiff_t_small z : 0 <= z < 2 ^ 63 -> Machine.to_ptrdiff_t z = z.
Proof.
  intros H. unfold Machine.to_ptrdiff_t.
  rewrite Z.mod_small by (change (2 ^ 64) with (2 * 2 ^ 63); lia).
  destruct (Z.ltb_spec z (2 ^ 63)); lia.
Qed.

Lemma to_size_t_mod4 z : Machine.to_size_t z mod 4 = z mod 4.
Proof.
  unfold Machine.to_size_t. apply Z.mod_mod_divide.
  exists 4611686018427387904. reflexivity.
Qed.

Lemma field_bytes_nonneg a : 0 <= element_count a -> 0 <= field_bytes a.
Proof. intros H. unfold field_bytes. pose proof (size_positive (type a)). nia. Qed.

Lemma sum_field_bytes_nonneg attributes :
  Forall (fun a => 0 <= element_count a) attributes -> 0 <= sum_field_bytes attributes.
Proof.
  induction 1 as [|a rest Ha _ IH]; simpl; [lia|].
  pose proof (field_bytes_nonneg a Ha). lia.
Qed.

(** The constructor loop keeps the fields in order and touches only
    [offset]. *)
Lemma assign_offsets_fields s0 attributes :
  map (fun a => (type a, name a, element_count a)) (Layout.assign_offsets s0 attributes).2 =
  map (fun a => (type a, name a, element_count a)) attributes.
Proof.
  revert s0. induction attributes as [|a rest IH]; intros s0; simpl; [done|].
  specialize (IH (Machine.to_size_t
    (s0 + Machine.to_size_t (shader_data_type.size (type a) * element_count a)))).
  destruct (Layout.assign_offsets _ rest) as [total rest']. simpl in *. by rewrite IH.
Qed.

(** Without wrap-around the running stride is the sum of the field sizes
    and every offset is the sum of the sizes before it. *)
Lemma assign_offsets_packed s0 attributes :
  0 <= s0 ->
  Forall (fun a => 0 <= element_count a) attributes ->
  s0 + sum_field_bytes attributes < 2 ^ 32 ->
  (Layout.assign_offsets s0 attributes).1 = s0 + sum_field_bytes attributes /\
  forall (i : nat) a', (Layout.assign_offsets s0 attributes).2 !! i = Some a' ->
    offset a' = s0 + packed_offset attributes i.
Proof.
  revert s0. induction attributes as [|a rest IH]; intros s0 Hs0 Hec Hsum.
  - simpl. split; [lia|]. intros i a' Hi. by rewrite lookup_nil in Hi.
  - apply Forall_cons in Hec as [Ha Hrest]. simpl in Hsum.
    pose proof (field_bytes_nonneg a Ha) as Hfa.
    pose proof (sum_field_bytes_nonneg rest Hrest) as Hfr.
    assert (H32 : 2 ^ 32 < 2 ^ 64) by reflexivity.
    cbn [Layout.assign_offsets].
    fold (field_bytes a).
    rewrite (to_size_t_small (field_bytes a)) by lia.
    rewrite (to_size_t_small (s0 + field_bytes a)) by lia.
    specialize (IH (s0 + field_bytes a) ltac:(lia) Hrest ltac:(lia)).
    destruct (Layout.assign_offsets (s0 + field_bytes a) rest) as [total rest'].
    destruct IH as [IHt IHo]. cbn [fst snd] in *. split; [simpl; lia|].
    intros [|i] a' Hi; simpl in Hi.
    + injection Hi as <-. cbn [offset]. unfold packed_offset. simpl.
      rewrite to_uint32_t_small; lia.
    + rewrite (IHo i a' Hi). unfold packed_offset. simpl. lia.
Qed.

Lemma assign_offsets_mod4 s0 attributes :
  s0 mod 4 = 0 -> (Layout.assign_offsets s0 attributes).1 mod 4 = 0.
Proof.
  revert s0. induction attributes as [|a rest IH]; intros s0 Hs0; [done|].
  cbn [Layout.assign_offsets].
  set (s1 := Machine.to_size_t _).
  specialize (IH s1). destruct (Layout.assign_offsets s1 rest) as [total rest'].
  cbn [fst] in *. apply IH. unfold s1.
  rewrite to_size_t_mod4, Z.add_mod, Hs0, to_size_t_mod4 by lia.
  rewrite Z.mul_mod, size_multiple_of_4 by lia. reflexivity.
Qed.

Lemma make_stride_multiple_of_4 attributes :
  Layout.stride (Layout.make attributes) mod 4 = 0.
Proof.
  unfold Layout.make, Layout.stride.
  pose proof (assign_offsets_mod4 0 attributes eq_refl) as H.
  destruct (Layout.assign_offsets 0 attributes) as [total attrs]. exact H.
Qed.

Lemma make_attributes attributes :
  m_attributes (Layout.make attributes) = (Layout.assign_offsets 0 attributes).2.
Proof. unfold Layout.make. by destruct (Layout.assign_offsets 0 attributes). Qed.

Lemma make_stride attributes :
  Layout.stride (Layout.make attributes) = (Layout.assign_offsets 0 attributes).1.
Proof. unfold Layout.make. by destruct (Layout.assign_offsets 0 attributes). Qed.

(** Field [i] of the constructed layout is field [i] of the list the
    constructor was given, up to [offset]. *)
Lemma make_lookup attributes (i : nat) a :
  attributes !! i = Some a ->
  exists a', m_attributes (Layout.make attributes) !! i = Some a' /\
    type a' = type a /\ name a' = name a /\ element_count a' = element_count a.
Proof.
  intros Hi. rewrite make_attributes.
  pose proof (assign_offsets_fields 0 attributes) as Hf.
  apply (f_equal (fun l => l !! i)) in Hf. rewrite !list_lookup_fmap, Hi in Hf.
  destruct ((Layout.assign_offsets 0 attributes).2 !! i) as [a'|]; [|done].
  exists a'. simpl in Hf. injection Hf as -> -> ->. done.
Qed.

Lemma at_index_in_range l (i : nat) a :
  m_attributes l !! i = Some a -> Layout.at_index l (Z.of_nat i) = Some a.
Proof.
  intros Hi. unfold Layout.at_index. apply lookup_lt_Some in Hi as Hlt.
  destruct (Z.leb_spec 0 (Z.of_nat i)); [|lia].
  destruct (Z.ltb_spec (Z.of_nat i) (Z.of_nat (length (m_attributes l)))); [|lia].
  simpl. by rewrite Nat2Z.id.
Qed.

End LayoutFacts.

(** ** Byte ranges and spans *)
Section RangeFacts.

Lemma write_range_lookup (store bs : list Byte.byte) (off k : nat) :
  (off <= length store)%nat ->
  GL.write_range store off bs !! k =
    if decide (k < off)%nat then store !! k
    else if decide (k < off + length bs)%nat then bs !! (k - off)%nat
    else store !! k.
Proof.
  intros Hoff. unfold GL.write_range.
  destruct (decide (k < off)%nat) as [Hk|Hk].
  - rewrite lookup_app_l by (rewrite length_take; lia). apply lookup_take_lt. lia.
  - rewrite lookup_app_r by (rewrite length_take; lia).
    rewrite length_take, Nat.min_l by lia.
    destruct (decide (k < off + length bs)%nat) as [Hk2|Hk2].
    + rewrite lookup_app_l by lia. done.
    + rewrite lookup_app_r by lia. rewrite lookup_drop. f_equal. lia.
Qed.

Lemma read_range_lookup (store : list Byte.byte) (off len k : nat) :
  GL.read_range store off len !! k =
    if decide (k < len)%nat then store !! (off + k)%nat else None.
Proof.
  unfold GL.read_range. destruct (decide (k < len)%nat).
  - rewrite lookup_take_lt by lia. apply lookup_drop.
  - apply lookup_take_ge. lia.
Qed.

Lemma length_write_range (store bs : list Byte.byte) (off : nat) :
  (off + length bs <= length store)%nat ->
  length (GL.write_range store off bs) = length store.
Proof.
  intros H. unfold GL.write_range.
  rewrite !length_app, length_take, length_drop. lia.
Qed.

Lemma length_read_range (store : list Byte.byte) (off len : nat) :
  (off + len <= length store)%nat -> length (GL.read_range store off len) = len.
Proof. intros H. unfold GL.read_range. rewrite length_take, length_drop. lia. Qed.

(** Reading back what was written. *)
Lemma read_write_range (store bs : list Byte.byte) (off : nat) :
  (off + length bs <= length store)%nat ->
  GL.read_range (GL.write_range store off bs) off (length bs) = bs.
Proof.
  intros H. apply list_eq. intros k.
  rewrite read_range_lookup, write_range_lookup by lia.
  destruct (decide (k < length bs)%nat) as [Hk|Hk].
  - destruct (decide (off + k < off)%nat); [lia|].
    destruct (decide (off + k < off + length bs)%nat); [|lia]. f_equal. lia.
  - symmetry. apply lookup_ge_None. lia.
Qed.

(** A write leaves every range it does not meet as it was. *)
Lemma read_write_range_other (store bs : list Byte.byte) (off off' len : nat) :
  (off + length bs <= length store)%nat ->
  (off' + len <= off \/ off + length bs <= off')%nat ->
  GL.read_range (GL.write_range store off bs) off' len = GL.read_range store off' len.
Proof.
  intros H Hd. apply list_eq. intros k.
  rewrite !read_range_lookup, write_range_lookup by lia.
  destruct (decide (k < len)%nat) as [Hk|Hk]; [|done].
  destruct (decide (off' + k < off)%nat); [done|].
  destruct (decide (off' + k < off + length bs)%nat); [lia|done].
Qed.

(** Writing a range onto itself changes nothing. *)
Lemma write_range_self (store : list Byte.byte) (off len : nat) :
  (off + len <= length store)%nat ->
  GL.write_range store off (GL.read_range store off len) = store.
Proof.
  intros H. apply list_eq. intros k.
  rewrite write_range_lookup by lia. rewrite length_read_range by lia.
  destruct (decide (k < off)%nat); [done|].
  destruct (decide (k < off + len)%nat); [|done].
  rewrite read_range_lookup. destruct (decide (k - off < len)%nat); [|lia].
  f_equal. lia.
Qed.

Lemma length_slot (store : list Byte.byte) (s i : Z) :
  0 <= i -> 0 <= s -> (i + 1) * s <= Z.of_nat (length store) ->
  length (slot store s i) = Z.to_nat s.
Proof. intros Hi Hs Hfit. unfold slot. apply length_read_range. nia. Qed.

Lemma slot_write_same (store bs : list Byte.byte) (s i : Z) :
  length bs = Z.to_nat s -> 0 <= i -> 0 <= s ->
  (i + 1) * s <= Z.of_nat (length store) ->
  slot (GL.write_range store (Z.to_nat (i * s)) bs) s i = bs.
Proof.
  intros Hbs Hi Hs Hfit. unfold slot. rewrite <- Hbs.
  apply read_write_range. rewrite Hbs. nia.
Qed.

Lemma slot_write_other (store bs : list Byte.byte) (s i j : Z) :
  length bs = Z.to_nat s -> 0 <= i -> 0 <= j -> 0 <= s -> i <> j ->
  (i + 1) * s <= Z.of_nat (length store) ->
  slot (GL.write_range store (Z.to_nat (i * s)) bs) s j = slot store s j.
Proof.
  intros Hbs Hi Hj Hs Hne Hfit. unfold slot.
  apply read_write_range_other; rewrite Hbs; nia.
Qed.

Lemma length_span_bytes (elems : list float32) :
  length (span.bytes elems) = (4 * length elems)%nat.
Proof. induction elems as [|f rest IH]; simpl; [done|]. rewrite IH. lia. Qed.

Lemma floats_bytes (elems : list float32) : span.floats (span.bytes elems) = elems.
Proof.
  induction elems as [|[b0 b1 b2 b3] rest IH]; [done|].
  simpl. f_equal. exact IH.
Qed.

Lemma bytes_floats (n : nat) (bs : list Byte.byte) :
  length bs = (4 * n)%nat -> span.bytes (span.floats bs) = bs /\ length (span.floats bs) = n.
Proof.
  revert bs. induction n as [|n IH]; intros bs Hlen.
  - destruct bs; [done|simpl in Hlen; lia].
  - destruct bs as [|b0 [|b1 [|b2 [|b3 rest]]]]; simpl in Hlen; try lia.
    destruct (IH rest ltac:(lia)) as [IHb IHl].
    cbn [span.floats span.bytes flat_map span.float_bytes byte0 byte1 byte2 byte3].
    fold (span.bytes (span.floats rest)). rewrite IHb. simpl. split; [done|]. 
    f_equal. exact IHl.
Qed.

Lemma size_bytes_of_list (elems : list float32) :
  Z.of_nat (length elems) * 4 < 2 ^ 64 ->
  span.size_bytes (span.of_list elems) = Z.of_nat (length (span.bytes elems)).
Proof.
  intros H. unfold span.size_bytes, span.size, shader_data_type.sizeof_float.
  rewrite to_size_t_small by lia. rewrite length_span_bytes. lia.
Qed.

End RangeFacts.

(** ** The instance store: update and delete *)
Section StoreFacts.
Import GL VertexBufferInst_impl.

Lemma data_store_bound (t : target) (c : context) (store : list Byte.byte) :
  binding t c <> 0%N -> buffers c !! binding t c = Some store ->
  data_store t c = Some store.
Proof.
  intros Hid Hb. unfold data_store.
  destruct (N.eqb_spec (binding t c) 0); [done|exact Hb].
Qed.

(** A write of [bs] at [offset] into the bound buffer, when it fits. *)
Lemma glBufferSubData_in_range (t : target) (c : context) (store bs : list Byte.byte)
    (offset : Z) :
  data_store t c = Some store ->
  0 <= offset -> offset + Z.of_nat (length bs) <= Z.of_nat (length store) ->
  glBufferSubData t offset (Z.of_nat (length bs)) (Some bs) c =
    Some (tt, set_data_store t (write_range store (Z.to_nat offset) bs) c).
Proof.
  intros Hs Hoff Hfit. unfold glBufferSubData. rewrite Hs.
  destruct (Z.ltb_spec offset 0); [lia|].
  destruct (Z.ltb_spec (Z.of_nat (length bs)) 0); [lia|].
  destruct (Z.ltb_spec (Z.of_nat (length store)) (offset + Z.of_nat (length bs))); [lia|].
  simpl. rewrite Z.ltb_irrefl, Nat2Z.id, firstn_all. reflexivity.
Qed.

(** [update_instance] with readable data of [s] bytes and a slot that lies
    inside the store's buffer: the bytes land at [index * s]. *)
Lemma update_instance_in_range (v : VertexBufferInst) (c : context)
    (store : list Byte.byte) (index : Z) (elems : list float32) :
  id_ v <> 0%N ->
  buffers c !! id_ v = Some store ->
  0 <= index <= Machine.INT32_MAX ->
  (index + 1) * Z.of_nat (length (span.bytes elems)) <= Z.of_nat (length store) ->
  Z.of_nat (length store) < 2 ^ 63 ->
  update_instance v index (span.of_list elems) c =
    Some (tt, set_data_store GL_ARRAY_BUFFER
                (write_range store
                   (Z.to_nat (index * Z.of_nat (length (span.bytes elems))))
                   (span.bytes elems))
                (set_binding GL_ARRAY_BUFFER (id_ v) c)).
Proof.
  intros Hid Hb Hi Hfit Hlen. unfold Machine.INT32_MAX in Hi.
  set (s := Z.of_nat (length (span.bytes elems))) in *.
  assert (Hs0 : 0 <= s) by (unfold s; lia).
  assert (H63 : 2 ^ 63 < 2 ^ 64) by reflexivity.
  assert (H31 : 2 ^ 31 < 2 ^ 64) by reflexivity.
  assert (Hsb : span.size_bytes (span.of_list elems) = s).
  { apply size_bytes_of_list. unfold s in *. rewrite length_span_bytes in *. nia. }
  unfold update_instance, bind, glBindBuffer. rewrite Hsb.
  rewrite (to_size_t_small index) by lia.
  rewrite (to_ptrdiff_t_small (index * s)) by nia.
  rewrite (to_ptrdiff_t_small s) by nia.
  cbn [span.data]. unfold s.
  apply glBufferSubData_in_range; [|nia|fold s; nia].
  apply data_store_bound; simpl; done.
Qed.

(** [update_instance] never reads past the span it is given. *)
Lemma update_instance_defined (v : VertexBufferInst) (c : context) (index : Z)
    (elems : list float32) :
  exists c', update_instance v index (span.of_list elems) c = Some (tt, c') /\
    dom (buffers c') = dom (buffers c).
Proof.
  unfold update_instance, bind, glBindBuffer, glBufferSubData.
  set (c1 := set_binding GL_ARRAY_BUFFER (id_ v) c).
  assert (Hdom : dom (buffers c1) = dom (buffers c)) by done.
  destruct (data_store GL_ARRAY_BUFFER c1) as [store|] eqn:Hs; [|by eexists].
  destruct (_ || _); [by eexists|]. cbn [span.data].
  set (sz := Machine.to_ptrdiff_t _).
  assert (Hsz : sz <= Z.of_nat (length (span.bytes elems))).
  { unfold sz, span.size_bytes, span.size, shader_data_type.sizeof_float,
      Machine.to_ptrdiff_t, Machine.to_size_t.
    rewrite length_span_bytes, Z.mod_mod by lia.
    pose proof (Z.mod_pos_bound (Z.of_nat (length elems) * 4) (2 ^ 64) eq_refl).
    pose proof (Z.mod_le (Z.of_nat (length elems) * 4) (2 ^ 64) ltac:(lia) eq_refl).
    destruct (_ <? _); lia. }
  destruct (Z.ltb_spec (Z.of_nat (length (span.bytes elems))) sz); [lia|].
  eexists. split; [reflexivity|].
  unfold set_data_store, set_buffers. cbn [buffers]. rewrite dom_insert_L.
  unfold data_store in Hs. destruct (_ =? _)%N; [done|].
  apply (elem_of_dom_2 (D := gset N)) in Hs. rewrite <- Hdom.
  apply subseteq_union_1_L, singleton_subseteq_l. exact Hs.
Qed.

End StoreFacts.

Section DeleteFacts.
Import GL VertexBufferInst_impl.

Lemma set_binding_same (t : target) (c : context) : set_binding t (binding t c) c = c.
Proof. by destruct c, t. Qed.

Lemma record_at_lookup (c : context) (v : VertexBufferInst) (store : list Byte.byte) (i : Z) :
  buffers c !! id_ v = Some store ->
  0 <= i -> (i + 1) * instance_size v <= Z.of_nat (length store) ->
  record_at c v i = Some (slot store (instance_size v) i).
Proof.
  intros Hb Hi Hfit. unfold record_at. rewrite Hb.
  destruct (Z.leb_spec 0 i); [|lia].
  destruct (Z.leb_spec ((i + 1) * instance_size v) (Z.of_nat (length store))); [|lia].
  reflexivity.
Qed.

(** The span built over a successfully mapped record is the record. *)
Lemma of_pointer_mapped (bs : list Byte.byte) (s : Z) :
  Z.of_nat (length bs) = s -> s mod 4 = 0 ->
  span.of_pointer (Some bs) (s / shader_data_type.sizeof_float) =
    span.of_list (span.floats bs) /\
  span.bytes (span.floats bs) = bs.
Proof.
  intros Hlen Hmod. unfold shader_data_type.sizeof_float.
  assert (Hs : s = 4 * (s / 4)) by (apply Z_div_exact_full_2; lia).
  destruct (bytes_floats (Z.to_nat (s / 4)) bs ltac:(lia)) as [Hb Hl].
  split; [|exact Hb]. unfold span.of_pointer. rewrite Hl.
  destruct (Z.leb_spec (s / 4) (Z.of_nat (Z.to_nat (s / 4)))); [|lia].
  f_equal. apply firstn_all2. lia.
Qed.

(** With the store's own buffer bound to [GL_ARRAY_BUFFER], deleting a live
    slot copies the last live record over it and drops the count. *)
Lemma delete_instance_when_bound (v : VertexBufferInst) (c : context)
    (store : list Byte.byte) (index : Z) :
  holds_records c v store ->
  array_buffer c = id_ v ->
  0 <= index < count_ v ->
  0 < instance_size v < 2 ^ 32 ->
  instance_size v mod 4 = 0 ->
  delete_instance v index c =
    Some ((index, with_count v (count_ v - 1)),
          set_data_store GL_ARRAY_BUFFER
            (write_range store (Z.to_nat (index * instance_size v))
               (slot store (instance_size v) (count_ v - 1))) c).
Proof.
  intros (Hid & Hb & Hc0 & Hcmax & Hfit & Hlen) Hbound Hi Hs Hmod.
  unfold instance_size in *. set (s := Layout.stride (layout_ v)) in *.
  unfold Machine.INT32_MAX in Hcmax.
  assert (H63 : 2 ^ 63 < 2 ^ 64) by reflexivity.
  assert (H31 : 2 ^ 31 < 2 ^ 63) by reflexivity.
  unfold delete_instance.
  destruct (Z.leb_spec (count_ v) index); [lia|].
  destruct (Z.ltb_spec index 0); [lia|]. cbn [orb].
  unfold bind at 1. unfold glMapBufferRange.
  rewrite (data_store_bound GL_ARRAY_BUFFER c store) by (simpl; congruence).
  fold s. rewrite (to_size_t_small (count_ v - 1)) by lia.
  rewrite (to_ptrdiff_t_small ((count_ v - 1) * s)) by nia.
  rewrite (to_uint32_t_small s) by lia.
  destruct (Z.ltb_spec ((count_ v - 1) * s) 0); [nia|].
  destruct (Z.leb_spec s 0); [lia|].
  destruct (Z.ltb_spec (Z.of_nat (length store)) ((count_ v - 1) * s + s)); [nia|].
  cbn [orb].
  set (last := read_range store (Z.to_nat ((count_ v - 1) * s)) (Z.to_nat s)).
  assert (Hlast : Z.of_nat (length last) = s).
  { unfold last. rewrite length_read_range; nia. }
  change (Layout.stride_elements (layout_ v)) with (s / shader_data_type.sizeof_float).
  destruct (of_pointer_mapped last s Hlast Hmod) as [-> Hbytes].
  unfold bind at 1.
  rewrite (update_instance_in_range v c store index (span.floats last));
    [|done|done|unfold Machine.INT32_MAX; lia|rewrite Hbytes, Hlast; nia|done].
  rewrite Hbytes, Hlast. unfold bind, glUnmapBuffer, ret.
  rewrite <- Hbound. change (array_buffer c) with (binding GL_ARRAY_BUFFER c).
  rewrite set_binding_same. reflexivity.
Qed.

End DeleteFacts.

(** ** The instance store: creation and growth *)
Section GrowthFacts.
Import GL VertexBufferInst_impl.

Lemma total_ret {A} (a : A) : total (ret a).
Proof. intros c. by eexists _, _. Qed.

Lemma total_bind {A B} (m : M A) (k : A -> M B) :
  total m -> (forall a, total (k a)) -> total (bind m k).
Proof.
  intros Hm Hk c. unfold bind. destruct (Hm c) as (a & c' & ->). apply Hk.
Qed.

Lemma total_glGenBuffers : total glGenBuffers.
Proof. intros c. by eexists _, _. Qed.

Lemma total_glBindBuffer t id : total (glBindBuffer t id).
Proof. intros c. by eexists _, _. Qed.

Lemma total_glBufferData_null t size u : total (glBufferData t size None u).
Proof.
  intros c. unfold glBufferData.
  destruct (data_store t c); [destruct (size <? 0)|]; by eexists _, _.
Qed.

Lemma total_glCopyBufferSubData rt wt roff woff size :
  total (glCopyBufferSubData rt wt roff woff size).
Proof.
  intros c. unfold glCopyBufferSubData.
  destruct (data_store rt c), (data_store wt c); try by eexists _, _.
  destruct (_ || _); [by eexists _, _|]. destruct (_ && _); by eexists _, _.
Qed.

Lemma total_glDeleteBuffers id : total (glDeleteBuffers id).
Proof. intros c. unfold glDeleteBuffers. destruct (_ =? _)%N; by eexists _, _. Qed.

(** Growing never touches client memory: it is always defined. *)
Lemma total_resize_buffer v old_capacity new_capacity :
  total (resize_buffer v old_capacity new_capacity).
Proof.
  unfold resize_buffer.
  repeat (apply total_bind; [|intros ?]);
    auto using total_glGenBuffers, total_glBindBuffer, total_glBufferData_null,
      total_glCopyBufferSubData, total_glDeleteBuffers.
Qed.

(** An append that has to grow: the capacity becomes what [calc_capacity]
    returns and the count goes up by one. *)
Lemma add_instance_grows (v : VertexBufferInst) (c : context) (elems : list float32)
    (new_capacity : Z) :
  count_ v < Machine.INT32_MAX ->
  capacity_ v < Machine.to_size_t (Machine.to_size_t (count_ v + 1) * Layout.stride (layout_ v)) ->
  calc_capacity v (capacity_ v) = Some new_capacity ->
  exists c', add_instance v (span.of_list elems) c =
    Some (with_count (with_capacity v new_capacity) (count_ v + 1), c').
Proof.
  intros Hmax Hgrow Hcalc. unfold add_instance.
  destruct (Z.leb_spec Machine.INT32_MAX (count_ v)); [lia|].
  destruct (Z.ltb_spec (capacity_ v)
    (Machine.to_size_t (Machine.to_size_t (count_ v + 1) * Layout.stride (layout_ v)))); [|lia].
  rewrite Hcalc. unfold bind at 1. unfold bind at 1.
  destruct (total_resize_buffer v (capacity_ v) new_capacity c) as ([] & c1 & ->).
  unfold ret at 1. unfold bind at 1.
  destruct (update_instance_defined (with_capacity v new_capacity) c1
              (count_ (with_capacity v new_capacity)) elems) as (c2 & -> & _).
  by eexists.
Qed.

(** An append that fits: only the count changes. *)
Lemma add_instance_fits (v : VertexBufferInst) (c : context) (elems : list float32) :
  count_ v < Machine.INT32_MAX ->
  Machine.to_size_t (Machine.to_size_t (count_ v + 1) * Layout.stride (layout_ v)) <= capacity_ v ->
  exists c', add_instance v (span.of_list elems) c = Some (with_count v (count_ v + 1), c').
Proof.
  intros Hmax Hfit. unfold add_instance.
  destruct (Z.leb_spec Machine.INT32_MAX (count_ v)); [lia|].
  destruct (Z.ltb_spec (capacity_ v)
    (Machine.to_size_t (Machine.to_size_t (count_ v + 1) * Layout.stride (layout_ v)))); [lia|].
  unfold bind at 1. unfold ret at 1. unfold bind at 1.
  destruct (update_instance_defined v c (count_ v) elems) as (c2 & -> & _).
  by eexists.
Qed.

(** Every defined append raises the count by exactly one. *)
Lemma add_instance_count (v v' : VertexBufferInst) (c c' : context) (elems : list float32) :
  add_instance v (span.of_list elems) c = Some (v', c') ->
  instance_count v' = instance_count v + 1 /\ base v' = base v.
Proof.
  unfold add_instance, instance_count.
  destruct (Z.leb_spec Machine.INT32_MAX (count_ v)); [discriminate|].
  destruct (_ <? _).
  - destruct (calc_capacity v (capacity_ v)) as [n|]; [|discriminate].
    unfold bind at 1. unfold bind at 1.
    destruct (resize_buffer v (capacity_ v) n c) as [[[] c1]|]; [|discriminate].
    unfold ret at 1. unfold bind at 1.
    destruct (update_instance _ _ _ c1) as [[[] c2]|]; [|discriminate].
    intros [= <- <-]. done.
  - unfold bind at 1. unfold ret at 1. unfold bind at 1.
    destruct (update_instance _ _ _ c) as [[[] c2]|]; [|discriminate].
    intros [= <- <-]. done.
Qed.

(** The base constructor: a fresh buffer object holding exactly the bytes
    of the initial data, left bound to [GL_ARRAY_BUFFER]. *)
Lemma VertexBuffer_make_spec (vertices : list float32) (layout : VertexBufferLayout)
    (hint : DriverDrawHint) (c : context) :
  Z.of_nat (length vertices) * 4 < 2 ^ 63 ->
  let id := fresh ({[0%N]} ∪ dom (buffers c)) in
  id <> 0%N /\ buffers c !! id = None /\
  VertexBuffer_impl.make vertices layout hint c =
    Some ({| id_ := id; layout_ := layout |},
          {| buffers := <[id := span.bytes vertices]> (buffers c);
             array_buffer := id;
             copy_read_buffer := copy_read_buffer c;
             copy_write_buffer := copy_write_buffer c |}).
Proof.
  intros Hlen id.
  pose proof (is_fresh ({[0%N]} ∪ dom (buffers c))) as Hfresh. fold id in Hfresh.
  assert (Hid : id <> 0%N) by set_solver.
  assert (Hnew : buffers c !! id = None) by (apply not_elem_of_dom; set_solver).
  split; [exact Hid|]. split; [exact Hnew|].
  unfold VertexBuffer_impl.make, bind, glGenBuffers, glBindBuffer, glBufferData. fold id.
  unfold data_store. cbn [binding set_binding set_buffers array_buffer buffers].
  destruct (N.eqb_spec id 0); [done|]. rewrite lookup_insert_eq.
  assert (H63 : 2 ^ 63 < 2 ^ 64) by reflexivity.
  rewrite size_bytes_of_list by lia.
  rewrite to_ptrdiff_t_small by (rewrite length_span_bytes; lia).
  destruct (Z.ltb_spec (Z.of_nat (length (span.bytes vertices))) 0); [lia|].
  cbn [span.data]. rewrite Z.ltb_irrefl, Nat2Z.id, firstn_all.
  unfold ret, set_data_store, set_buffers.
  cbn [binding set_binding array_buffer buffers copy_read_buffer copy_write_buffer].
  by rewrite insert_insert_eq.
Qed.

Lemma calc_capacity_zero (v : VertexBufferInst) :
  calc_capacity v 0 = Some (instance_size v).
Proof. reflexivity. Qed.

Lemma calc_capacity_one_record (v : VertexBufferInst) :
  0 <= instance_size v < 2 ^ 59 ->
  calc_capacity v (instance_size v) = Some (32 * instance_size v).
Proof.
  intros Hs. unfold calc_capacity.
  destruct (Z.eqb_spec (instance_size v) 0) as [->|_]; [reflexivity|].
  rewrite Z.eqb_refl, to_size_t_small; [f_equal; lia|].
  change (2 ^ 64) with (32 * 2 ^ 59). lia.
Qed.

Lemma glBufferData_null_bound (t : target) (c : context) (size : Z) (u : usage)
    (store : list Byte.byte) :
  data_store t c = Some store -> 0 <= size ->
  glBufferData t size None u c =
    Some (tt, set_data_store t (replicate (Z.to_nat size) Byte.x00) c).
Proof.
  intros Hs Hsize. unfold glBufferData. rewrite Hs.
  destruct (Z.ltb_spec size 0); [lia|reflexivity].
Qed.

Lemma glCopyBufferSubData_prefix (rt wt : target) (c : context) (size : Z)
    (rstore wstore : list Byte.byte) :
  data_store rt c = Some rstore -> data_store wt c = Some wstore ->
  binding rt c <> binding wt c ->
  0 <= size <= Z.of_nat (length rstore) -> size <= Z.of_nat (length wstore) ->
  glCopyBufferSubData rt wt 0 0 size c =
    Some (tt, set_data_store wt (take (Z.to_nat size) rstore ++ drop (Z.to_nat size) wstore) c).
Proof.
  intros Hr Hw Hne Hsize Hfit. unfold glCopyBufferSubData. rewrite Hr, Hw.
  destruct (Z.ltb_spec size 0); [lia|].
  destruct (Z.ltb_spec (Z.of_nat (length rstore)) (0 + size)); [lia|].
  destruct (Z.ltb_spec (Z.of_nat (length wstore)) (0 + size)); [lia|].
  destruct (N.eqb_spec (binding rt c) (binding wt c)); [done|].
  cbn [orb andb Z.ltb Z.compare]. do 3 f_equal.
  unfold write_range, read_range. change (Z.to_nat 0) with 0%nat.
  rewrite drop_0, take_0. cbn [app]. f_equal.
  rewrite length_take, Nat.min_l by lia. reflexivity.
Qed.

Lemma resize_buffer_spec (v : VertexBufferInst) (c : context) (store : list Byte.byte)
    (old_capacity new_capacity : Z) :
  id_ v <> 0%N ->
  buffers c !! id_ v = Some store ->
  0 <= count_ v <= Machine.INT32_MAX ->
  0 <= Layout.stride (layout_ v) < 2 ^ 32 ->
  let live := count_ v * Layout.stride (layout_ v) in
  live <= Z.of_nat (length store) ->
  live <= old_capacity < 2 ^ 63 ->
  live <= new_capacity < 2 ^ 63 ->
  exists c',
    resize_buffer v old_capacity new_capacity c = Some (tt, c') /\
    buffers c' !! id_ v =
      Some (take (Z.to_nat live) store ++
            replicate (Z.to_nat new_capacity - Z.to_nat live) Byte.x00) /\
    array_buffer c' = id_ v /\
    forall id, id <> id_ v -> buffers c' !! id = buffers c !! id.
Proof.
  intros Hid Hb Hcount Hs live Hlive Hold Hnew.
  unfold Machine.INT32_MAX in Hcount.
  assert (H63 : 2 ^ 31 * 2 ^ 32 = 2 ^ 63) by reflexivity.
  assert (H64 : 2 ^ 63 < 2 ^ 64) by reflexivity.
  assert (Hlive0 : 0 <= live < 2 ^ 63) by (split; [unfold live; nia|lia]).
  unfold resize_buffer.
  rewrite (to_size_t_small (count_ v)) by lia. fold live.
  rewrite (to_ptrdiff_t_small live), (to_ptrdiff_t_small old_capacity),
    (to_ptrdiff_t_small new_capacity) by lia.
  set (new_id := fresh ({[0%N]} ∪ dom (buffers c))).
  pose proof (is_fresh ({[0%N]} ∪ dom (buffers c))) as Hfresh. fold new_id in Hfresh.
  assert (Hn0 : new_id <> 0%N).
  { intros E. apply Hfresh. rewrite E. apply elem_of_union_l. by apply elem_of_singleton. }
  assert (Hnid : new_id <> id_ v).
  { intros E. apply Hfresh. rewrite E. apply elem_of_union_r. by apply elem_of_dom_2 in Hb. }
  unfold bind at 1. unfold glGenBuffers. fold new_id.
  unfold bind at 1. unfold glBindBuffer at 1.
  unfold bind at 1.
  erewrite glBufferData_null_bound; [| |lia].
  2:{ apply data_store_bound; cbn; [done|apply lookup_insert_eq]. }
  unfold bind at 1. unfold glBindBuffer at 1.
  unfold bind at 1.
  erewrite (glCopyBufferSubData_prefix _ _ _ live store); [| | | | |].
  2:{ apply data_store_bound; cbn; [done|].
      rewrite lookup_insert_ne by done. rewrite lookup_insert_ne by done. exact Hb. }
  2:{ apply data_store_bound; cbn; [done|apply lookup_insert_eq]. }
  2:{ cbn. congruence. }
  2:{ lia. }
  2:{ rewrite length_replicate. lia. }
  unfold bind at 1. unfold glBindBuffer at 1.
  unfold bind at 1.
  erewrite glBufferData_null_bound; [| |lia].
  2:{ apply data_store_bound; cbn; [done|].
      rewrite !lookup_insert_ne by done. exact Hb. }
  unfold bind at 1. unfold glBindBuffer at 1.
  unfold bind at 1.
  erewrite (glCopyBufferSubData_prefix _ _ _ live); [| | | | |].
  2:{ apply data_store_bound; cbn; [done|].
      rewrite lookup_insert_ne by done. apply lookup_insert_eq. }
  2:{ apply data_store_bound; cbn; [done|apply lookup_insert_eq]. }
  2:{ cbn. congruence. }
  2:{ rewrite length_app, length_take, length_drop, length_replicate. lia. }
  2:{ rewrite length_replicate. lia. }
  unfold bind at 1. unfold glDeleteBuffers.
  destruct (N.eqb_spec new_id 0); [done|].
  unfold glBindBuffer.
  eexists. split; [reflexivity|].
  cbn [binding set_binding set_data_store set_buffers buffers array_buffer
       copy_read_buffer copy_write_buffer].
  split; [|split; [reflexivity|]].
  - rewrite lookup_delete_ne by done. rewrite lookup_insert_eq. f_equal.
    rewrite take_app_le by (rewrite length_take; lia).
    rewrite take_take, Nat.min_id. f_equal.
    rewrite drop_replicate. reflexivity.
  - intros id Hne. destruct (decide (id = new_id)) as [->|Hne2].
    + rewrite lookup_delete_eq. symmetry. apply not_elem_of_dom.
      intros Hin. apply Hfresh. by apply elem_of_union_r.
    + rewrite lookup_delete_ne by done. by rewrite !lookup_insert_ne.
Qed.

Lemma slot_prefix (store tail : list Byte.byte) (n : nat) (s j : Z) :
  0 <= j -> 0 <= s -> (j + 1) * s <= Z.of_nat n -> (n <= length store)%nat ->
  slot (take n store ++ tail) s j = slot store s j.
Proof.
  intros Hj Hs Hfit Hn. unfold slot. apply list_eq. intros k.
  rewrite !read_range_lookup. destruct (decide (k < Z.to_nat s)%nat); [|done].
  rewrite lookup_app_l by (rewrite length_take; nia).
  apply lookup_take_lt. nia.
Qed.

(** What [calc_capacity] returns when an append does not fit. *)
Lemma calc_capacity_grows (v : VertexBufferInst) :
  let s := instance_size v in
  0 < s < 2 ^ 32 ->
  0 <= count_ v ->
  count_ v * s <= capacity_ v ->
  (capacity_ v = 0 \/ capacity_ v = s \/ 32 * s <= capacity_ v) ->
  capacity_ v < (count_ v + 1) * s ->
  (count_ v + 1) * s < 2 ^ 48 ->
  exists new_capacity,
    calc_capacity v (capacity_ v) = Some new_capacity /\
    (count_ v + 1) * s <= new_capacity /\
    (new_capacity = s \/ 32 * s <= new_capacity) /\
    (new_capacity <= 32 * s \/ new_capacity <= 2 * (count_ v + 1) * s).
Proof.
  intros s Hs Hc0 Hinv Hclass Hgrow Hbound.
  assert (H48 : 2 ^ 48 < 2 ^ 50) by reflexivity.
  assert (H32 : 2 ^ 32 < 2 ^ 59) by reflexivity.
  destruct Hclass as [E|[E|Hbig]].
  - exists s. rewrite E. split; [apply calc_capacity_zero|]. split; [nia|]. lia.
  - exists (32 * s). rewrite E. split; [apply calc_capacity_one_record; fold s; lia|].
    split; [nia|]. lia.
  - destruct (mul_phi_bounds (capacity_ v)) as (a & Ha & Hlo & Hhi); [lia|].
    exists a. split.
    { unfold calc_capacity. fold s.
      destruct (Z.eqb_spec (capacity_ v) 0); [lia|].
      destruct (Z.eqb_spec (capacity_ v) s); [lia|]. exact Ha. }
    assert (Hlow : capacity_ v + capacity_ v / 2 <= a).
    { eapply Z.le_trans; [|exact Hlo].
      apply Z.div_le_lower_bound; [lia|]. unfold Double.phi_mantissa.
      pose proof (Z.mul_div_le (capacity_ v) 2 ltac:(lia)).
      change (2 ^ 52) with 4503599627370496. lia. }
    assert (Hup : a <= 2 * capacity_ v).
    { eapply Z.le_trans; [exact Hhi|].
      apply Z.div_le_upper_bound; [lia|]. unfold Double.phi_mantissa.
      change (2 ^ 52) with 4503599627370496. lia. }
    assert (16 * s <= capacity_ v / 2) by (apply Z.div_le_lower_bound; lia).
    split; [nia|]. split; [lia|]. right. nia.
Qed.

(** One append to a well-sized store: it is defined, keeps the store
    well-sized, raises the count by one, stores the record in the slot at
    the old count and keeps every earlier record. *)
Lemma add_instance_step (v : VertexBufferInst) (c : context) (elems : list float32) :
  let s := instance_size v in
  well_sized c v ->
  0 < s < 2 ^ 32 ->
  count_ v < Machine.INT32_MAX ->
  (count_ v + 1) * s < 2 ^ 48 ->
  Z.of_nat (length (span.bytes elems)) = s ->
  exists v' c',
    add_instance v (span.of_list elems) c = Some (v', c') /\
    well_sized c' v' /\
    count_ v' = count_ v + 1 /\
    base v' = base v /\
    record_at c' v' (count_ v) = Some (span.bytes elems) /\
    (forall j, 0 <= j < count_ v -> record_at c' v' j = record_at c v j).
Proof.
  intros s (Hid & Hc0 & (store & Hb & Hlen) & Hinv & Hclass & Hmax) Hs Hcnt Hbound Hsz.
  fold s in Hinv, Hclass, Hmax.
  assert (H48 : 2 ^ 48 < 2 ^ 63) by reflexivity.
  assert (H64 : 2 ^ 63 < 2 ^ 64) by reflexivity.
  assert (HI : Machine.INT32_MAX < 2 ^ 63) by reflexivity.
  assert (Hbs : length (span.bytes elems) = Z.to_nat s) by lia.
  unfold add_instance.
  destruct (Z.leb_spec Machine.INT32_MAX (count_ v)); [lia|].
  change (Layout.stride (layout_ v)) with s.
  rewrite (to_size_t_small (count_ v + 1)) by lia.
  rewrite (to_size_t_small ((count_ v + 1) * s)) by lia.
  destruct (Z.ltb_spec (capacity_ v) ((count_ v + 1) * s)) as [Hgrow|Hfit].
  - (* the buffer grows first *)
    destruct (calc_capacity_grows v Hs Hc0 Hinv Hclass Hgrow Hbound)
      as (new & -> & Hnew & Hclass' & Hmax').
    fold s in Hnew, Hclass', Hmax'.
    assert (Hnew63 : new < 2 ^ 63) by nia.
    destruct (resize_buffer_spec v c store (capacity_ v) new Hid Hb)
      as (c1 & Hres & Hb1 & Hbound1 & Hother1);
      [lia|change (Layout.stride (layout_ v)) with s; lia..|].
    change (Layout.stride (layout_ v)) with s in Hb1. set (live := count_ v * s) in *.
    set (store1 := take (Z.to_nat live) store ++
                   replicate (Z.to_nat new - Z.to_nat live) Byte.x00) in *.
    assert (Hlen1 : Z.of_nat (length store1) = new).
    { unfold store1. rewrite length_app, length_take, length_replicate. lia. }
    unfold bind at 1. unfold bind at 1. rewrite Hres. unfold ret at 1.
    unfold bind at 1. change (count_ (with_capacity v new)) with (count_ v).
    rewrite (update_instance_in_range (with_capacity v new) c1 store1 (count_ v) elems);
      [|exact Hid|exact Hb1|cbn; lia|rewrite Hsz; cbn; lia|lia].
    unfold ret. eexists _, _. split; [reflexivity|].
    rewrite Hsz. cbn [count_ with_capacity with_count].
    set (store2 := write_range store1 (Z.to_nat (count_ v * s)) (span.bytes elems)).
    assert (Hlen2 : length store2 = length store1)
      by (unfold store2; apply length_write_range; nia).
    set (v' := with_count (with_capacity v new) (count_ v + 1)).
    set (c2 := set_data_store GL_ARRAY_BUFFER store2 (set_binding GL_ARRAY_BUFFER (id_ v) c1)).
    assert (Hb2 : buffers c2 !! id_ v' = Some store2) by (cbn; apply lookup_insert_eq).
    assert (Hsz' : instance_size v' = s) by reflexivity.
    split; [|split; [reflexivity|split; [reflexivity|split]]].
    + unfold well_sized. rewrite Hsz'. cbn [v' id_ base count_ capacity_ with_count with_capacity].
      split; [exact Hid|]. split; [lia|]. split; [exists store2; split; [exact Hb2|lia]|].
      split; [lia|]. split; [lia|]. lia.
    + erewrite (record_at_lookup _ v' store2 (count_ v));
        [|exact Hb2|lia|rewrite Hsz'; lia].
      rewrite Hsz'. f_equal. apply slot_write_same; [exact Hbs|lia..].
    + intros j Hj.
      erewrite (record_at_lookup _ v' store2 j); [|exact Hb2|lia|rewrite Hsz'; nia].
      rewrite (record_at_lookup c v store j Hb) by (fold s; nia).
      rewrite Hsz'. fold s. f_equal. unfold store2.
      rewrite slot_write_other; [|exact Hbs|lia..].
      unfold store1. apply slot_prefix; [lia|lia|unfold live; nia|unfold live; nia].
  - (* the record fits *)
    unfold bind at 1. unfold ret at 1. unfold bind at 1.
    rewrite (update_instance_in_range v c store (count_ v) elems);
      [|exact Hid|exact Hb|lia|rewrite Hsz; lia|lia].
    unfold ret. eexists _, _. split; [reflexivity|]. rewrite Hsz.
    set (store2 := write_range store (Z.to_nat (count_ v * s)) (span.bytes elems)).
    assert (Hlen2 : length store2 = length store)
      by (unfold store2; apply length_write_range; nia).
    set (v' := with_count v (count_ v + 1)).
    set (c2 := set_data_store GL_ARRAY_BUFFER store2 (set_binding GL_ARRAY_BUFFER (id_ v) c)).
    assert (Hb2 : buffers c2 !! id_ v' = Some store2) by (cbn; apply lookup_insert_eq).
    assert (Hsz' : instance_size v' = s) by reflexivity.
    split; [|split; [reflexivity|split; [reflexivity|split]]].
    + unfold well_sized. rewrite Hsz'. cbn [v' id_ base count_ capacity_ with_count].
      split; [exact Hid|]. split; [lia|]. split; [exists store2; split; [exact Hb2|lia]|].
      split; [lia|]. split; [exact Hclass|]. lia.
    + erewrite (record_at_lookup _ v' store2 (count_ v));
        [|exact Hb2|lia|rewrite Hsz'; lia].
      rewrite Hsz'. f_equal. apply slot_write_same; [exact Hbs|lia..].
    + intros j Hj.
      erewrite (record_at_lookup _ v' store2 j); [|exact Hb2|lia|rewrite Hsz'; nia].
      rewrite (record_at_lookup c v store j Hb) by (fold s; nia).
      rewrite Hsz'. fold s. f_equal. apply slot_write_other; [exact Hbs|lia..].
Qed.

Lemma add_all_spec (records : list (list float32)) (v : VertexBufferInst) (c : context) :
  let s := instance_size v in
  well_sized c v ->
  0 < s < 2 ^ 32 ->
  Forall (fun r => Z.of_nat (length (span.bytes r)) = s) records ->
  count_ v + Z.of_nat (length records) <= Machine.INT32_MAX ->
  (count_ v + Z.of_nat (length records)) * s < 2 ^ 48 ->
  exists v' c',
    add_all v records c = Some (v', c') /\
    well_sized c' v' /\
    count_ v' = count_ v + Z.of_nat (length records) /\
    base v' = base v /\
    (forall (i : nat) r, records !! i = Some r ->
       record_at c' v' (count_ v + Z.of_nat i) = Some (span.bytes r)) /\
    (forall j, 0 <= j < count_ v -> record_at c' v' j = record_at c v j).
Proof.
  revert v c. induction records as [|r rest IH]; intros v c s Hw Hs Hvalid Hcnt Hbound.
  - exists v, c. split; [reflexivity|]. split; [exact Hw|]. split; [simpl; lia|].
    split; [reflexivity|]. split; [|done]. intros i r Hi. by rewrite lookup_nil in Hi.
  - apply Forall_cons in Hvalid as [Hr Hrest]. cbn [length] in Hcnt, Hbound.
    assert (Hc0 : 0 <= count_ v) by (destruct Hw as (_ & H0 & _); exact H0).
    destruct (add_instance_step v c r Hw Hs) as (v1 & c1 & Hadd & Hw1 & Hc1 & Hb1 & Hnew & Hold);
      [lia|fold s; nia|exact Hr|].
    assert (Hs1 : instance_size v1 = s) by (unfold instance_size, s; by rewrite Hb1).
    destruct (IH v1 c1) as (v2 & c2 & Hall & Hw2 & Hc2 & Hb2 & Hnew2 & Hold2);
      [exact Hw1|by rewrite Hs1|by rewrite Hs1|lia|rewrite Hs1; nia|].
    exists v2, c2. cbn [add_all length]. unfold bind. rewrite Hadd.
    split; [exact Hall|]. split; [exact Hw2|]. split; [lia|].
    split; [congruence|]. split.
    + intros [|i] r' Hi; cbn in Hi.
      * injection Hi as <-. rewrite Z.add_0_r, Hold2 by lia. exact Hnew.
      * replace (count_ v + Z.of_nat (S i)) with (count_ v1 + Z.of_nat i) by lia.
        by apply Hnew2.
    + intros j Hj. rewrite Hold2 by lia. by apply Hold.
Qed.

End GrowthFacts.

(* ===================================================================== *)
(** * Part III: the claims                                                *)
(* ===================================================================== *)

Section InstanceStoreClaims.
Import GL VertexBufferInst_impl.

(** C5: for every store and every index with [index < 0] or
    [index >= count], [delete_instance index] is a no-op: it issues no
    command, leaves the store (count, capacity) and the whole context (all
    record bytes) unchanged, and returns the prior count. *)
Theorem delete_instance_out_of_range (v : VertexBufferInst) (c : context) (index : Z) :
  index < 0 \/ instance_count v <= index ->
  delete_instance v index c = Some ((instance_count v, v), c).
Proof.
  intros H. unfold delete_instance, instance_count in *.
  destruct (Z.leb_spec (count_ v) index); [reflexivity|].
  destruct (Z.ltb_spec index 0); [reflexivity|lia].
Qed.

(** Index 3 on the three-record store of the examples. *)
Lemma delete_instance_out_of_range_witness :
  instance_count Examples.small_store <= 3 /\
  delete_instance Examples.small_store 3 Examples.small_context =
    Some ((3, Examples.small_store), Examples.small_context).
Proof.
  split; [vm_compute; discriminate|].
  apply (delete_instance_out_of_range Examples.small_store Examples.small_context 3).
  right. vm_compute. discriminate.
Defined.

(** The round trip on a store that holds its live records in its buffer:
    for every slot [0 <= i < count] and every record [elems] whose byte
    length is [instance_size], [update_instance i elems] followed by
    reading slot [i] gives back exactly those bytes; the bytes are written
    at offset [i * instance_size] of the same data store, whose size does
    not change, and no other slot or buffer is touched. *)
Theorem update_instance_round_trip (v : VertexBufferInst) (c : context)
    (store : list Byte.byte) (i : Z) (elems : list float32) :
  holds_records c v store ->
  0 <= i < instance_count v ->
  Z.of_nat (length (span.bytes elems)) = instance_size v ->
  exists c' store',
    update_instance v i (span.of_list elems) c = Some (tt, c') /\
    record_at c' v i = Some (span.bytes elems) /\
    buffers c' !! id_ v = Some store' /\
    store' = write_range store (Z.to_nat (i * instance_size v)) (span.bytes elems) /\
    length store' = length store /\
    (forall j, 0 <= j < instance_count v -> j <> i -> record_at c' v j = record_at c v j) /\
    (forall id, id <> id_ v -> buffers c' !! id = buffers c !! id).
Proof.
  intros (Hid & Hb & Hc0 & Hcmax & Hfit & Hlen) Hi Hsz. unfold instance_count in *.
  set (s := instance_size v) in *. assert (Hs0 : 0 <= s) by lia.
  set (bs := span.bytes elems) in *.
  set (store' := write_range store (Z.to_nat (i * s)) bs).
  assert (Hlen' : length store' = length store)
    by (unfold store'; apply length_write_range; nia).
  exists (set_data_store GL_ARRAY_BUFFER store' (set_binding GL_ARRAY_BUFFER (id_ v) c)), store'.
  assert (Hb' : buffers (set_data_store GL_ARRAY_BUFFER store'
                          (set_binding GL_ARRAY_BUFFER (id_ v) c)) !! id_ v = Some store')
    by (simpl; apply lookup_insert_eq).
  split; [|split; [|split; [exact Hb'|split; [reflexivity|split; [exact Hlen'|split]]]]].
  - unfold store'. rewrite <- Hsz.
    apply update_instance_in_range; [done|done|lia|fold bs; nia|done].
  - rewrite (record_at_lookup _ v store' i Hb') by (fold s; nia). fold s.
    assert (Hn : Z.to_nat s = length bs) by lia.
    unfold slot, store'. rewrite Hn. f_equal. apply read_write_range. nia.
  - intros j Hj Hne.
    rewrite (record_at_lookup _ v store' j Hb') by (fold s; nia).
    rewrite (record_at_lookup c v store j Hb) by (fold s; nia). fold s.
    f_equal. unfold slot, store'. apply read_write_range_other; nia.
  - intros id Hne. simpl. by apply lookup_insert_ne.
Qed.

(** The example store holds its three records in buffer 1. *)
Lemma small_store_holds_records :
  holds_records Examples.small_context Examples.small_store
    (span.bytes (Examples.r0 ++ Examples.r1 ++ Examples.r2)).
Proof.
  unfold holds_records. split; [discriminate|]. split; [reflexivity|].
  repeat split; vm_compute; discriminate || reflexivity.
Defined.

(** Overwriting slot 1 of the example store. *)
Lemma update_instance_round_trip_witness :
  exists c' store',
    update_instance Examples.small_store 1 (span.of_list [Examples.fl Byte.xff])
      Examples.small_context = Some (tt, c') /\
    record_at c' Examples.small_store 1 = Some [Byte.xff; Byte.x00; Byte.x00; Byte.x00] /\
    buffers c' !! 1%N = Some store' /\
    store' = [Byte.x10; Byte.x00; Byte.x00; Byte.x00; Byte.xff; Byte.x00; Byte.x00; Byte.x00;
              Byte.x12; Byte.x00; Byte.x00; Byte.x00].
Proof.
  destruct (update_instance_round_trip Examples.small_store Examples.small_context
              (span.bytes (Examples.r0 ++ Examples.r1 ++ Examples.r2)) 1
              [Examples.fl Byte.xff] small_store_holds_records)
    as (c' & store' & Hrun & Hread & Hb & Hst & _).
  - vm_compute. split; discriminate || reflexivity.
  - reflexivity.
  - exists c', store'. repeat split; [exact Hrun|exact Hread|exact Hb|].
    rewrite Hst. reflexivity.
Defined.

(** C6: the round trip fails on a store the constructor from initial data
    produces.  Created from five floats under the layout
    [(vec3, "pos"); (vec2, "uv")] and given one [add_instance], the store
    has count 1 and record size 20 but an allocation of 8 bytes (the
    constructor keeps a float count in [capacity_]).  [update_instance] of
    slot 0 with a 20-byte record is then rejected by the driver: the data
    store is what it was, and slot 0 cannot be read back. *)
Theorem update_after_create_with_data_is_rejected :
  run (v <- make Examples.five_floats Examples.layout_pos_uv ;;
       v <- add_instance v (span.of_list Examples.five_floats) ;;
       before <- read_store v ;;
       update_instance v 0 (span.of_list Examples.five_other_floats) ;;
       after <- read_store v ;;
       slot0 <- read_record v 0 ;;
       ret (instance_count v, instance_size v,
            Z.of_nat (length (span.bytes Examples.five_other_floats)),
            before, after, slot0))
  = Some (1, 20, 20, Some (replicate 8 Byte.x00), Some (replicate 8 Byte.x00), None).
Proof. vm_compute. reflexivity. Qed.

(** With the store's buffer bound, [delete_instance] is the swap-with-last
    removal: slot [index] receives the bytes of slot [count - 1], every
    other slot below [count - 1] keeps its bytes, the count drops by one and
    [index] is returned. *)
Lemma delete_instance_swaps_last_when_bound (v : VertexBufferInst) (c : context)
    (store : list Byte.byte) (index : Z) :
  holds_records c v store ->
  array_buffer c = id_ v ->
  0 <= index < instance_count v ->
  0 < instance_size v < 2 ^ 32 ->
  instance_size v mod 4 = 0 ->
  exists v' c',
    delete_instance v index c = Some ((index, v'), c') /\
    instance_count v' = instance_count v - 1 /\
    capacity v' = capacity v /\
    record_at c' v' index = record_at c v (instance_count v - 1) /\
    (forall j, 0 <= j < instance_count v - 1 -> j <> index ->
       record_at c' v' j = record_at c v j).
Proof.
  intros Hh Hbound Hi Hs Hmod.
  rewrite (delete_instance_when_bound v c store index Hh Hbound Hi Hs Hmod).
  destruct Hh as (Hid & Hb & Hc0 & Hcmax & Hfit & Hlen). unfold instance_count in *.
  set (s := instance_size v) in *.
  set (last := slot store s (count_ v - 1)).
  assert (Hlast : length last = Z.to_nat s) by (apply length_slot; nia).
  set (store' := write_range store (Z.to_nat (index * s)) last).
  assert (Hlen' : length store' = length store)
    by (unfold store'; apply length_write_range; nia).
  eexists _, _. split; [reflexivity|]. split; [reflexivity|]. split; [reflexivity|].
  assert (Hb' : buffers (set_data_store GL_ARRAY_BUFFER store' c) !! id_ (with_count v (count_ v - 1))
                = Some store').
  { simpl. rewrite Hbound. apply lookup_insert_eq. }
  assert (Hsz' : instance_size (with_count v (count_ v - 1)) = s) by reflexivity.
  assert (Hslot : (index + 1) * s <= count_ v * s) by nia.
  split.
  - rewrite (record_at_lookup _ _ store' index Hb') by (rewrite ?Hsz'; nia).
    rewrite (record_at_lookup c v store (count_ v - 1) Hb) by (fold s; nia).
    f_equal. rewrite Hsz'. fold s. fold last.
    apply slot_write_same; [exact Hlast|lia..].
  - intros j Hj Hne.
    rewrite (record_at_lookup _ _ store' j Hb') by (rewrite ?Hsz'; nia).
    rewrite (record_at_lookup c v store j Hb) by (fold s; nia).
    f_equal. rewrite Hsz'. fold s.
    apply slot_write_other; [exact Hlast|lia..].
Qed.

(** Deleting the last live record with the store's buffer bound writes that
    record onto itself: the data store is left byte for byte as it was. *)
Lemma delete_last_instance_when_bound_keeps_bytes (v : VertexBufferInst) (c : context)
    (store : list Byte.byte) :
  holds_records c v store ->
  array_buffer c = id_ v ->
  1 <= instance_count v ->
  0 < instance_size v < 2 ^ 32 ->
  instance_size v mod 4 = 0 ->
  exists v' c',
    delete_instance v (instance_count v - 1) c = Some ((instance_count v - 1, v'), c') /\
    instance_count v' = instance_count v - 1 /\
    buffers c' = buffers c.
Proof.
  intros Hh Hbound Hcount Hs Hmod. unfold instance_count in *.
  rewrite (delete_instance_when_bound v c store (count_ v - 1) Hh Hbound ltac:(lia) Hs Hmod).
  destruct Hh as (Hid & Hb & Hc0 & Hcmax & Hfit & Hlen).
  eexists _, _. split; [reflexivity|]. split; [reflexivity|].
  unfold slot, set_data_store, set_buffers. cbn [buffers binding].
  rewrite write_range_self by nia. rewrite Hbound. by apply insert_id.
Qed.

(** The three-record store of the examples: right after its last append its
    own buffer is bound, and deleting slot 0 moves the last record there. *)
Lemma delete_first_of_three_when_bound :
  run (v <- Examples.three_records ;;
       r <- delete_instance v 0 ;;
       slot0 <- read_record r.2 0 ;;
       ret (r.1, instance_count r.2, slot0))
  = Some (0, 2, Some (span.bytes Examples.r2)).
Proof. vm_compute. reflexivity. Qed.

(** C2 (code defect): [delete_instance] maps the range of the last record on
    whatever buffer is bound to [GL_ARRAY_BUFFER]; it does not bind the
    store's own buffer first, as [update_instance] and [resize_buffer] do.
    Here a store holds [r0; r1; r2], another vertex buffer is then created
    (which binds it), and [delete_instance 0] returns 0 with count 2 but
    leaves in slot 0 the bytes of the other buffer, not those of [r2]. *)
Theorem delete_instance_copies_from_bound_buffer :
  run (v <- Examples.three_records_then_other_buffer ;;
       last <- read_record v 2 ;;
       r <- delete_instance v 0 ;;
       slot0 <- read_record r.2 0 ;;
       ret (instance_count v, last, r.1, instance_count r.2, slot0))
  = Some (3, Some (span.bytes Examples.r2), 0, 2,
          Some [Byte.xa2; Byte.x00; Byte.x00; Byte.x00]).
Proof. vm_compute. reflexivity. Qed.

(** C10 (code defect, the same missing bind as C2): after
    [VertexBuffer::unbind()] nothing is bound to [GL_ARRAY_BUFFER], the
    mapping made by [delete_instance] fails and returns a null pointer, and
    the copy that follows reads through it: deleting the last live record of
    a store holding three records is undefined. *)
Theorem delete_last_instance_unbound_is_undefined :
  run (v <- Examples.three_records_then_unbind ;; ret (instance_count v)) = Some 3 /\
  run (v <- Examples.three_records_then_unbind ;; delete_instance v 2) = None.
Proof. split; vm_compute; reflexivity. Qed.

End InstanceStoreClaims.

Section GrowthClaims.
Import GL VertexBufferInst_impl.

Lemma calc_capacity_other (v : VertexBufferInst) (c : Z) :
  0 < c < 2 ^ 25 -> c <> instance_size v ->
  calc_capacity v c = Some (floor_mul_phi c).
Proof.
  intros Hc Hne. unfold calc_capacity.
  destruct (Z.eqb_spec c 0); [lia|].
  destruct (Z.eqb_spec c (instance_size v)); [done|].
  by apply mul_phi_exact.
Qed.

(** C1, as the code has it: [calc_capacity 0 = s], [calc_capacity s = 32 s],
    and for any other capacity [c] the result is the binary64 product of [c]
    and the double nearest the golden ratio, truncated; for [c < 2^25] that
    is exactly [floor (c * phi)].  Hence, for a layout of stride
    [0 < s < 2^32]: the first append to an empty store sets the capacity to
    [s], the second to [32 s], and an append that has to grow a store of
    capacity [c < 2^25] (other than 0 and [s]) sets it to [floor (c * phi)]. *)
Theorem calc_capacity_growth_policy (layout : VertexBufferLayout) (v : VertexBufferInst)
    (c : Z) (ctx ctx_v : context) (e1 e2 e3 : list float32) :
  let s := Layout.stride layout in
  0 < s < 2 ^ 32 ->
  layout_ v = layout ->
  capacity v = c -> 0 < c < 2 ^ 25 -> c <> s ->
  0 <= instance_count v < Machine.INT32_MAX ->
  c < (instance_count v + 1) * s ->
  calc_capacity v 0 = Some s /\
  calc_capacity v s = Some (32 * s) /\
  calc_capacity v c = Some (floor_mul_phi c) /\
  (IZR (floor_mul_phi c) <= IZR c * golden_ratio < IZR (floor_mul_phi c) + 1)%R /\
  (exists v0 c0 v1 c1 v2 c2,
     make [] layout ctx = Some (v0, c0) /\ capacity v0 = 0 /\
     add_instance v0 (span.of_list e1) c0 = Some (v1, c1) /\ capacity v1 = s /\
     add_instance v1 (span.of_list e2) c1 = Some (v2, c2) /\ capacity v2 = 32 * s) /\
  (exists v' c',
     add_instance v (span.of_list e3) ctx_v = Some (v', c') /\
     capacity v' = floor_mul_phi c).
Proof.
  intros s Hs Hlayout Hcap Hc Hne Hcount Hgrow.
  unfold capacity, instance_count in *. unfold Machine.INT32_MAX in Hcount.
  assert (Hsv : instance_size v = s) by (unfold instance_size; by rewrite Hlayout).
  assert (H32 : 2 ^ 32 < 2 ^ 59) by reflexivity.
  assert (H64 : 2 ^ 31 * 2 ^ 32 < 2 ^ 64) by reflexivity.
  assert (H31 : 0 < 2 ^ 31) by reflexivity.
  split; [by rewrite calc_capacity_zero, Hsv|].
  split; [rewrite <- Hsv; apply calc_capacity_one_record; lia|].
  split; [apply calc_capacity_other; [done|by rewrite Hsv]|].
  split; [apply floor_mul_phi_real; lia|].
  split.
  - destruct (VertexBuffer_make_spec [] layout DYNAMIC_DRAW ctx eq_refl) as (_ & _ & Hmk).
    set (v0 := {| base := {| id_ := fresh ({[0%N]} ∪ dom (buffers ctx)); layout_ := layout |};
                  capacity_ := 0; count_ := 0 |}).
    assert (Hs0 : instance_size v0 = s) by reflexivity.
    destruct (add_instance_grows v0 (Context (<[id_ v0 := span.bytes []]> (buffers ctx))
                (id_ v0) (copy_read_buffer ctx) (copy_write_buffer ctx)) e1 s)
      as [c1 Hadd1].
    { vm_compute. reflexivity. }
    { cbn [capacity_ count_ v0 layout_ base]. fold s.
      rewrite (to_size_t_small (0 + 1)) by lia. rewrite to_size_t_small by lia. lia. }
    { apply calc_capacity_zero. }
    set (v1 := with_count (with_capacity v0 s) (count_ v0 + 1)) in *.
    destruct (add_instance_grows v1 c1 e2 (32 * s)) as [c2 Hadd2].
    { vm_compute. reflexivity. }
    { cbn [capacity_ count_ v1 v0 layout_ base with_count with_capacity]. fold s.
      rewrite (to_size_t_small (0 + 1 + 1)) by lia. rewrite to_size_t_small by lia. lia. }
    { change (capacity_ v1) with s. change s with (instance_size v1) at 1 2.
      apply calc_capacity_one_record. change (instance_size v1) with s. lia. }
    eexists v0, _, v1, c1, _, c2.
    split; [unfold make, bind; rewrite Hmk; reflexivity|].
    split; [reflexivity|]. split; [exact Hadd1|]. split; [reflexivity|].
    split; [exact Hadd2|reflexivity].
  - destruct (add_instance_grows v ctx_v e3 (floor_mul_phi c)) as [c' Hadd].
    { unfold Machine.INT32_MAX. lia. }
    { rewrite Hlayout. fold s.
      rewrite (to_size_t_small (count_ v + 1)) by lia.
      rewrite to_size_t_small by nia. lia. }
    { rewrite Hcap. apply calc_capacity_other; [done|by rewrite Hsv]. }
    eexists _, c'. split; [exact Hadd|reflexivity].
Qed.

(** A full store of 32 one-float records: 128 bytes grow to 207. *)
Lemma calc_capacity_growth_policy_witness :
  0 < Layout.stride Examples.layout_f32 < 2 ^ 32 /\
  128 < (instance_count Examples.full_store + 1) * Layout.stride Examples.layout_f32 /\
  calc_capacity Examples.full_store 0 = Some 4 /\
  calc_capacity Examples.full_store 4 = Some 128 /\
  calc_capacity Examples.full_store 128 = Some 207 /\
  exists v' c',
    add_instance Examples.full_store (span.of_list Examples.r0) initial = Some (v', c') /\
    capacity v' = 207.
Proof.
  assert (H1 : 0 < Layout.stride Examples.layout_f32 < 2 ^ 32) by (vm_compute; split; reflexivity).
  assert (H2 : 128 < (instance_count Examples.full_store + 1) * Layout.stride Examples.layout_f32)
    by (vm_compute; reflexivity).
  destruct (calc_capacity_growth_policy Examples.layout_f32 Examples.full_store 128
              initial initial Examples.r0 Examples.r1 Examples.r2 H1 eq_refl eq_refl)
    as (E0 & E1 & E2 & _ & _ & Hadd).
  - vm_compute. split; reflexivity.
  - vm_compute. discriminate.
  - vm_compute. split; [discriminate|reflexivity].
  - exact H2.
  - split; [exact H1|]. split; [exact H2|]. split; [exact E0|].
    split; [exact E1|]. split; [exact E2|exact Hadd].
Defined.

(** C1 fails as stated: at capacity 102334155 (the Fibonacci number F40) the
    binary64 product rounds up to the integer 165580141, which is larger
    than [c * phi]; the floor of [c * phi] is 165580140. *)
Lemma calc_capacity_rounds_up_at_102334155 :
  exists r, calc_capacity Examples.small_store 102334155 = Some r /\
            (IZR 102334155 * golden_ratio < IZR r)%R.
Proof.
  exists 165580141. split; [vm_compute; reflexivity|].
  destruct (floor_mul_phi_real 102334155 ltac:(lia)) as [_ H].
  assert (E : floor_mul_phi 102334155 = 165580140) by (vm_compute; reflexivity).
  rewrite E in H. replace (IZR 165580141) with (IZR 165580140 + 1)%R; [exact H|].
  rewrite <- plus_IZR. reflexivity.
Qed.

(** C3 (code defect): the constructor records the capacity in floats
    ([instance_data.size()]) although the allocation and every later
    comparison are in bytes, and leaves the count at 0.  A store created
    from five floats with the 20-byte layout owns 20 bytes but reports
    capacity 5; one append then grows it to [calc_capacity 5 = 8] bytes, so
    that afterwards the count is 1 and the capacity 8 is below
    [count * instance_size = 20]. *)
Theorem add_after_create_with_data_breaks_capacity :
  run (v <- make Examples.five_floats Examples.layout_pos_uv ;;
       n <- allocation_size v ;;
       v' <- add_instance v (span.of_list Examples.five_floats) ;;
       n' <- allocation_size v' ;;
       ret (capacity v, instance_count v, n,
            capacity v', instance_count v', instance_size v', n'))
  = Some (5, 0, Some 20, 8, 1, 20, Some 8).
Proof. vm_compute. reflexivity. Qed.

(** The intended behaviour behind C3, which the code does have for a store
    created without data: any sequence of valid appends is defined, the
    count is the number of appends, the capacity covers the live records,
    and every record reads back from its slot. *)
Theorem appends_keep_capacity_invariant (layout : VertexBufferLayout)
    (records : list (list float32)) (c : context) :
  let s := Layout.stride layout in
  0 < s < 2 ^ 32 ->
  Forall (fun r => Z.of_nat (length (span.bytes r)) = s) records ->
  Z.of_nat (length records) <= Machine.INT32_MAX ->
  Z.of_nat (length records) * s < 2 ^ 48 ->
  exists v c',
    (v0 <- make [] layout ;; add_all v0 records) c = Some (v, c') /\
    instance_count v = Z.of_nat (length records) /\
    instance_count v * instance_size v <= capacity v /\
    (forall (i : nat) r, records !! i = Some r ->
       record_at c' v (Z.of_nat i) = Some (span.bytes r)).
Proof.
  intros s Hs Hvalid Hcnt Hbound.
  destruct (VertexBuffer_make_spec [] layout DYNAMIC_DRAW c eq_refl) as (Hid & _ & Hmk).
  set (v0 := {| base := {| id_ := fresh ({[0%N]} ∪ dom (buffers c)); layout_ := layout |};
                capacity_ := 0; count_ := 0 |}).
  set (c0 := {| buffers := <[id_ v0 := span.bytes []]> (buffers c);
                array_buffer := id_ v0;
                copy_read_buffer := copy_read_buffer c;
                copy_write_buffer := copy_write_buffer c |}).
  assert (Hw0 : well_sized c0 v0).
  { unfold well_sized. split; [exact Hid|]. split; [cbn; lia|].
    split; [exists []; split; [apply lookup_insert_eq|reflexivity]|].
    cbn [count_ capacity_ v0]. split; [lia|]. split; [by left|].
    left. change (instance_size v0) with s. lia. }
  destruct (add_all_spec records v0 c0 Hw0 Hs Hvalid) as (v & c' & Hall & Hw & Hc & _ & Hnew & _);
    [cbn; lia|cbn; change (instance_size v0) with s; lia|].
  exists v, c'. unfold bind, make, bind. rewrite Hmk. unfold ret.
  split; [exact Hall|]. split; [exact Hc|].
  split; [destruct Hw as (_ & _ & _ & H & _); exact H|].
  intros i r Hi. apply (Hnew i r Hi).
Qed.

(** C4 fails as stated: created without data for the 20-byte layout, the
    store allocates 0 bytes, not one stride. *)
Lemma create_without_data_allocates_nothing :
  exists n s,
    run (v <- make [] Examples.layout_pos_uv ;;
         a <- allocation_size v ;;
         ret (a, instance_size v)) = Some (Some n, s) /\
    n < s.
Proof. exists 0, 20. split; [vm_compute; reflexivity|lia]. Qed.

(** C4, as the code has it: creating a store allocates a fresh buffer object
    holding exactly the bytes of the initial data (four per float, none when
    no data is given: there is no minimum of one stride), keeps the layout,
    and leaves the buffer bound; created without data the store has
    capacity 0, which is the byte size of its allocation, and count 0. *)
Theorem create_allocates_initial_data (instance_data : list float32)
    (layout : VertexBufferLayout) (c : context) :
  Z.of_nat (length instance_data) * 4 < 2 ^ 63 ->
  (exists v c',
     make instance_data layout c = Some (v, c') /\
     id_ v <> 0%N /\
     buffers c !! id_ v = None /\
     buffers c' !! id_ v = Some (span.bytes instance_data) /\
     Z.of_nat (length (span.bytes instance_data)) = 4 * Z.of_nat (length instance_data) /\
     layout_ v = layout /\
     array_buffer c' = id_ v) /\
  (exists v c',
     make [] layout c = Some (v, c') /\
     buffers c' !! id_ v = Some [] /\
     capacity v = 0 /\
     instance_count v = 0).
Proof.
  intros Hlen. split.
  - destruct (VertexBuffer_make_spec instance_data layout DYNAMIC_DRAW c Hlen)
      as (Hid & Hnew & Hmk).
    eexists _, _. split; [unfold make, bind; rewrite Hmk; reflexivity|].
    cbn [id_ base buffers array_buffer layout_].
    split; [exact Hid|]. split; [exact Hnew|]. split; [apply lookup_insert_eq|].
    split; [rewrite length_span_bytes; lia|]. split; reflexivity.
  - destruct (VertexBuffer_make_spec [] layout DYNAMIC_DRAW c eq_refl) as (_ & _ & Hmk).
    eexists _, _. split; [unfold make, bind; rewrite Hmk; reflexivity|].
    cbn [id_ base buffers]. split; [apply lookup_insert_eq|]. split; reflexivity.
Qed.

(** Five floats: a 20-byte allocation. *)
Lemma create_allocates_initial_data_witness :
  Z.of_nat (length Examples.five_floats) * 4 < 2 ^ 63 /\
  exists v c',
    make Examples.five_floats Examples.layout_pos_uv initial = Some (v, c') /\
    buffers c' !! id_ v = Some (span.bytes Examples.five_floats) /\
    Z.of_nat (length (span.bytes Examples.five_floats)) = 20.
Proof.
  assert (H : Z.of_nat (length Examples.five_floats) * 4 < 2 ^ 63) by reflexivity.
  split; [exact H|].
  destruct (create_allocates_initial_data Examples.five_floats Examples.layout_pos_uv initial H)
    as [(v & c' & Hmk & _ & _ & Hb & Hl & _) _].
  exists v, c'. split; [exact Hmk|]. split; [exact Hb|exact Hl].
Defined.

End GrowthClaims.

Section LayoutClaims.

(** C7: for a layout built from an ordered field list (element counts not
    negative, total size below [2^32] so that the 32-bit offsets do not
    wrap), the stride is the sum over the fields of
    [size kind * element_count], the fields keep their order, and the byte
    offset of field [i] is the sum of the sizes of the fields before it, so
    that field [i + 1] starts exactly where field [i] ends. *)
Theorem layout_is_packed (attributes : list VertexAttribute) :
  Forall (fun a => 0 <= element_count a) attributes ->
  sum_field_bytes attributes < 2 ^ 32 ->
  let l := Layout.make attributes in
  Layout.stride l = sum_field_bytes attributes /\
  length (Layout.get_attributes l) = length attributes /\
  forall (i : nat) (a : VertexAttribute), attributes !! i = Some a ->
    exists a', Layout.at_index l (Z.of_nat i) = Some a' /\
      type a' = type a /\ name a' = name a /\ element_count a' = element_count a /\
      offset a' = packed_offset attributes i /\
      offset a' + field_bytes a' = packed_offset attributes (S i).
Proof.
  intros Hec Hsum l.
  destruct (assign_offsets_packed 0 attributes ltac:(lia) Hec ltac:(lia)) as [Ht Ho].
  split; [unfold l; rewrite make_stride, Ht; lia|].
  split.
  { unfold l, Layout.get_attributes. rewrite make_attributes.
    pose proof (assign_offsets_fields 0 attributes) as Hf.
    apply (f_equal length) in Hf. by rewrite !length_map in Hf. }
  intros i a Hi.
  destruct (make_lookup attributes i a Hi) as (a' & Hi' & Hty & Hnm & Hcnt).
  exists a'. split; [by apply at_index_in_range|].
  split; [exact Hty|]. split; [exact Hnm|]. split; [exact Hcnt|].
  rewrite make_attributes in Hi'. rewrite (Ho i a' Hi').
  split; [lia|]. unfold packed_offset, field_bytes. rewrite Hty, Hcnt.
  rewrite (take_S_r attributes i a Hi).
  fold (field_bytes a). clear -a.
  induction (take i attributes) as [|b rest IH]; simpl; lia.
Qed.

(** The layout [(vec3, "pos"); (vec2, "uv")]: stride 20, offsets 0 and 12. *)
Lemma layout_is_packed_witness :
  sum_field_bytes Examples.pos_uv_fields < 2 ^ 32 /\
  Layout.stride (Layout.make Examples.pos_uv_fields) = 5 * 4 /\
  (exists pos, Layout.at_index (Layout.make Examples.pos_uv_fields) 0 = Some pos /\
               name pos = "pos" /\ offset pos = 0) /\
  (exists uv, Layout.at_index (Layout.make Examples.pos_uv_fields) 1 = Some uv /\
              name uv = "uv" /\ offset uv = 12).
Proof.
  assert (Hec : Forall (fun a => 0 <= element_count a) Examples.pos_uv_fields)
    by (repeat constructor; vm_compute; discriminate).
  assert (Hsum : sum_field_bytes Examples.pos_uv_fields < 2 ^ 32) by reflexivity.
  destruct (layout_is_packed Examples.pos_uv_fields Hec Hsum) as (Hstride & _ & Hfield).
  split; [exact Hsum|]. split; [exact Hstride|]. split.
  - destruct (Hfield 0%nat _ eq_refl) as (a' & Hat & _ & Hnm & _ & Hoff & _).
    exists a'. split; [exact Hat|]. split; [exact Hnm|exact Hoff].
  - destruct (Hfield 1%nat _ eq_refl) as (a' & Hat & _ & Hnm & _ & Hoff & _).
    exists a'. split; [exact Hat|]. split; [exact Hnm|exact Hoff].
Defined.

(** Without the bound of C7 the offsets are not the cumulative sizes: the
    offset member is 32 bits wide.  In the layout of an array of [2^30]
    floats followed by a float and a [vec2], the second field is given
    offset 0 and the third offset 4, although [2^32] and [2^32 + 4] bytes
    precede them; the second field overlaps the first.  The stride, a
    [size_t], is still the sum. *)
Lemma layout_offsets_wrap_at_4GiB :
  offset <$> Layout.get_attributes (Layout.make Examples.wide_fields) = [0; 0; 4] /\
  packed_offset Examples.wide_fields 1 = 2 ^ 32 /\
  packed_offset Examples.wide_fields 2 = 2 ^ 32 + 4 /\
  Layout.stride (Layout.make Examples.wide_fields) = sum_field_bytes Examples.wide_fields /\
  Forall (fun a => 0 <= element_count a) Examples.wide_fields.
Proof.
  split; [reflexivity|]. split; [reflexivity|]. split; [reflexivity|].
  split; [reflexivity|]. repeat constructor; discriminate.
Qed.

(** The literal instance of C7: fields [(vec3, "pos"); (vec2, "uv")]. *)
Example layout_pos_uv_example :
  Layout.stride Examples.layout_pos_uv = 20 /\
  offset <$> Layout.at_index Examples.layout_pos_uv 0 = Some 0 /\
  offset <$> Layout.at_index Examples.layout_pos_uv 1 = Some 12.
Proof. repeat split; reflexivity. Qed.

(** C8 fails as stated: the class has no lookup by name.  No accessor of
    [VertexBufferLayout], chosen from a name alone, answers with the field
    of that name where there is one and with no field where there is none:
    the only accessor that returns a field is [operator[]], and position 0
    of a layout holds whatever field was listed first. *)
Lemma no_lookup_by_name :
  ~ exists by_name, LayoutInterface.is_lookup_by_name by_name.
Proof.
  intros [by_name H].
  pose proof (H (Layout.make [VertexAttribute_ctor.scalar shader_data_type.vec3 "pos"]) "pos")
    as Hpos.
  pose proof (H (Layout.make [VertexAttribute_ctor.scalar shader_data_type.vec2 "uv"]) "pos")
    as Huv.
  cbn in Hpos, Huv.
  destruct (by_name "pos") as [| | |index]; try discriminate Hpos.
  unfold LayoutInterface.ask, Layout.at_index in Hpos, Huv. cbn [m_attributes length] in *.
  destruct (Z.leb_spec 0 index); [|discriminate Hpos].
  destruct (Z.ltb_spec index (Z.of_nat 1)); [|discriminate Hpos].
  assert (index = 0) as -> by lia.
  cbn in Huv. eapply Huv. reflexivity.
Qed.

(** C8, as the code has it: a field is looked up by position only.  For
    every position inside the field list, [operator[]] returns the field
    listed there (its kind, name and element count as given); a position
    past the end is undefined, and no accessor reports a missing name. *)
Theorem layout_lookup_by_index (attributes : list VertexAttribute) (i : nat)
    (a : VertexAttribute) :
  attributes !! i = Some a ->
  (exists a',
     LayoutInterface.ask (Layout.make attributes) (LayoutInterface.q_index (Z.of_nat i))
       = LayoutInterface.a_attribute a' /\
     type a' = type a /\ name a' = name a /\ element_count a' = element_count a) /\
  LayoutInterface.ask (Layout.make attributes)
    (LayoutInterface.q_index (Z.of_nat (length attributes))) = LayoutInterface.a_undefined.
Proof.
  intros Hi. split.
  - destruct (make_lookup attributes i a Hi) as (a' & Hi' & Hty & Hnm & Hcnt).
    exists a'. split; [|done].
    unfold LayoutInterface.ask. by rewrite (at_index_in_range _ i a' Hi').
  - unfold LayoutInterface.ask, Layout.at_index. rewrite make_attributes.
    pose proof (assign_offsets_fields 0 attributes) as Hf.
    apply (f_equal length) in Hf. rewrite !length_map in Hf. rewrite Hf.
    rewrite Z.ltb_irrefl, andb_false_r. reflexivity.
Qed.

(** Position 1 of the same layout is the field "uv". *)
Lemma layout_lookup_by_index_witness :
  exists a',
    LayoutInterface.ask Examples.layout_pos_uv (LayoutInterface.q_index 1)
      = LayoutInterface.a_attribute a' /\
    name a' = "uv".
Proof.
  destruct (layout_lookup_by_index Examples.pos_uv_fields 1
              (VertexAttribute_ctor.scalar shader_data_type.vec2 "uv") eq_refl)
    as [(a' & Hask & _ & Hnm & _) _].
  exists a'. split; [exact Hask|exact Hnm].
Defined.

End LayoutClaims.

Section OwnershipClaims.
Import GL Objects.

(** C9: moving a store hands the buffer name to the destination and leaves
    0 in the source, so destroying the moved-from object issues no
    [glDeleteBuffers] and the context is unchanged.  This holds for move
    construction, and for move assignment between two distinct objects
    (which first releases the buffer the destination owned); the copy
    constructor and copy assignment of both classes are deleted. *)
Theorem move_transfers_handle (other : VertexBufferInst) (c : context)
    (objs : gmap address VertexBufferInst) (this src : address) (t o : VertexBufferInst) :
  this <> src ->
  objs !! this = Some t ->
  objs !! src = Some o ->
  (id_ (VertexBufferInst_impl.move_construct other).1 = id_ other /\
   id_ (VertexBufferInst_impl.move_construct other).2 = 0%N /\
   VertexBuffer_impl.destroy (VertexBufferInst_impl.move_construct other).2 c = Some (tt, c)) /\
  (exists objs' c' (dst left : VertexBufferInst),
     move_assign this src objs c = Some (objs', c') /\
     objs' !! this = Some dst /\ objs' !! src = Some left /\
     id_ dst = id_ o /\ id_ left = 0%N /\
     VertexBuffer_impl.destroy left c' = Some (tt, c') /\
     (id_ t <> 0%N -> buffers c' !! id_ t = None) /\
     (id_ o <> id_ t -> buffers c' !! id_ o = buffers c !! id_ o)) /\
  (VertexBuffer_declares copy_constructor = deleted /\
   VertexBuffer_declares copy_assignment = deleted /\
   VertexBufferInst_declares copy_constructor = deleted /\
   VertexBufferInst_declares copy_assignment = deleted).
Proof.
  intros Hne Hthis Hsrc. split; [|split].
  - repeat split; reflexivity.
  - unfold move_assign. rewrite Hthis, Hsrc.
    destruct (decide (this = src)); [done|].
    unfold bind, glDeleteBuffers.
    destruct (N.eqb_spec (id_ t) 0) as [Ht0|Ht0].
    + eexists _, _, _, _. split; [reflexivity|].
      split; [rewrite lookup_insert_ne by done; apply lookup_insert_eq|].
      split; [apply lookup_insert_eq|].
      split; [reflexivity|]. split; [reflexivity|]. split; [reflexivity|].
      split; [done|]. intros _. reflexivity.
    + eexists _, _, _, _. split; [reflexivity|].
      split; [rewrite lookup_insert_ne by done; apply lookup_insert_eq|].
      split; [apply lookup_insert_eq|].
      split; [reflexivity|]. split; [reflexivity|]. split; [reflexivity|].
      split.
      * intros _. cbn [buffers]. apply lookup_delete_eq.
      * intros Hd. cbn [buffers]. apply lookup_delete_ne. congruence.
  - repeat split; reflexivity.
Qed.

(** The two stores of the witness and their context are what creating two
    stores and appending one record to each leaves. *)
Lemma two_stores_reachable :
  Examples.two_stores initial =
    Some ((Examples.store_a, Examples.store_b), Examples.two_stores_context).
Proof. vm_compute. reflexivity. Qed.

(** Assigning the store that owns buffer 2 (at address 2) to the store that
    owns buffer 1 (at address 1): the destination owns buffer 2 afterwards,
    the source is left with id 0 and its destruction changes nothing,
    buffer 1 is released and buffer 2 survives with its contents. *)
Lemma move_transfers_handle_witness :
  (id_ (VertexBufferInst_impl.move_construct Examples.store_b).1 = 2%N /\
   id_ (VertexBufferInst_impl.move_construct Examples.store_b).2 = 0%N) /\
  exists objs' c' (dst left : VertexBufferInst),
    move_assign 1%positive 2%positive Examples.two_objects Examples.two_stores_context
      = Some (objs', c') /\
    objs' !! 1%positive = Some dst /\ objs' !! 2%positive = Some left /\
    id_ dst = 2%N /\ id_ left = 0%N /\
    VertexBuffer_impl.destroy left c' = Some (tt, c') /\
    buffers c' !! 1%N = None /\
    buffers c' !! 2%N = Some (span.bytes Examples.r1).
Proof.
  destruct (move_transfers_handle Examples.store_b Examples.two_stores_context
              Examples.two_objects 1%positive 2%positive
              Examples.store_a Examples.store_b)
    as ((Hc1 & Hc2 & _) &
        (objs' & c' & dst & left & Hrun & Hd & Hl & Hid & Hz & Hdes & Hrel & Hkeep) & _).
  - discriminate.
  - reflexivity.
  - reflexivity.
  - split; [split; [exact Hc1|exact Hc2]|].
    exists objs', c', dst, left.
    split; [exact Hrun|]. split; [exact Hd|]. split; [exact Hl|].
    split; [exact Hid|]. split; [exact Hz|]. split; [exact Hdes|].
    split; [apply Hrel; discriminate|].
    etrans; [apply Hkeep; discriminate|reflexivity].
Defined.

End OwnershipClaims.

(* ===================================================================== *)
(** * Part IV: further properties of the code                             *)
(* ===================================================================== *)

(** ** What the store's methods leave alone *)
Section FrameFacts.
Import GL VertexBufferInst_impl.

(** A command that at most replaces the data store of the buffer bound to
    [t]. *)
Lemma glBufferData_writes t size data u c c' :
  glBufferData t size data u c = Some (tt, c') ->
  c' = c \/ exists bs, binding t c <> 0%N /\ c' = set_data_store t bs c.
Proof.
  unfold glBufferData, data_store.
  destruct (N.eqb_spec (binding t c) 0); [intros [= <-]; by left|].
  destruct (buffers c !! binding t c); [|intros [= <-]; by left].
  destruct (size <? 0); [intros [= <-]; by left|].
  destruct data as [bs|].
  - destruct (_ <? _); [discriminate|]. intros [= <-]. right. eauto.
  - intros [= <-]. right. eauto.
Qed.

Lemma glBufferSubData_writes t offset size data c c' :
  glBufferSubData t offset size data c = Some (tt, c') ->
  c' = c \/ exists bs, binding t c <> 0%N /\ c' = set_data_store t bs c.
Proof.
  unfold glBufferSubData, data_store.
  destruct (N.eqb_spec (binding t c) 0); [intros [= <-]; by left|].
  destruct (buffers c !! binding t c); [|intros [= <-]; by left].
  destruct (_ || _); [intros [= <-]; by left|].
  destruct data as [bs|].
  - destruct (_ <? _); [discriminate|]. intros [= <-]. right. eauto.
  - destruct (size =? 0); [|discriminate]. intros [= <-]. by left.
Qed.

Lemma glCopyBufferSubData_writes rt wt roff woff size c c' :
  glCopyBufferSubData rt wt roff woff size c = Some (tt, c') ->
  c' = c \/ exists bs, binding wt c <> 0%N /\ c' = set_data_store wt bs c.
Proof.
  unfold glCopyBufferSubData, data_store.
  destruct (N.eqb_spec (binding rt c) 0); [intros [= <-]; by left|].
  destruct (buffers c !! binding rt c); [|intros [= <-]; by left].
  destruct (N.eqb_spec (binding wt c) 0); [intros [= <-]; by left|].
  destruct (buffers c !! binding wt c); [|intros [= <-]; by left].
  destruct (_ || _); [intros [= <-]; by left|].
  destruct (_ && _); [intros [= <-]; by left|].
  intros [= <-]. right. eauto.
Qed.


Lemma writes_frame t c c' :
  (c' = c \/ exists bs, binding t c <> 0%N /\ c' = set_data_store t bs c) ->
  array_buffer c' = array_buffer c /\
  copy_read_buffer c' = copy_read_buffer c /\
  copy_write_buffer c' = copy_write_buffer c /\
  forall id, id <> binding t c -> buffers c' !! id = buffers c !! id.
Proof.
  intros [->|(bs & _ & ->)]; [done|].
  repeat split. intros id Hid. cbn. by rewrite lookup_insert_ne.
Qed.

(** [resize_buffer] leaves the store's buffer bound to [GL_ARRAY_BUFFER]
    and changes the data store of no other buffer object; the scratch
    buffer it creates is deleted again. *)
Lemma resize_buffer_frame (v : VertexBufferInst) (old_capacity new_capacity : Z)
    (c c' : context) :
  resize_buffer v old_capacity new_capacity c = Some (tt, c') ->
  array_buffer c' = id_ v /\
  forall id, id <> id_ v -> buffers c' !! id = buffers c !! id.
Proof.
  unfold resize_buffer, bind, glBindBuffer, glGenBuffers.
  set (new := fresh ({[0%N]} ∪ dom (buffers c))).
  assert (Hnew0 : new <> 0%N).
  { intros H. apply (is_fresh ({[0%N]} ∪ dom (buffers c))). fold new. rewrite H.
    apply elem_of_union_l, elem_of_singleton. reflexivity. }
  assert (Hnew : buffers c !! new = None).
  { apply not_elem_of_dom. intros H. apply (is_fresh ({[0%N]} ∪ dom (buffers c))).
    by apply elem_of_union_r. }
  set (c2 := set_binding GL_COPY_WRITE_BUFFER new _).
  destruct (glBufferData _ _ _ _ c2) as [[[] c3]|] eqn:E3; [|discriminate].
  apply glBufferData_writes, writes_frame in E3 as (Ha3 & Hr3 & Hw3 & Hf3).
  set (c4 := set_binding GL_COPY_READ_BUFFER (id_ v) c3).
  destruct (glCopyBufferSubData _ _ _ _ _ c4) as [[[] c5]|] eqn:E5; [|discriminate].
  apply glCopyBufferSubData_writes, writes_frame in E5 as (Ha5 & Hr5 & Hw5 & Hf5).
  set (c6 := set_binding GL_COPY_WRITE_BUFFER (id_ v) c5).
  destruct (glBufferData _ _ _ _ c6) as [[[] c7]|] eqn:E7; [|discriminate].
  apply glBufferData_writes, writes_frame in E7 as (Ha7 & Hr7 & Hw7 & Hf7).
  set (c8 := set_binding GL_COPY_READ_BUFFER new c7).
  destruct (glCopyBufferSubData _ _ _ _ _ c8) as [[[] c9]|] eqn:E9; [|discriminate].
  apply glCopyBufferSubData_writes, writes_frame in E9 as (Ha9 & Hr9 & Hw9 & Hf9).
  unfold glDeleteBuffers. destruct (N.eqb_spec new 0); [done|].
  intros [= <-]. split; [reflexivity|]. intros id Hid. cbn.
  destruct (decide (id = new)) as [->|Hne].
  - by rewrite lookup_delete_eq, Hnew.
  - rewrite lookup_delete_ne by done.
    rewrite Hf9 by (cbn; rewrite Hw7; exact Hid).
    cbn. rewrite Hf7 by (cbn; exact Hid).
    cbn. rewrite Hf5 by (cbn; rewrite Hw3; cbn; exact Hne).
    cbn. rewrite Hf3 by (cbn; exact Hne).
    cbn. by rewrite lookup_insert_ne.
Qed.

Lemma update_instance_frame (v : VertexBufferInst) (index : Z) (data : span.t)
    (c c' : context) :
  update_instance v index data c = Some (tt, c') ->
  array_buffer c' = id_ v /\
  copy_read_buffer c' = copy_read_buffer c /\
  copy_write_buffer c' = copy_write_buffer c /\
  forall id, id <> id_ v -> buffers c' !! id = buffers c !! id.
Proof.
  unfold update_instance, bind, glBindBuffer.
  set (c1 := set_binding GL_ARRAY_BUFFER (id_ v) c).
  destruct (glBufferSubData _ _ _ _ c1) as [[[] c2]|] eqn:E; [|discriminate].
  apply glBufferSubData_writes, writes_frame in E as (Ha & Hr & Hw & Hf).
  intros [= <-]. rewrite Ha, Hr, Hw. repeat split. intros id Hid. by rewrite Hf.
Qed.

Lemma add_instance_frame (v v' : VertexBufferInst) (data : span.t) (c c' : context) :
  add_instance v data c = Some (v', c') ->
  array_buffer c' = id_ v /\
  forall id, id <> id_ v -> buffers c' !! id = buffers c !! id.
Proof.
  unfold add_instance.
  destruct (Z.leb_spec Machine.INT32_MAX (count_ v)); [discriminate|].
  destruct (_ <? _).
  - destruct (calc_capacity v (capacity_ v)) as [n|]; [|discriminate].
    unfold bind at 1. unfold bind at 1.
    destruct (resize_buffer v (capacity_ v) n c) as [[[] c1]|] eqn:E1; [|discriminate].
    unfold ret at 1. unfold bind at 1.
    destruct (update_instance _ _ _ c1) as [[[] c2]|] eqn:E2; [|discriminate].
    intros [= <- <-].
    apply resize_buffer_frame in E1 as (_ & Hf1).
    apply update_instance_frame in E2 as (Ha2 & _ & _ & Hf2).
    split; [exact Ha2|]. intros id Hid. rewrite Hf2 by exact Hid. by apply Hf1.
  - unfold bind at 1. unfold ret at 1. unfold bind at 1.
    destruct (update_instance _ _ _ c) as [[[] c2]|] eqn:E2; [|discriminate].
    intros [= <- <-].
    apply update_instance_frame in E2 as (Ha2 & _ & _ & Hf2). by split.
Qed.


End FrameFacts.

(** ** vertex_buffer_inst.hpp *)
Section InstanceStoreProperties.
Import GL VertexBufferInst_impl.

(** X1: [resize_buffer] on a store whose buffer holds its live records
    gives that buffer a data store of exactly [new_capacity] bytes in which
    every live record is what it was, leaves the buffer bound to
    [GL_ARRAY_BUFFER], and changes no other buffer object: the scratch
    buffer it creates is deleted again. *)
Theorem resize_buffer_preserves_records (v : VertexBufferInst) (c : context)
    (store : list Byte.byte) (old_capacity new_capacity : Z) :
  id_ v <> 0%N ->
  buffers c !! id_ v = Some store ->
  0 <= instance_count v <= Machine.INT32_MAX ->
  0 <= instance_size v < 2 ^ 32 ->
  instance_count v * instance_size v <= Z.of_nat (length store) ->
  instance_count v * instance_size v <= old_capacity < 2 ^ 63 ->
  instance_count v * instance_size v <= new_capacity < 2 ^ 63 ->
  exists c' store',
    resize_buffer v old_capacity new_capacity c = Some (tt, c') /\
    buffers c' !! id_ v = Some store' /\
    Z.of_nat (length store') = new_capacity /\
    (forall j, 0 <= j < instance_count v -> record_at c' v j = record_at c v j) /\
    array_buffer c' = id_ v /\
    (forall id, id <> id_ v -> buffers c' !! id = buffers c !! id).
Proof.
  unfold instance_count. intros Hid Hb Hcount Hs Hlive Hold Hnew.
  destruct (resize_buffer_spec v c store old_capacity new_capacity Hid Hb Hcount Hs Hlive Hold Hnew)
    as (c' & Hres & Hb' & Hbound & Hother).
  set (s := instance_size v) in *. change (Layout.stride (layout_ v)) with s in Hb'.
  set (live := count_ v * s) in *.
  assert (Hlive0 : 0 <= live) by (unfold live; nia).
  eexists c', _. split; [exact Hres|]. split; [exact Hb'|].
  split; [rewrite length_app, length_take, length_replicate; lia|].
  split; [|by split].
  intros j Hj.
  rewrite (record_at_lookup c' v _ j Hb');
    [|lia|rewrite length_app, length_take, length_replicate; fold s; unfold live in *; nia].
  rewrite (record_at_lookup c v store j Hb); [|lia|fold s; unfold live in *; nia].
  f_equal. fold s. apply slot_prefix; [lia|lia|unfold live; nia|lia].
Qed.

Lemma resize_buffer_preserves_records_witness :
  exists c' store',
    resize_buffer Examples.small_store 12 19 Examples.small_context = Some (tt, c') /\
    buffers c' !! 1%N = Some store' /\
    Z.of_nat (length store') = 19 /\
    (forall j, 0 <= j < 3 ->
       record_at c' Examples.small_store j = record_at Examples.small_context Examples.small_store j) /\
    array_buffer c' = 1%N /\
    (forall id, id <> 1%N -> buffers c' !! id = buffers Examples.small_context !! id).
Proof.
  apply (resize_buffer_preserves_records Examples.small_store Examples.small_context
           (span.bytes (Examples.r0 ++ Examples.r1 ++ Examples.r2)) 12 19);
    try (vm_compute; intuition congruence); reflexivity.
Defined.

(** One append to a well-allocated store. *)
Lemma add_instance_step_allocated (v : VertexBufferInst) (c : context)
    (elems : list float32) :
  let s := instance_size v in
  well_allocated c v ->
  0 < s < 2 ^ 32 ->
  count_ v < Machine.INT32_MAX ->
  (count_ v + 1) * s < 2 ^ 48 ->
  Z.of_nat (length (span.bytes elems)) = s ->
  exists v' c',
    add_instance v (span.of_list elems) c = Some (v', c') /\
    well_allocated c' v' /\
    count_ v' = count_ v + 1 /\
    base v' = base v /\
    capacity_ v <= capacity_ v' /\
    record_at c' v' (count_ v) = Some (span.bytes elems) /\
    (forall j, 0 <= j < count_ v -> record_at c' v' j = record_at c v j).
Proof.
  intros s (Hid & Hc0 & (store & Hb & Hlen) & Hinv & Hclass & Hcap) Hs Hcnt Hbound Hsz.
  fold s in Hinv, Hclass.
  assert (H48 : 2 ^ 48 < 2 ^ 63) by reflexivity.
  assert (H64 : 2 ^ 63 < 2 ^ 64) by reflexivity.
  assert (HI : Machine.INT32_MAX < 2 ^ 63) by reflexivity.
  assert (Hbs : length (span.bytes elems) = Z.to_nat s) by lia.
  unfold add_instance.
  destruct (Z.leb_spec Machine.INT32_MAX (count_ v)); [lia|].
  change (Layout.stride (layout_ v)) with s.
  rewrite (to_size_t_small (count_ v + 1)) by lia.
  rewrite (to_size_t_small ((count_ v + 1) * s)) by lia.
  destruct (Z.ltb_spec (capacity_ v) ((count_ v + 1) * s)) as [Hgrow|Hfit].
  - (* the buffer grows first *)
    destruct (calc_capacity_grows v Hs Hc0 Hinv Hclass Hgrow Hbound)
      as (new & -> & Hnew & Hclass' & Hmax').
    fold s in Hnew, Hclass', Hmax'.
    assert (Hnew63 : new < 2 ^ 63) by nia.
    destruct (resize_buffer_spec v c store (capacity_ v) new Hid Hb)
      as (c1 & Hres & Hb1 & Hbound1 & Hother1);
      [lia|change (Layout.stride (layout_ v)) with s; lia..|].
    change (Layout.stride (layout_ v)) with s in Hb1. set (live := count_ v * s) in *.
    set (store1 := take (Z.to_nat live) store ++
                   replicate (Z.to_nat new - Z.to_nat live) Byte.x00) in *.
    assert (Hlen1 : Z.of_nat (length store1) = new).
    { unfold store1. rewrite length_app, length_take, length_replicate. lia. }
    unfold bind at 1. unfold bind at 1. rewrite Hres. unfold ret at 1.
    unfold bind at 1. change (count_ (with_capacity v new)) with (count_ v).
    rewrite (update_instance_in_range (with_capacity v new) c1 store1 (count_ v) elems);
      [|exact Hid|exact Hb1|cbn; lia|rewrite Hsz; cbn; lia|lia].
    unfold ret. eexists _, _. split; [reflexivity|].
    rewrite Hsz. cbn [count_ with_capacity with_count].
    set (store2 := write_range store1 (Z.to_nat (count_ v * s)) (span.bytes elems)).
    assert (Hlen2 : length store2 = length store1)
      by (unfold store2; apply length_write_range; nia).
    set (v' := with_count (with_capacity v new) (count_ v + 1)).
    set (c2 := set_data_store GL_ARRAY_BUFFER store2 (set_binding GL_ARRAY_BUFFER (id_ v) c1)).
    assert (Hb2 : buffers c2 !! id_ v' = Some store2) by (cbn; apply lookup_insert_eq).
    assert (Hsz' : instance_size v' = s) by reflexivity.
    split; [|split; [reflexivity|split; [reflexivity|split; [cbn; lia|split]]]].
    + unfold well_allocated. rewrite Hsz'.
      cbn [v' id_ base count_ capacity_ with_count with_capacity].
      split; [exact Hid|]. split; [lia|]. split; [exists store2; split; [exact Hb2|lia]|].
      split; [lia|]. split; [lia|]. lia.
    + erewrite (record_at_lookup _ v' store2 (count_ v));
        [|exact Hb2|lia|rewrite Hsz'; lia].
      rewrite Hsz'. f_equal. apply slot_write_same; [exact Hbs|lia..].
    + intros j Hj.
      erewrite (record_at_lookup _ v' store2 j); [|exact Hb2|lia|rewrite Hsz'; nia].
      rewrite (record_at_lookup c v store j Hb) by (fold s; nia).
      rewrite Hsz'. fold s. f_equal. unfold store2.
      rewrite slot_write_other; [|exact Hbs|lia..].
      unfold store1. apply slot_prefix; [lia|lia|unfold live; nia|unfold live; nia].
  - (* the record fits *)
    unfold bind at 1. unfold ret at 1. unfold bind at 1.
    rewrite (update_instance_in_range v c store (count_ v) elems);
      [|exact Hid|exact Hb|lia|rewrite Hsz; lia|lia].
    unfold ret. eexists _, _. split; [reflexivity|]. rewrite Hsz.
    set (store2 := write_range store (Z.to_nat (count_ v * s)) (span.bytes elems)).
    assert (Hlen2 : length store2 = length store)
      by (unfold store2; apply length_write_range; nia).
    set (v' := with_count v (count_ v + 1)).
    set (c2 := set_data_store GL_ARRAY_BUFFER store2 (set_binding GL_ARRAY_BUFFER (id_ v) c)).
    assert (Hb2 : buffers c2 !! id_ v' = Some store2) by (cbn; apply lookup_insert_eq).
    assert (Hsz' : instance_size v' = s) by reflexivity.
    split; [|split; [reflexivity|split; [reflexivity|split; [cbn; lia|split]]]].
    + unfold well_allocated. rewrite Hsz'. cbn [v' id_ base count_ capacity_ with_count].
      split; [exact Hid|]. split; [lia|]. split; [exists store2; split; [exact Hb2|lia]|].
      split; [lia|]. split; [exact Hclass|]. exact Hcap.
    + erewrite (record_at_lookup _ v' store2 (count_ v));
        [|exact Hb2|lia|rewrite Hsz'; lia].
      rewrite Hsz'. f_equal. apply slot_write_same; [exact Hbs|lia..].
    + intros j Hj.
      erewrite (record_at_lookup _ v' store2 j); [|exact Hb2|lia|rewrite Hsz'; nia].
      rewrite (record_at_lookup c v store j Hb) by (fold s; nia).
      rewrite Hsz'. fold s. f_equal. apply slot_write_other; [exact Hbs|lia..].
Qed.

(** X2: a sequence of appends to a well-allocated store, that is, a store
    whose allocation is exactly [capacity] bytes, fewer than [2^63], and
    holds the [count] live records, with a capacity of 0, of one record or
    of at least 32 records.  For records of [instance_size] bytes each
    ([0 < instance_size < 2^32]), a final count within [INT32_MAX] and a
    final [count * instance_size] below [2^48]: every [add_instance] of
    the sequence is defined, the count goes up by the number of records,
    record [i] of the sequence is read back from slot [count + i], every
    earlier record is unchanged across all the growths, the capacity does
    not shrink, and the store is well-allocated again, so
    [count * instance_size <= capacity] still holds. *)
Theorem add_all_appends_in_order (records : list (list float32)) (v : VertexBufferInst)
    (c : context) :
  well_allocated c v ->
  0 < instance_size v < 2 ^ 32 ->
  Forall (fun r => Z.of_nat (length (span.bytes r)) = instance_size v) records ->
  instance_count v + Z.of_nat (length records) <= Machine.INT32_MAX ->
  (instance_count v + Z.of_nat (length records)) * instance_size v < 2 ^ 48 ->
  exists v' c',
    add_all v records c = Some (v', c') /\
    well_allocated c' v' /\
    instance_count v' = instance_count v + Z.of_nat (length records) /\
    instance_count v' * instance_size v' <= capacity v' /\
    capacity v <= capacity v' /\
    base v' = base v /\
    (forall (i : nat) r, records !! i = Some r ->
       record_at c' v' (instance_count v + Z.of_nat i) = Some (span.bytes r)) /\
    (forall j, 0 <= j < instance_count v -> record_at c' v' j = record_at c v j).
Proof.
  unfold instance_count, capacity.
  revert v c. induction records as [|r rest IH]; intros v c Hw Hs Hvalid Hcnt Hbound.
  - exists v, c. split; [reflexivity|]. split; [exact Hw|]. split; [simpl; lia|].
    split; [destruct Hw as (_ & _ & _ & Hinv & _); exact Hinv|].
    split; [lia|]. split; [reflexivity|]. split; [|done].
    intros i r Hi. by rewrite lookup_nil in Hi.
  - apply Forall_cons in Hvalid as [Hr Hrest]. cbn [length] in Hcnt, Hbound.
    assert (Hc0 : 0 <= count_ v) by (destruct Hw as (_ & H0 & _); exact H0).
    destruct (add_instance_step_allocated v c r Hw Hs)
      as (v1 & c1 & Hadd & Hw1 & Hc1 & Hb1 & Hcap1 & Hnew & Hold);
      [lia|nia|exact Hr|].
    assert (Hs1 : instance_size v1 = instance_size v)
      by (unfold instance_size; by rewrite Hb1).
    destruct (IH v1 c1) as (v2 & c2 & Hall & Hw2 & Hc2 & Hinv2 & Hcap2 & Hb2 & Hnew2 & Hold2);
      [exact Hw1|by rewrite Hs1|by rewrite Hs1|lia|rewrite Hs1; nia|].
    exists v2, c2. cbn [add_all length]. unfold bind. rewrite Hadd.
    split; [exact Hall|]. split; [exact Hw2|]. split; [lia|].
    split; [exact Hinv2|]. split; [lia|]. split; [congruence|]. split.
    + intros [|i] r' Hi; cbn in Hi.
      * injection Hi as <-. rewrite Z.add_0_r, Hold2 by lia. exact Hnew.
      * replace (count_ v + Z.of_nat (S i)) with (count_ v1 + Z.of_nat i) by lia.
        by apply Hnew2.
    + intros j Hj. rewrite Hold2 by lia. by apply Hold.
Qed.

Lemma empty_store_well_allocated :
  well_allocated Examples.empty_context Examples.empty_store.
Proof.
  unfold well_allocated. split; [done|]. split; [done|].
  split; [exists []; split; reflexivity|].
  split; [done|]. split; [by left|reflexivity].
Defined.

(** A store that has shrunk: two live records in an allocation of 207
    bytes. *)
Lemma shrunk_store_well_allocated :
  well_allocated Examples.shrunk_context Examples.shrunk_store.
Proof.
  unfold well_allocated. split; [done|]. split; [done|].
  split; [eexists; split; [reflexivity|reflexivity]|].
  split; [vm_compute; congruence|]. split; [right; right; vm_compute; congruence|reflexivity].
Defined.

Lemma add_all_appends_in_order_witness :
  (exists v' c',
     add_all Examples.empty_store [Examples.r0; Examples.r1; Examples.r2]
       Examples.empty_context = Some (v', c') /\
     instance_count v' = 3 /\
     instance_count v' * instance_size v' <= capacity v' /\
     record_at c' v' 0 = Some (span.bytes Examples.r0) /\
     record_at c' v' 2 = Some (span.bytes Examples.r2)) /\
  (exists v' c',
     add_all Examples.shrunk_store [Examples.r2] Examples.shrunk_context = Some (v', c') /\
     instance_count v' = 3 /\
     record_at c' v' 2 = Some (span.bytes Examples.r2)).
Proof.
  split.
  - destruct (add_all_appends_in_order [Examples.r0; Examples.r1; Examples.r2]
                Examples.empty_store Examples.empty_context empty_store_well_allocated)
      as (v' & c' & Hadd & _ & Hc & Hinv & _ & _ & Hnew & _);
      [vm_compute; intuition congruence|repeat constructor|vm_compute; congruence|reflexivity|].
    exists v', c'. split; [exact Hadd|]. split; [exact Hc|]. split; [exact Hinv|].
    split; [exact (Hnew 0%nat Examples.r0 eq_refl)|exact (Hnew 2%nat Examples.r2 eq_refl)].
  - destruct (add_all_appends_in_order [Examples.r2]
                Examples.shrunk_store Examples.shrunk_context shrunk_store_well_allocated)
      as (v' & c' & Hadd & _ & Hc & _ & _ & _ & Hnew & _);
      [vm_compute; intuition congruence|repeat constructor|vm_compute; congruence|reflexivity|].
    exists v', c'. split; [exact Hadd|]. split; [exact Hc|].
    exact (Hnew 0%nat Examples.r2 eq_refl).
Defined.

(** X3: a defined [add_instance], whatever the store and the context it
    ran in, leaves the store's own buffer bound to [GL_ARRAY_BUFFER] and
    does not change the data store of any other buffer object, nor leave
    the scratch buffer of a growth behind. *)
Theorem add_instance_touches_only_own_buffer (v v' : VertexBufferInst) (data : span.t)
    (c c' : context) :
  add_instance v data c = Some (v', c') ->
  array_buffer c' = id_ v /\
  (forall id, id <> id_ v -> buffers c' !! id = buffers c !! id).
Proof. apply add_instance_frame. Qed.

Lemma add_instance_touches_only_own_buffer_witness :
  array_buffer Examples.one_record_context = id_ Examples.empty_store /\
  (forall id, id <> id_ Examples.empty_store ->
     buffers Examples.one_record_context !! id = buffers Examples.empty_context !! id).
Proof.
  apply (add_instance_touches_only_own_buffer Examples.empty_store
           {| base := {| id_ := 1; layout_ := Examples.layout_f32 |};
              capacity_ := 4; count_ := 1 |}
           (span.of_list Examples.r0) Examples.empty_context Examples.one_record_context).
  vm_compute. reflexivity.
Defined.

(** X4: on a store that holds its live records (a live buffer object of
    fewer than [2^63] bytes whose first [count * instance_size] bytes are
    the records, [0 <= count <= INT32_MAX]), with a record size that is a
    positive multiple of 4 below [2^32] and with the store's own buffer
    bound to [GL_ARRAY_BUFFER], [delete_instance] of a live index is the
    swap-with-last removal: it returns the index, lowers the count by one,
    leaves the record that was last in the vacated slot and every other
    remaining record where it was; the handle, the layout, the capacity
    and the size of the allocation do not change.  (On a store whose
    allocation is shorter than its records, as the constructor from
    initial data leaves it, this does not hold.) *)
Theorem delete_instance_moves_last_record (v : VertexBufferInst) (c : context)
    (store : list Byte.byte) (index : Z) :
  holds_records c v store ->
  array_buffer c = id_ v ->
  0 <= index < instance_count v ->
  0 < instance_size v < 2 ^ 32 ->
  instance_size v mod 4 = 0 ->
  exists v' c' store',
    delete_instance v index c = Some ((index, v'), c') /\
    instance_count v' = instance_count v - 1 /\
    base v' = base v /\
    capacity v' = capacity v /\
    buffers c' !! id_ v = Some store' /\
    length store' = length store /\
    record_at c' v' index = record_at c v (instance_count v - 1) /\
    (forall j, 0 <= j < instance_count v - 1 -> j <> index ->
       record_at c' v' j = record_at c v j).
Proof.
  intros Hh Hbound Hi Hs Hmod.
  rewrite (delete_instance_when_bound v c store index Hh Hbound Hi Hs Hmod).
  destruct Hh as (Hid & Hb & Hc0 & Hcmax & Hfit & Hlen). unfold instance_count in *.
  set (s := instance_size v) in *.
  set (last := slot store s (count_ v - 1)).
  assert (Hlast : length last = Z.to_nat s) by (apply length_slot; nia).
  set (store' := write_range store (Z.to_nat (index * s)) last).
  assert (Hlen' : length store' = length store)
    by (unfold store'; apply length_write_range; nia).
  set (v' := with_count v (count_ v - 1)).
  assert (Hb' : buffers (set_data_store GL_ARRAY_BUFFER store' c) !! id_ v' = Some store').
  { simpl. rewrite Hbound. apply lookup_insert_eq. }
  assert (Hsz' : instance_size v' = s) by reflexivity.
  assert (Hslot : (index + 1) * s <= count_ v * s) by nia.
  exists v', (set_data_store GL_ARRAY_BUFFER store' c), store'.
  split; [reflexivity|]. split; [reflexivity|]. split; [reflexivity|].
  split; [reflexivity|]. split; [exact Hb'|]. split; [exact Hlen'|].
  split.
  - rewrite (record_at_lookup _ v' store' index Hb') by (rewrite ?Hsz'; nia).
    rewrite (record_at_lookup c v store (count_ v - 1) Hb) by (fold s; nia).
    f_equal. rewrite Hsz'. fold s. fold last.
    apply slot_write_same; [exact Hlast|lia..].
  - intros j Hj Hne.
    rewrite (record_at_lookup _ v' store' j Hb') by (rewrite ?Hsz'; nia).
    rewrite (record_at_lookup c v store j Hb) by (fold s; nia).
    f_equal. rewrite Hsz'. fold s.
    apply slot_write_other; [exact Hlast|lia..].
Qed.

Lemma delete_instance_moves_last_record_witness :
  exists v' c',
    delete_instance Examples.small_store 0 Examples.small_context = Some ((0, v'), c') /\
    instance_count v' = 2 /\
    record_at c' v' 0 = Some (span.bytes Examples.r2).
Proof.
  destruct (delete_instance_moves_last_record Examples.small_store Examples.small_context
              (span.bytes (Examples.r0 ++ Examples.r1 ++ Examples.r2)) 0
              small_store_holds_records)
    as (v' & c' & store' & Hdel & Hc & _ & _ & _ & _ & Hrec & _);
    [reflexivity|vm_compute; intuition congruence|vm_compute; intuition congruence|reflexivity|].
  exists v', c'. split; [exact Hdel|]. split; [exact Hc|exact Hrec].
Defined.



(** X6: on a well-allocated store (an allocation of exactly [capacity]
    bytes, fewer than [2^63], holding the [count] live records, with a
    capacity of 0, of one record or of at least 32 records) whose record
    size is a positive multiple of 4 below [2^32], with the count below
    [INT32_MAX] and [(count + 1) * instance_size] below [2^48]: appending a
    record of [instance_size] bytes and then deleting the record just
    appended (the last one) is defined and gives back the store's count and
    every record it held; the delete moves no bytes, and the capacity keeps
    whatever the append grew it to. *)
Theorem add_then_delete_last_round_trip (v : VertexBufferInst) (c : context)
    (elems : list float32) :
  well_allocated c v ->
  0 < instance_size v < 2 ^ 32 ->
  instance_size v mod 4 = 0 ->
  instance_count v < Machine.INT32_MAX ->
  (instance_count v + 1) * instance_size v < 2 ^ 48 ->
  Z.of_nat (length (span.bytes elems)) = instance_size v ->
  exists v1 c1 v2 c2,
    add_instance v (span.of_list elems) c = Some (v1, c1) /\
    delete_instance v1 (instance_count v) c1 = Some ((instance_count v, v2), c2) /\
    instance_count v2 = instance_count v /\
    base v2 = base v /\
    capacity v2 = capacity v1 /\
    buffers c2 = buffers c1 /\
    (forall j, 0 <= j < instance_count v -> record_at c2 v2 j = record_at c v j).
Proof.
  unfold instance_count, capacity. intros Hw Hs Hmod Hcnt Hbound Hsz.
  destruct (add_instance_step_allocated v c elems Hw Hs Hcnt Hbound Hsz)
    as (v1 & c1 & Hadd & Hw1 & Hc1 & Hb1 & _ & Hnew & Hold).
  destruct (add_instance_frame _ _ _ _ _ Hadd) as (Hbound1 & _).
  assert (Hs1 : instance_size v1 = instance_size v) by (unfold instance_size; by rewrite Hb1).
  set (s := instance_size v) in *.
  destruct Hw1 as (Hid1 & Hc01 & (store1 & Hst1 & Hlen1) & Hinv1 & Hclass1 & Hcap1).
  rewrite Hs1 in Hinv1, Hclass1.
  assert (H49 : 2 ^ 48 < 2 ^ 63) by reflexivity.
  assert (H32 : 2 ^ 32 = 4294967296) by reflexivity.
  assert (Hh1 : holds_records c1 v1 store1).
  { unfold holds_records. rewrite Hs1. fold s.
    split; [exact Hid1|]. split; [exact Hst1|]. split; [exact Hc01|].
    split; [lia|]. split; [lia|]. rewrite Hlen1. exact Hcap1. }
  assert (Hidx : count_ v = count_ v1 - 1) by lia.
  assert (Hc0 : 0 <= count_ v) by (destruct Hw as (_ & H0 & _); exact H0).
  pose proof (delete_instance_when_bound v1 c1 store1 (count_ v1 - 1) Hh1) as Hdel.
  rewrite Hs1 in Hdel. fold s in Hdel.
  specialize (Hdel ltac:(by rewrite Hbound1, Hb1) ltac:(lia) Hs Hmod).
  set (c2 := set_data_store GL_ARRAY_BUFFER
               (write_range store1 (Z.to_nat ((count_ v1 - 1) * s))
                  (slot store1 s (count_ v1 - 1))) c1) in *.
  assert (Hbuf : buffers c2 = buffers c1).
  { unfold c2, slot, set_data_store, set_buffers. cbn [buffers binding].
    rewrite write_range_self by nia.
    rewrite Hbound1, <- Hb1. by apply insert_id. }
  exists v1, c1, (with_count v1 (count_ v1 - 1)), c2.
  split; [exact Hadd|]. split; [rewrite Hidx; exact Hdel|].
  cbn [count_ with_count base capacity_].
  split; [lia|]. split; [exact Hb1|]. split; [reflexivity|]. split; [exact Hbuf|].
  intros j Hj. rewrite <- (Hold j Hj). unfold record_at. by rewrite Hbuf.
Qed.

Lemma add_then_delete_last_round_trip_witness :
  exists v1 c1 v2 c2,
    add_instance Examples.empty_store (span.of_list Examples.r0) Examples.empty_context
      = Some (v1, c1) /\
    delete_instance v1 0 c1 = Some ((0, v2), c2) /\
    instance_count v2 = 0.
Proof.
  destruct (add_then_delete_last_round_trip Examples.empty_store Examples.empty_context
              Examples.r0 empty_store_well_allocated)
    as (v1 & c1 & v2 & c2 & Hadd & Hdel & Hc & _);
    [vm_compute; intuition congruence|reflexivity|reflexivity|reflexivity|reflexivity|].
  exists v1, c1, v2, c2. split; [exact Hadd|]. split; [exact Hdel|exact Hc].
Defined.

(** X7: past the first two steps the growth policy multiplies the capacity
    by a factor between 1.5 and 1.625: for every capacity [0 < c < 2^50]
    other than the record size, [calc_capacity] is defined and returns a
    value between [3c/2] and [13c/8] (integer quotients). *)
Theorem calc_capacity_growth_bounds (v : VertexBufferInst) (c : Z) :
  0 < c < 2 ^ 50 ->
  c <> instance_size v ->
  exists n, calc_capacity v c = Some n /\ 3 * c / 2 <= n <= 13 * c / 8.
Proof.
  intros Hc Hne.
  destruct (mul_phi_bounds c Hc) as (a & Ha & Hlo & Hhi).
  exists a. split.
  { unfold calc_capacity.
    destruct (Z.eqb_spec c 0); [lia|].
    destruct (Z.eqb_spec c (instance_size v)); [done|]. exact Ha. }
  unfold Double.phi_mantissa in Hlo, Hhi.
  change (2 ^ 52) with 4503599627370496 in Hlo, Hhi.
  split.
  - eapply Z.le_trans; [|exact Hlo].
    apply Z.div_le_lower_bound; [lia|].
    pose proof (Z.mul_div_le (3 * c) 2 ltac:(lia)). lia.
  - apply Z.div_le_lower_bound; [lia|].
    pose proof (Z.mul_div_le (c * (7286977268806824 + 1)) 4503599627370496 ltac:(lia)). lia.
Qed.

Lemma calc_capacity_growth_bounds_witness :
  exists n, calc_capacity Examples.small_store 128 = Some n /\ 3 * 128 / 2 <= n <= 13 * 128 / 8.
Proof.
  apply (calc_capacity_growth_bounds Examples.small_store 128); [split; reflexivity|].
  vm_compute. congruence.
Defined.

(** X8: on a store that holds its live records (a live buffer object of
    fewer than [2^63] bytes whose first [count * instance_size] bytes are
    the records, [0 <= count <= INT32_MAX]) and whose record size is at
    least one float and below [2^32], [delete_instance] of a live index
    while no buffer is bound to [GL_ARRAY_BUFFER] is undefined: the method
    maps [GL_ARRAY_BUFFER] without binding its own buffer, the mapping
    fails, and the null pointer is passed with a non-zero size to
    [glBufferSubData], whose range check the write passes. *)
Theorem delete_instance_nothing_bound_is_undefined (v : VertexBufferInst) (c : context)
    (store : list Byte.byte) (index : Z) :
  holds_records c v store ->
  array_buffer c = 0%N ->
  0 <= index < instance_count v ->
  4 <= instance_size v < 2 ^ 32 ->
  delete_instance v index c = None.
Proof.
  unfold instance_count. intros (Hid & Hb & Hc0 & Hcmax & Hfit & Hlen) Hun Hi Hs.
  set (s := instance_size v) in *.
  assert (H32 : 2 ^ 32 = 4294967296) by reflexivity.
  assert (H63 : 2 ^ 63 = 9223372036854775808) by reflexivity.
  assert (H64 : 2 ^ 64 = 18446744073709551616) by reflexivity.
  assert (HI : Machine.INT32_MAX = 2147483647) by reflexivity.
  unfold delete_instance.
  destruct (Z.leb_spec (count_ v) index); [lia|].
  destruct (Z.ltb_spec index 0); [lia|]. cbn [orb].
  unfold bind at 1. unfold glMapBufferRange at 1, data_store. cbn [binding].
  rewrite Hun. cbn [N.eqb].
  unfold span.of_pointer, Layout.stride_elements.
  change (m_stride (layout_ v)) with s.
  pose proof (Z.div_le_lower_bound s 4 1 ltac:(lia) ltac:(lia)) as Hn1.
  pose proof (Z.mul_div_le s 4 ltac:(lia)) as Hn2.
  change shader_data_type.sizeof_float with 4.
  set (n := s / 4) in *.
  destruct (Z.eqb_spec n 0); [lia|].
  unfold bind at 1. unfold update_instance, bind, glBindBuffer, glBufferSubData, data_store.
  cbn [binding set_binding array_buffer buffers span.data span.size_bytes span.size].
  destruct (N.eqb_spec (id_ v) 0); [done|]. rewrite Hb.
  change (span.size_bytes (span.null n)) with (Machine.to_size_t (n * 4)).
  rewrite (to_size_t_small (n * 4)) by lia.
  rewrite (to_size_t_small index) by lia.
  rewrite !to_ptrdiff_t_small by nia.
  destruct (Z.ltb_spec (index * (n * 4)) 0); [nia|].
  destruct (Z.ltb_spec (n * 4) 0); [lia|].
  destruct (Z.ltb_spec (Z.of_nat (length store)) (index * (n * 4) + n * 4)); [nia|].
  cbn [orb]. destruct (Z.eqb_spec (n * 4) 0); [lia|]. reflexivity.
Qed.

Lemma delete_instance_nothing_bound_is_undefined_witness :
  delete_instance Examples.small_store 1
    {| buffers := {[ 1%N := span.bytes (Examples.r0 ++ Examples.r1 ++ Examples.r2) ]};
       array_buffer := 0; copy_read_buffer := 0; copy_write_buffer := 0 |} = None.
Proof.
  apply (delete_instance_nothing_bound_is_undefined Examples.small_store _
           (span.bytes (Examples.r0 ++ Examples.r1 ++ Examples.r2)) 1);
    [|reflexivity|vm_compute; intuition congruence|vm_compute; intuition congruence].
  unfold holds_records. split; [done|]. split; [reflexivity|].
  repeat split; vm_compute; congruence.
Defined.

(** X9: [update_instance] does not check the index (the assertion is
    compiled out of release builds): when the slot it designates does not
    lie inside the allocation, the write is rejected by the driver and no
    byte of any buffer changes; only the binding of [GL_ARRAY_BUFFER]
    does. *)
Theorem update_instance_past_allocation_changes_nothing (v : VertexBufferInst) (c : context)
    (store : list Byte.byte) (index : Z) (elems : list float32) :
  id_ v <> 0%N ->
  buffers c !! id_ v = Some store ->
  0 <= index <= Machine.INT32_MAX ->
  Z.of_nat (length (span.bytes elems)) < 2 ^ 32 ->
  Z.of_nat (length store) < (index + 1) * Z.of_nat (length (span.bytes elems)) ->
  update_instance v index (span.of_list elems) c =
    Some (tt, set_binding GL_ARRAY_BUFFER (id_ v) c).
Proof.
  intros Hid Hb Hi Hsz Hpast.
  assert (H32 : 2 ^ 32 = 4294967296) by reflexivity.
  assert (H63 : 2 ^ 63 = 9223372036854775808) by reflexivity.
  assert (H64 : 2 ^ 64 = 18446744073709551616) by reflexivity.
  assert (HI : Machine.INT32_MAX = 2147483647) by reflexivity.
  unfold update_instance, bind, glBindBuffer, glBufferSubData, data_store.
  cbn [binding set_binding array_buffer buffers span.data].
  destruct (N.eqb_spec (id_ v) 0); [done|]. rewrite Hb.
  rewrite size_bytes_of_list by (rewrite length_span_bytes in Hsz; lia).
  set (m := Z.of_nat (length (span.bytes elems))) in *.
  rewrite (to_size_t_small index) by lia.
  rewrite !to_ptrdiff_t_small by nia.
  destruct (Z.ltb_spec (index * m) 0); [nia|].
  destruct (Z.ltb_spec m 0); [lia|].
  destruct (Z.ltb_spec (Z.of_nat (length store)) (index * m + m)); [|nia].
  reflexivity.
Qed.

Lemma update_instance_past_allocation_changes_nothing_witness :
  update_instance Examples.small_store 3 (span.of_list Examples.r0) Examples.small_context =
    Some (tt, set_binding GL_ARRAY_BUFFER 1%N Examples.small_context).
Proof.
  apply (update_instance_past_allocation_changes_nothing Examples.small_store
           Examples.small_context (span.bytes (Examples.r0 ++ Examples.r1 ++ Examples.r2)) 3
           Examples.r0); vm_compute; intuition congruence.
Defined.

End InstanceStoreProperties.

(** ** vertex_buffer.hpp, vertex_buffer_layout.hpp *)
Section VertexBufferProperties.
Import GL.

(** X10: [set_data] on a live buffer object replaces its whole data store by
    the bytes of the given floats, whatever the store held and however
    large it was, leaves the buffer bound to [GL_ARRAY_BUFFER], and changes
    no other buffer object. *)
Theorem set_data_replaces_store (b : VertexBuffer) (vertices : list float32) (c : context)
    (old : list Byte.byte) :
  id_ b <> 0%N ->
  buffers c !! id_ b = Some old ->
  Z.of_nat (length vertices) * 4 < 2 ^ 63 ->
  exists c',
    VertexBuffer_impl.set_data b vertices c = Some (tt, c') /\
    buffers c' !! id_ b = Some (span.bytes vertices) /\
    array_buffer c' = id_ b /\
    (forall id, id <> id_ b -> buffers c' !! id = buffers c !! id).
Proof.
  intros Hid Hb Hsz.
  assert (H63 : 2 ^ 63 = 9223372036854775808) by reflexivity.
  assert (H64 : 2 ^ 64 = 18446744073709551616) by reflexivity.
  unfold VertexBuffer_impl.set_data, bind, glBindBuffer, glBufferData, data_store.
  cbn [binding set_binding array_buffer buffers span.data].
  destruct (N.eqb_spec (id_ b) 0); [done|]. rewrite Hb.
  rewrite size_bytes_of_list by lia.
  pose proof (length_span_bytes vertices) as Hlen.
  rewrite to_ptrdiff_t_small by lia.
  destruct (Z.ltb_spec (Z.of_nat (length (span.bytes vertices))) 0); [lia|].
  rewrite Z.ltb_irrefl, Nat2Z.id, firstn_all.
  eexists. split; [reflexivity|]. cbn.
  split; [apply lookup_insert_eq|]. split; [reflexivity|].
  intros id Hne. by apply lookup_insert_ne.
Qed.

Lemma set_data_replaces_store_witness :
  exists c',
    VertexBuffer_impl.set_data (base Examples.small_store) Examples.five_floats
      Examples.small_context = Some (tt, c') /\
    buffers c' !! id_ Examples.small_store = Some (span.bytes Examples.five_floats) /\
    array_buffer c' = id_ Examples.small_store /\
    (forall id, id <> id_ Examples.small_store ->
       buffers c' !! id = buffers Examples.small_context !! id).
Proof.
  apply (set_data_replaces_store (base Examples.small_store) Examples.five_floats
           Examples.small_context (span.bytes (Examples.r0 ++ Examples.r1 ++ Examples.r2)));
    [done|reflexivity|reflexivity].
Defined.

(** X11: constructing a vertex buffer and destroying it again gives back the
    buffer objects of the context exactly as they were (nothing leaks, and
    no existing buffer is touched); [GL_ARRAY_BUFFER] is left with nothing
    bound. *)
Theorem construct_then_destroy_restores_buffers (vertices : list float32)
    (layout : VertexBufferLayout) (hint : DriverDrawHint) (c : context) :
  Z.of_nat (length vertices) * 4 < 2 ^ 63 ->
  exists b c1 c2,
    VertexBuffer_impl.make vertices layout hint c = Some (b, c1) /\
    buffers c1 !! id_ b = Some (span.bytes vertices) /\
    VertexBuffer_impl.destroy b c1 = Some (tt, c2) /\
    buffers c2 = buffers c /\
    array_buffer c2 = 0%N.
Proof.
  intros Hsz.
  destruct (VertexBuffer_make_spec vertices layout hint c Hsz) as (Hid & Hfresh & Hmake).
  set (id := fresh ({[0%N]} ∪ dom (buffers c))) in *.
  eexists _, _, _. split; [exact Hmake|]. cbn [id_ buffers].
  split; [apply lookup_insert_eq|].
  unfold VertexBuffer_impl.destroy, glDeleteBuffers. cbn [id_].
  destruct (N.eqb_spec id 0); [done|].
  split; [reflexivity|]. cbn [buffers array_buffer].
  split; [by apply delete_insert_id|]. by rewrite N.eqb_refl.
Qed.

Lemma construct_then_destroy_restores_buffers_witness :
  exists b c1 c2,
    VertexBuffer_impl.make Examples.five_floats Examples.layout_pos_uv STATIC_DRAW
      Examples.small_context = Some (b, c1) /\
    buffers c1 !! id_ b = Some (span.bytes Examples.five_floats) /\
    VertexBuffer_impl.destroy b c1 = Some (tt, c2) /\
    buffers c2 = buffers Examples.small_context /\
    array_buffer c2 = 0%N.
Proof.
  apply (construct_then_destroy_restores_buffers Examples.five_floats Examples.layout_pos_uv
           STATIC_DRAW Examples.small_context).
  reflexivity.
Defined.

End VertexBufferProperties.

Section LayoutProperties.

Lemma assign_offsets_offsets_mod4 s0 attributes :
  s0 mod 4 = 0 ->
  Forall (fun a => offset a mod 4 = 0) (Layout.assign_offsets s0 attributes).2.
Proof.
  revert s0. induction attributes as [|a rest IH]; intros s0 Hs0; [constructor|].
  cbn [Layout.assign_offsets].
  set (s1 := Machine.to_size_t _).
  assert (Hs1 : s1 mod 4 = 0).
  { unfold s1. rewrite to_size_t_mod4, Z.add_mod, Hs0, to_size_t_mod4 by lia.
    pose proof (size_multiple_of_4 (type a)) as H4.
    rewrite Z.mul_mod, H4 by lia. reflexivity. }
  specialize (IH s1 Hs1). destruct (Layout.assign_offsets s1 rest) as [total rest'].
  cbn [snd] in *. constructor; [|exact IH]. cbn [offset].
  unfold Machine.to_uint32_t. rewrite Z.mod_mod_divide; [exact Hs0|].
  exists 1073741824. reflexivity.
Qed.

(** X12: for every attribute list, the stride of the constructed layout is a
    whole number of floats, [stride() = 4 * stride_elements()], and every
    offset is a multiple of 4: [stride_elements] loses nothing. *)
Theorem layout_stride_is_whole_floats (attributes : list VertexAttribute) :
  Layout.stride (Layout.make attributes) =
    shader_data_type.sizeof_float * Layout.stride_elements (Layout.make attributes) /\
  Forall (fun a => offset a mod shader_data_type.sizeof_float = 0)
    (Layout.get_attributes (Layout.make attributes)).
Proof.
  split.
  - pose proof (make_stride_multiple_of_4 attributes) as H.
    unfold Layout.stride_elements, Layout.stride in *.
    change shader_data_type.sizeof_float with 4.
    pose proof (Z.div_mod (m_stride (Layout.make attributes)) 4 ltac:(lia)). lia.
  - unfold Layout.get_attributes. rewrite make_attributes.
    by apply assign_offsets_offsets_mod4.
Qed.

Lemma assign_offsets_wrap s0 attributes :
  s0 mod 2 ^ 64 = s0 ->
  (Layout.assign_offsets s0 attributes).1 = (s0 + sum_field_bytes attributes) mod 2 ^ 64 /\
  forall (i : nat) a', (Layout.assign_offsets s0 attributes).2 !! i = Some a' ->
    offset a' = (s0 + packed_offset attributes i) mod 2 ^ 32.
Proof.
  revert s0. induction attributes as [|a rest IH]; intros s0 Hs0.
  - cbn. rewrite Z.add_0_r. split; [by rewrite Hs0|]. intros i a' Hi.
    by rewrite lookup_nil in Hi.
  - cbn [Layout.assign_offsets].
    set (s1 := Machine.to_size_t _).
    assert (Hs1 : s1 = (s0 + field_bytes a) mod 2 ^ 64).
    { unfold s1, Machine.to_size_t, field_bytes. by rewrite Zplus_mod_idemp_r. }
    destruct (IH s1) as (IH1 & IH2); [rewrite Hs1; by rewrite Z.mod_mod by lia|].
    destruct (Layout.assign_offsets s1 rest) as [total rest']. cbn [fst snd] in *.
    split.
    + rewrite IH1, Hs1, Zplus_mod_idemp_l. cbn [sum_field_bytes foldr]. f_equal.
      unfold sum_field_bytes. lia.
    + intros [|i] a' Hi; cbn in Hi.
      * injection Hi as <-. cbn [offset]. unfold packed_offset. cbn. by rewrite Z.add_0_r.
      * rewrite (IH2 i a' Hi), Hs1. unfold packed_offset. cbn [take sum_field_bytes foldr].
        rewrite (Z.add_mod ((s0 + field_bytes a) mod 2 ^ 64) _ (2 ^ 32)) by lia.
        rewrite Z.mod_mod_divide by (exists 4294967296; reflexivity).
        rewrite <- Z.add_mod by lia.
        f_equal. unfold sum_field_bytes. lia.
Qed.

(** X13: the constructor loop in machine arithmetic, with no bound on the
    fields: the stride is the sum of the field sizes modulo [2^64] (a
    [size_t]) and the offset of field [i] is the sum of the sizes of the
    fields before it modulo [2^32] (the offset member is 32 bits wide). *)
Theorem layout_offsets_wrap (attributes : list VertexAttribute) (i : nat)
    (a : VertexAttribute) :
  Layout.get_attributes (Layout.make attributes) !! i = Some a ->
  Layout.stride (Layout.make attributes) = sum_field_bytes attributes mod 2 ^ 64 /\
  offset a = packed_offset attributes i mod 2 ^ 32.
Proof.
  unfold Layout.get_attributes. rewrite make_attributes, make_stride. intros Hi.
  destruct (assign_offsets_wrap 0 attributes eq_refl) as (H1 & H2).
  split; [exact H1|]. exact (H2 i a Hi).
Qed.

Lemma layout_offsets_wrap_witness :
  Layout.stride (Layout.make Examples.pos_uv_fields) =
    sum_field_bytes Examples.pos_uv_fields mod 2 ^ 64 /\
  offset {| type := shader_data_type.vec2; name := "uv"; offset := 12; element_count := 1 |} =
    packed_offset Examples.pos_uv_fields 1 mod 2 ^ 32.
Proof.
  apply (layout_offsets_wrap Examples.pos_uv_fields 1
           {| type := shader_data_type.vec2; name := "uv"; offset := 12; element_count := 1 |}).
  reflexivity.
Defined.

Lemma assign_offsets_ignores_offsets s0 attributes attributes' :
  map (fun a => (type a, name a, element_count a)) attributes =
  map (fun a => (type a, name a, element_count a)) attributes' ->
  Layout.assign_offsets s0 attributes = Layout.assign_offsets s0 attributes'.
Proof.
  revert s0 attributes'. induction attributes as [|a rest IH]; intros s0 [|a' rest'] H;
    try discriminate; [reflexivity|].
  cbn in H. injection H as Ht Hn He Hrest.
  cbn [Layout.assign_offsets]. rewrite Ht, Hn, He.
  by rewrite (IH _ rest' Hrest).
Qed.

(** X14: the layout constructor overwrites whatever offsets the attributes
    it is given carry: two attribute lists that agree on type, name and
    element count give the same layout.  In particular a layout rebuilt
    from its own attributes is the same layout. *)
Theorem layout_make_ignores_given_offsets (attributes attributes' : list VertexAttribute) :
  map (fun a => (type a, name a, element_count a)) attributes =
  map (fun a => (type a, name a, element_count a)) attributes' ->
  Layout.make attributes = Layout.make attributes' /\
  Layout.make (Layout.get_attributes (Layout.make attributes)) = Layout.make attributes.
Proof.
  intros H. unfold Layout.make at 1 2.
  rewrite (assign_offsets_ignores_offsets 0 attributes attributes' H). split; [reflexivity|].
  unfold Layout.get_attributes. rewrite make_attributes. unfold Layout.make.
  by rewrite (assign_offsets_ignores_offsets 0 _ attributes (assign_offsets_fields 0 attributes)).
Qed.

Lemma layout_make_ignores_given_offsets_witness :
  Layout.make
    [{| type := shader_data_type.vec3; name := "pos"; offset := 7; element_count := 1 |};
     {| type := shader_data_type.vec2; name := "uv"; offset := 99; element_count := 1 |}] =
  Layout.make Examples.pos_uv_fields /\
  Layout.make (Layout.get_attributes (Layout.make
    [{| type := shader_data_type.vec3; name := "pos"; offset := 7; element_count := 1 |};
     {| type := shader_data_type.vec2; name := "uv"; offset := 99; element_count := 1 |}])) =
  Layout.make
    [{| type := shader_data_type.vec3; name := "pos"; offset := 7; element_count := 1 |};
     {| type := shader_data_type.vec2; name := "uv"; offset := 99; element_count := 1 |}].
Proof.
  apply (layout_make_ignores_given_offsets
    [{| type := shader_data_type.vec3; name := "pos"; offset := 7; element_count := 1 |};
     {| type := shader_data_type.vec2; name := "uv"; offset := 99; element_count := 1 |}]
    Examples.pos_uv_fields).
  reflexivity.
Defined.

End LayoutProperties.

(** ** vertex_array.hpp *)
Section VertexArrayFacts.
Import GL VertexArray_impl.

Lemma to_int32_t_small z : 0 <= z < 2 ^ 31 -> Machine.to_int32_t z = z.
Proof.
  intros H. unfold Machine.to_int32_t.
  assert (H32 : 2 ^ 31 < 2 ^ 32) by reflexivity.
  rewrite Z.mod_small by lia. destruct (Z.ltb_spec z (2 ^ 31)); lia.
Qed.

Lemma component_count_size t :
  shader_data_type.sizeof_float * shader_data_type.component_count t = shader_data_type.size t.
Proof. by destruct t. Qed.

Lemma sum_field_bytes_app l1 l2 :
  sum_field_bytes (l1 ++ l2) = sum_field_bytes l1 + sum_field_bytes l2.
Proof. induction l1 as [|a l1 IH]; cbn; [done|]. unfold sum_field_bytes in *. lia. Qed.

Lemma packed_offset_S attributes (i : nat) a :
  attributes !! i = Some a ->
  packed_offset attributes (S i) = packed_offset attributes i + field_bytes a.
Proof.
  intros Hi. unfold packed_offset. rewrite (take_S_r _ _ _ Hi), sum_field_bytes_app.
  cbn. lia.
Qed.

(** The calls of the attribute loop of [add_vertex_buffer], when
    [attrib_index_] does not wrap. *)
Lemma add_vertex_buffer_loop_spec layout attributes k :
  0 <= k -> k + Z.of_nat (length attributes) < 2 ^ 32 ->
  (add_vertex_buffer_loop layout k attributes).2 = k + Z.of_nat (length attributes) /\
  enabled_indices (add_vertex_buffer_loop layout k attributes).1 =
    seqZ k (Z.of_nat (length attributes)) /\
  divisor_calls (add_vertex_buffer_loop layout k attributes).1 = [] /\
  pointer_calls (add_vertex_buffer_loop layout k attributes).1 =
    imap (fun i a =>
            {| ap_index := k + Z.of_nat i;
               ap_size := Machine.to_int32_t (Machine.to_size_t
                            (shader_data_type.component_count (type a) * element_count a));
               ap_type := shader_data_type.to_opengl_underlying_type (type a);
               ap_normalized := false;
               ap_stride := Machine.to_int32_t (Layout.stride layout);
               ap_pointer := offset a |}) attributes.
Proof.
  revert k. induction attributes as [|a rest IH]; intros k Hk Hn.
  - cbn. rewrite Z.add_0_r. done.
  - cbn [add_vertex_buffer_loop length] in *.
    rewrite to_uint32_t_small by lia.
    destruct (IH (k + 1)) as (IH1 & IH2 & IH3 & IH4); [lia|lia|].
    destruct (add_vertex_buffer_loop layout (k + 1) rest) as [calls last].
    cbn [fst snd] in *. split; [lia|]. split; [|split].
    + change (k :: enabled_indices calls = seqZ k (Z.of_nat (S (length rest)))).
      rewrite IH2. rewrite (seqZ_cons k) by lia. f_equal. f_equal; lia.
    + exact IH3.
    + match goal with |- pointer_calls (_ :: ?p :: _) = _ =>
        change (pointer_calls [p] ++ pointer_calls calls = imap
          (fun i a =>
            {| ap_index := k + Z.of_nat i;
               ap_size := Machine.to_int32_t (Machine.to_size_t
                            (shader_data_type.component_count (type a) * element_count a));
               ap_type := shader_data_type.to_opengl_underlying_type (type a);
               ap_normalized := false;
               ap_stride := Machine.to_int32_t (Layout.stride layout);
               ap_pointer := offset a |}) (a :: rest)) end.
      rewrite IH4. cbn [imap]. cbn [pointer_calls omap list_omap app].
      f_equal; [by rewrite Z.add_0_r|].
      apply imap_ext. intros i x _. cbn. f_equal. lia.
Qed.

Lemma set_instance_buffer_loop_spec layout attributes k :
  0 <= k -> k + Z.of_nat (length attributes) < 2 ^ 32 ->
  (set_instance_buffer_loop layout k attributes).2 = k + Z.of_nat (length attributes) /\
  enabled_indices (set_instance_buffer_loop layout k attributes).1 =
    seqZ k (Z.of_nat (length attributes)) /\
  divisor_calls (set_instance_buffer_loop layout k attributes).1 =
    (fun i => (i, 1)) <$> seqZ k (Z.of_nat (length attributes)) /\
  pointer_calls (set_instance_buffer_loop layout k attributes).1 =
    imap (fun i a =>
            {| ap_index := k + Z.of_nat i;
               ap_size := Machine.to_int32_t (Machine.to_size_t
                            (shader_data_type.component_count (type a) * element_count a));
               ap_type := shader_data_type.to_opengl_underlying_type (type a);
               ap_normalized := false;
               ap_stride := Machine.to_int32_t (Layout.stride layout);
               ap_pointer := offset a |}) attributes.
Proof.
  revert k. induction attributes as [|a rest IH]; intros k Hk Hn.
  - cbn. rewrite Z.add_0_r. done.
  - cbn [set_instance_buffer_loop length] in *.
    rewrite (to_uint32_t_small (k + 1)) by lia.
    replace (k + 1 - 1) with k by lia. rewrite (to_uint32_t_small k) by lia.
    destruct (IH (k + 1)) as (IH1 & IH2 & IH3 & IH4); [lia|lia|].
    destruct (set_instance_buffer_loop layout (k + 1) rest) as [calls last].
    cbn [fst snd] in *. split; [lia|]. split; [|split].
    + change (k :: enabled_indices calls = seqZ k (Z.of_nat (S (length rest)))).
      rewrite IH2. rewrite (seqZ_cons k) by lia. f_equal. f_equal; lia.
    + change ((k, 1) :: divisor_calls calls =
              (fun i => (i, 1)) <$> seqZ k (Z.of_nat (S (length rest)))).
      rewrite IH3. rewrite (seqZ_cons k (Z.of_nat (S (length rest)))) by lia.
      rewrite fmap_cons. f_equal. f_equal. f_equal; lia.
    + match goal with |- pointer_calls (_ :: ?p :: _) = _ =>
        change (pointer_calls [p] ++ pointer_calls calls = imap
          (fun i a =>
            {| ap_index := k + Z.of_nat i;
               ap_size := Machine.to_int32_t (Machine.to_size_t
                            (shader_data_type.component_count (type a) * element_count a));
               ap_type := shader_data_type.to_opengl_underlying_type (type a);
               ap_normalized := false;
               ap_stride := Machine.to_int32_t (Layout.stride layout);
               ap_pointer := offset a |}) (a :: rest)) end.
      rewrite IH4. cbn [imap]. cbn [pointer_calls omap list_omap app].
      f_equal; [by rewrite Z.add_0_r|].
      apply imap_ext. intros i x _. cbn. f_equal. lia.
Qed.

(** The attributes of a constructed layout, field by field. *)
Lemma make_attribute_at fields (i : nat) a :
  Forall (fun a => 0 <= element_count a) fields ->
  sum_field_bytes fields < 2 ^ 32 ->
  fields !! i = Some a ->
  m_attributes (Layout.make fields) !! i =
    Some {| type := type a; name := name a; offset := packed_offset fields i;
            element_count := element_count a |}.
Proof.
  intros Hec Hsum Hi.
  destruct (make_lookup fields i a Hi) as (a' & Ha' & Ht & Hn & He).
  destruct (assign_offsets_packed 0 fields ltac:(lia) Hec ltac:(lia)) as (_ & Hoff).
  rewrite make_attributes in Ha'. specialize (Hoff i a' Ha').
  rewrite make_attributes, Ha'. f_equal. destruct a'. cbn in *. by subst.
Qed.

End VertexArrayFacts.

Section VertexArrayProperties.
Import GL VertexArray_impl.



(** X16: for a buffer whose layout was constructed from a field list (total
    size below [2^31] bytes), the attribute pointers [add_vertex_buffer]
    sets up tile the vertex: every pointer is given the layout's stride and
    type [GL_FLOAT], pointer [i] starts at the packed offset of field [i],
    and four bytes times its component count end exactly where field
    [i + 1] starts. *)
Theorem add_vertex_buffer_pointers_tile_vertex (va : VertexArray.t) (id : N)
    (fields : list VertexAttribute) (c : context) (i : nat) (a : VertexAttribute) :
  0 <= VertexArray.attrib_index_ va ->
  VertexArray.attrib_index_ va + Z.of_nat (length fields) < 2 ^ 32 ->
  Forall (fun a => 0 <= element_count a) fields ->
  sum_field_bytes fields < 2 ^ 31 ->
  fields !! i = Some a ->
  exists r c' p,
    add_vertex_buffer va {| id_ := id; layout_ := Layout.make fields |} c = Some (r, c') /\
    pointer_calls r.2 !! i = Some p /\
    ap_index p = VertexArray.attrib_index_ va + Z.of_nat i /\
    ap_type p = shader_data_type.GL_FLOAT /\
    ap_stride p = sum_field_bytes fields /\
    ap_pointer p = packed_offset fields i /\
    ap_pointer p + shader_data_type.sizeof_float * ap_size p = packed_offset fields (S i).
Proof.
  intros Hk Hn Hec Hsum Hi.
  assert (H31 : 2 ^ 31 < 2 ^ 32) by reflexivity.
  assert (H64 : 2 ^ 32 < 2 ^ 64) by reflexivity.
  pose proof (make_attribute_at fields i a Hec ltac:(lia) Hi) as Ha.
  destruct (assign_offsets_packed 0 fields ltac:(lia) Hec ltac:(lia)) as (Hstride & _).
  rewrite <- make_stride in Hstride.
  assert (Hlen : length (m_attributes (Layout.make fields)) = length fields).
  { rewrite make_attributes.
    pose proof (assign_offsets_fields 0 fields) as Hf.
    apply (f_equal length) in Hf. by rewrite !length_map in Hf. }
  unfold add_vertex_buffer. cbn [VertexBuffer_impl.move_construct].
  unfold bind, VertexBuffer_impl.bind, glBindBuffer. cbn [id_ layout_].
  destruct (add_vertex_buffer_loop_spec (Layout.make fields)
              (Layout.get_attributes (Layout.make fields)) (VertexArray.attrib_index_ va) Hk)
    as (_ & _ & _ & H4); [unfold Layout.get_attributes; rewrite Hlen; lia|].
  destruct (add_vertex_buffer_loop _ _ _) as [calls last]. cbn [fst snd] in *.
  unfold ret. eexists _, _, _. split; [reflexivity|]. cbn [snd].
  change (pointer_calls (glBindVertexArray (VertexArray.id_ va) :: calls))
    with (pointer_calls calls).
  rewrite H4, list_lookup_imap. unfold Layout.get_attributes. rewrite Ha. cbn.
  split; [reflexivity|]. split; [reflexivity|]. split; [by destruct (type a)|].
  assert (Hfb : 0 <= field_bytes a <= sum_field_bytes fields).
  { split; [apply field_bytes_nonneg; by eapply (Forall_lookup_1 _ _ _ _ Hec)|].
    pose proof (packed_offset_S fields i a Hi) as HS.
    assert (0 <= packed_offset fields i)
      by (apply sum_field_bytes_nonneg, Forall_take, Hec).
    assert (packed_offset fields (S i) <= sum_field_bytes fields).
    { unfold packed_offset.
      rewrite <- (take_drop (S i) fields) at 2. rewrite sum_field_bytes_app.
      assert (0 <= sum_field_bytes (drop (S i) fields))
        by (apply sum_field_bytes_nonneg, Forall_drop, Hec).
      lia. }
    lia. }
  assert (Hcc : shader_data_type.sizeof_float *
                (shader_data_type.component_count (type a) * element_count a) = field_bytes a).
  { unfold field_bytes. rewrite <- component_count_size. lia. }
  change shader_data_type.sizeof_float with 4 in *.
  rewrite to_size_t_small by lia.
  rewrite !to_int32_t_small by (rewrite ?Hstride; lia).
  cbn [ap_stride ap_pointer ap_size].
  split; [rewrite Hstride; lia|]. split; [reflexivity|].
  rewrite (packed_offset_S fields i a Hi). lia.
Qed.

Lemma add_vertex_buffer_pointers_tile_vertex_witness :
  exists r c' p,
    add_vertex_buffer Examples.empty_array Examples.pos_uv_buffer Examples.small_context
      = Some (r, c') /\
    pointer_calls r.2 !! 1%nat = Some p /\
    ap_stride p = 20 /\ ap_pointer p = 12 /\ ap_size p = 2.
Proof.
  destruct (add_vertex_buffer_pointers_tile_vertex Examples.empty_array 1
              Examples.pos_uv_fields Examples.small_context 1
              (VertexAttribute_ctor.scalar shader_data_type.vec2 "uv"))
    as (r & c' & p & Hrun & Hp & _ & _ & Hs & Hptr & Hend);
    [done|reflexivity|repeat constructor; done|reflexivity|reflexivity|].
  exists r, c', p. split; [exact Hrun|]. split; [exact Hp|]. split; [exact Hs|].
  split; [exact Hptr|]. rewrite Hptr in Hend.
  change (12 + 4 * ap_size p = 20) in Hend. lia.
Defined.

(** X17: for an attribute of the layout whose component count times
    element count is below [2^31] (the cast to [int32_t] does not wrap),
    in an array whose attribute indices stay below [2^32], the size
    argument [add_vertex_buffer] passes to [glVertexAttribPointer] is the
    component count of the type times the element count of the attribute.
    For a [mat3] or [mat4] attribute with at least one element that is at
    least 12, whereas the command accepts the sizes 1 to 4 only. *)
Theorem add_vertex_buffer_passes_component_total (va : VertexArray.t) (vbo : VertexBuffer)
    (c : context) (i : nat) (a : VertexAttribute) :
  0 <= VertexArray.attrib_index_ va ->
  VertexArray.attrib_index_ va +
    Z.of_nat (length (Layout.get_attributes (layout_ vbo))) < 2 ^ 32 ->
  Layout.get_attributes (layout_ vbo) !! i = Some a ->
  0 <= element_count a ->
  shader_data_type.component_count (type a) * element_count a < 2 ^ 31 ->
  exists r c' p,
    add_vertex_buffer va vbo c = Some (r, c') /\
    pointer_calls r.2 !! i = Some p /\
    ap_size p = shader_data_type.component_count (type a) * element_count a /\
    (type a = shader_data_type.mat3 \/ type a = shader_data_type.mat4 ->
     1 <= element_count a -> 12 <= ap_size p).
Proof.
  intros Hk Hn Hi Hec Hsmall.
  assert (H64 : 2 ^ 31 < 2 ^ 64) by reflexivity.
  unfold add_vertex_buffer. cbn [VertexBuffer_impl.move_construct].
  unfold bind, VertexBuffer_impl.bind, glBindBuffer. cbn [id_ layout_].
  destruct (add_vertex_buffer_loop_spec (layout_ vbo) (Layout.get_attributes (layout_ vbo))
              (VertexArray.attrib_index_ va) Hk Hn) as (_ & _ & _ & H4).
  destruct (add_vertex_buffer_loop _ _ _) as [calls last]. cbn [fst snd] in *.
  unfold ret. eexists _, _, _. split; [reflexivity|]. cbn [snd].
  change (pointer_calls (glBindVertexArray (VertexArray.id_ va) :: calls))
    with (pointer_calls calls).
  rewrite H4, list_lookup_imap, Hi. cbn.
  split; [reflexivity|].
  assert (Hcc : 0 <= shader_data_type.component_count (type a) * element_count a)
    by (destruct (type a); cbn; lia).
  rewrite to_size_t_small by lia. rewrite to_int32_t_small by lia.
  split; [reflexivity|]. intros [Ht|Ht] H1; rewrite Ht; cbn; lia.
Qed.

Lemma add_vertex_buffer_passes_component_total_witness :
  exists r c' p,
    add_vertex_buffer Examples.empty_array Examples.mat4_buffer Examples.small_context
      = Some (r, c') /\
    pointer_calls r.2 !! 0%nat = Some p /\
    ap_size p = 16.
Proof.
  destruct (add_vertex_buffer_passes_component_total Examples.empty_array Examples.mat4_buffer
              Examples.small_context 0
              {| type := shader_data_type.mat4; name := "model"; offset := 0;
                 element_count := 1 |})
    as (r & c' & p & Hrun & Hp & Hs & _);
    [done|reflexivity|reflexivity|done|reflexivity|].
  exists r, c', p. split; [exact Hrun|]. split; [exact Hp|exact Hs].
Defined.

(** X18: [set_instance_buffer], for an argument that designates a store
    (another object, or the store the array already holds) whose
    attributes fit below index [2^32]: the array holds that store
    afterwards, its attributes are numbered consecutively from
    [attrib_index_] on and exactly those indices are given the divisor 1;
    [attrib_index_] advances by the number of attributes, so indices given
    out earlier are not reused, [vertex_buffers_] is untouched and the
    store is left bound to [GL_ARRAY_BUFFER].  When the argument is another
    object it is left with id 0 and a store held before is released (its
    buffer object is deleted); when it is the store already held, nothing
    is deleted and no data store changes. *)
Theorem set_instance_buffer_sets_divisors (va : VertexArray.t) (vbo : store_reference)
    (store : VertexBufferInst) (c : context) :
  let n := Z.of_nat (length (Layout.get_attributes (layout_ store))) in
  designated (VertexArray.instanced_vbo_ va) vbo = Some store ->
  0 <= VertexArray.attrib_index_ va ->
  VertexArray.attrib_index_ va + n < 2 ^ 32 ->
  exists va' left calls c',
    set_instance_buffer va vbo c = Some ((va', left, calls), c') /\
    VertexArray.instanced_vbo_ va' = Some store /\
    VertexArray.vertex_buffers_ va' = VertexArray.vertex_buffers_ va /\
    VertexArray.attrib_index_ va' = VertexArray.attrib_index_ va + n /\
    enabled_indices calls = seqZ (VertexArray.attrib_index_ va) n /\
    divisor_calls calls = (fun i => (i, 1)) <$> seqZ (VertexArray.attrib_index_ va) n /\
    array_buffer c' = id_ store /\
    match vbo with
    | store_held => left = None /\ buffers c' = buffers c
    | other_store _ =>
        (exists l : VertexBufferInst, left = Some l /\ id_ l = 0%N) /\
        buffers c' =
          match VertexArray.instanced_vbo_ va with
          | Some old => if (id_ old =? 0)%N then buffers c else delete (id_ old) (buffers c)
          | None => buffers c
          end
    end.
Proof.
  intros n Hd Hk Hn. unfold set_instance_buffer, assign_instanced_vbo.
  destruct (set_instance_buffer_loop_spec (layout_ store) (Layout.get_attributes (layout_ store))
              (VertexArray.attrib_index_ va) Hk Hn) as (H1 & H2 & H3 & _).
  destruct vbo as [|vbo]; cbn [designated] in Hd.
  - (* the store already held *)
    rewrite Hd. unfold bind, ret, VertexBuffer_impl.bind, glBindBuffer.
    destruct (set_instance_buffer_loop _ _ _) as [calls last]. cbn [fst snd] in *.
    eexists _, _, _, _. split; [reflexivity|].
    cbn [VertexArray.instanced_vbo_ VertexArray.vertex_buffers_ VertexArray.attrib_index_].
    by repeat split.
  - injection Hd as ->.
    destruct (VertexArray.instanced_vbo_ va) as [old|].
    + unfold bind, glDeleteBuffers, ret, VertexBuffer_impl.bind, glBindBuffer.
      destruct (N.eqb_spec (id_ old) 0).
      * cbn [id_ layout_ base].
        destruct (set_instance_buffer_loop _ _ _) as [calls last]. cbn [fst snd] in *.
        eexists _, _, _, _. split; [reflexivity|].
        cbn [VertexArray.instanced_vbo_ VertexArray.vertex_buffers_
             VertexArray.attrib_index_ id_ base].
        split; [by destruct store as [[] ? ?]|].
        split; [reflexivity|]. split; [exact H1|]. split; [exact H2|]. split; [exact H3|].
        split; [reflexivity|]. split; [by eexists|reflexivity].
      * cbn [id_ layout_ base].
        destruct (set_instance_buffer_loop _ _ _) as [calls last]. cbn [fst snd] in *.
        eexists _, _, _, _. split; [reflexivity|].
        cbn [VertexArray.instanced_vbo_ VertexArray.vertex_buffers_
             VertexArray.attrib_index_ id_ base].
        split; [by destruct store as [[] ? ?]|].
        split; [reflexivity|]. split; [exact H1|]. split; [exact H2|]. split; [exact H3|].
        split; [reflexivity|]. split; [by eexists|reflexivity].
    + unfold bind, ret, VertexBuffer_impl.bind, glBindBuffer.
      cbn [VertexBufferInst_impl.move_construct VertexBuffer_impl.move_construct
           id_ layout_ base fst snd].
      destruct (set_instance_buffer_loop _ _ _) as [calls last]. cbn [fst snd] in *.
      eexists _, _, _, _. split; [reflexivity|].
      cbn [VertexArray.instanced_vbo_ VertexArray.vertex_buffers_
           VertexArray.attrib_index_ id_ base].
      split; [by destruct store as [[] ? ?]|].
      split; [reflexivity|]. split; [exact H1|]. split; [exact H2|]. split; [exact H3|].
      split; [reflexivity|]. split; [by eexists|reflexivity].
Qed.

(** An array with no store takes [small_store] over; an array that holds
    [small_store] is handed its own store. *)
Lemma set_instance_buffer_sets_divisors_witness :
  (exists va' left calls c',
     set_instance_buffer Examples.empty_array (other_store Examples.small_store)
       Examples.small_context = Some ((va', left, calls), c') /\
     VertexArray.attrib_index_ va' = 1 /\
     divisor_calls calls = [(0, 1)] /\
     exists l : VertexBufferInst, left = Some l /\ id_ l = 0%N) /\
  (exists va' left calls c',
     set_instance_buffer Examples.array_with_store store_held
       Examples.small_context = Some ((va', left, calls), c') /\
     VertexArray.instanced_vbo_ va' = Some Examples.small_store /\
     VertexArray.attrib_index_ va' = 2 /\
     divisor_calls calls = [(1, 1)] /\
     buffers c' = buffers Examples.small_context).
Proof.
  split.
  - destruct (set_instance_buffer_sets_divisors Examples.empty_array
                (other_store Examples.small_store) Examples.small_store Examples.small_context)
      as (va' & left & calls & c' & Hrun & _ & _ & Hidx & _ & Hdiv & _ & Hleft & _);
      [reflexivity|done|reflexivity|].
    exists va', left, calls, c'. split; [exact Hrun|]. split; [exact Hidx|].
    split; [exact Hdiv|exact Hleft].
  - destruct (set_instance_buffer_sets_divisors Examples.array_with_store
                store_held Examples.small_store Examples.small_context)
      as (va' & left & calls & c' & Hrun & Hheld & _ & Hidx & _ & Hdiv & _ & _ & Hbuf);
      [reflexivity|done|reflexivity|].
    exists va', left, calls, c'. split; [exact Hrun|]. split; [exact Hheld|].
    split; [exact Hidx|]. split; [exact Hdiv|exact Hbuf].
Defined.

End VertexArrayProperties.

(** ** uniform_buffer.hpp *)
Section UniformBufferFacts.
Import UniformGL UniformBuffer_impl.
#[local] Open Scope uniform_scope.

(** The cache maps a name to the position of the first attribute that
    carries it. *)
Lemma fill_attr_cache_lookup attributes (attr_cache : gmap string nat) (position : nat)
    (n : string) :
  fill_attr_cache attr_cache position attributes !! n =
    match attr_cache !! n with
    | Some i => Some i
    | None => (fun r => (position + r.1)%nat) <$> first_named attributes n
    end.
Proof.
  revert attr_cache position. induction attributes as [|a rest IH]; intros attr_cache position.
  - cbn. by destruct (attr_cache !! n).
  - cbn [fill_attr_cache]. rewrite IH. unfold first_named. cbn [list_find].
    destruct (decide (name a = n)) as [<-|Hne].
    + destruct (attr_cache !! name a) as [i|] eqn:E.
      * cbv beta iota. by rewrite E.
      * cbv beta iota. rewrite lookup_insert_eq. cbn. f_equal. lia.
    + assert (Hsame : match attr_cache !! name a with
                      | Some _ => attr_cache
                      | None => <[name a := position]> attr_cache
                      end !! n = attr_cache !! n).
      { destruct (attr_cache !! name a); [done|]. by apply lookup_insert_ne. }
      rewrite Hsame. destruct (attr_cache !! n); [done|].
      destruct (list_find _ rest) as [[j b]|]; cbn; [f_equal; lia|done].
Qed.

(** The constructor from contents: a fresh buffer object holding exactly
    the bytes of the contents; the general binding point is left at 0. *)
Lemma UniformBuffer_make_spec (contents : list float32) (layout : VertexBufferLayout)
    (binding_point : Z) (x : context) :
  Z.of_nat (length contents) * 4 < 2 ^ 63 ->
  let id := fresh ({[0%N]} ∪ dom (GL.buffers (gl x))) in
  id <> 0%N /\ GL.buffers (gl x) !! id = None /\
  exists x1,
    make contents layout binding_point x =
      Some ({| UniformBuffer.id_ := id;
               UniformBuffer.binding_point_ := binding_point;
               UniformBuffer.attr_cache_ := fill_attr_cache ∅ 0 (Layout.get_attributes layout);
               UniformBuffer.layout_ := layout |}, x1) /\
    GL.buffers (gl x1) = <[id := span.bytes contents]> (GL.buffers (gl x)) /\
    uniform_buffer x1 = 0%N /\
    max_uniform_buffer_bindings x1 = max_uniform_buffer_bindings x /\
    uniform_buffer_bindings x1 =
      (if (Machine.to_uint32_t binding_point <? 0)
          || (max_uniform_buffer_bindings x <=? Machine.to_uint32_t binding_point)
       then uniform_buffer_bindings x
       else <[Machine.to_uint32_t binding_point := id]> (uniform_buffer_bindings x)).
Proof.
  intros Hsz id.
  assert (Hid : id <> 0%N).
  { intros H. apply (is_fresh ({[0%N]} ∪ dom (GL.buffers (gl x)))). fold id. rewrite H.
    apply elem_of_union_l, elem_of_singleton. reflexivity. }
  assert (Hfresh : GL.buffers (gl x) !! id = None).
  { apply not_elem_of_dom. intros H. apply (is_fresh ({[0%N]} ∪ dom (GL.buffers (gl x)))).
    by apply elem_of_union_r. }
  split; [exact Hid|]. split; [exact Hfresh|].
  assert (H63 : 2 ^ 63 = 9223372036854775808) by reflexivity.
  assert (H64 : 2 ^ 64 = 18446744073709551616) by reflexivity.
  pose proof (length_span_bytes contents) as Hlen.
  unfold make, UniformGL.bind, glGenBuffers, lift, GL.glGenBuffers, glBindBuffer. fold id.
  unfold glBufferData, data_store.
  cbn [uniform_buffer set_uniform_buffer set_gl gl GL.buffers GL.set_buffers span.data].
  destruct (N.eqb_spec id 0); [done|]. rewrite lookup_insert_eq.
  rewrite size_bytes_of_list by lia. rewrite to_ptrdiff_t_small by lia.
  destruct (Z.ltb_spec (Z.of_nat (length (span.bytes contents))) 0); [lia|].
  rewrite Z.ltb_irrefl, Nat2Z.id, firstn_all.
  unfold glBindBufferBase, set_data_store.
  cbn [uniform_buffer set_uniform_buffer set_gl gl GL.buffers GL.set_buffers
       max_uniform_buffer_bindings uniform_buffer_bindings].
  rewrite insert_insert_eq.
  destruct ((Machine.to_uint32_t binding_point <? 0)
            || (max_uniform_buffer_bindings x <=? Machine.to_uint32_t binding_point)).
  - eexists. split; [reflexivity|]. by repeat split.
  - destruct (N.eqb_spec id 0); [done|]. cbn [negb andb].
    rewrite lookup_insert_eq.
    rewrite bool_decide_eq_false_2 by done.
    eexists. split; [reflexivity|]. by repeat split.
Qed.

Lemma uniform_glBufferSubData_in_range (x : context) (store bs : list Byte.byte) (offset : Z) :
  data_store GL_UNIFORM_BUFFER x = Some store ->
  0 <= offset -> offset + Z.of_nat (length bs) <= Z.of_nat (length store) ->
  glBufferSubData GL_UNIFORM_BUFFER offset (Z.of_nat (length bs)) (Some bs) x =
    Some (tt, set_data_store GL_UNIFORM_BUFFER
                (GL.write_range store (Z.to_nat offset) bs) x).
Proof.
  intros Hst Hoff Hfit. unfold glBufferSubData. rewrite Hst.
  destruct (Z.ltb_spec offset 0); [lia|].
  destruct (Z.ltb_spec (Z.of_nat (length bs)) 0); [lia|].
  destruct (Z.ltb_spec (Z.of_nat (length store)) (offset + Z.of_nat (length bs))); [lia|].
  cbn [orb]. rewrite Z.ltb_irrefl, Nat2Z.id, firstn_all. reflexivity.
Qed.

End UniformBufferFacts.

Section UniformBufferProperties.
Import UniformGL UniformBuffer_impl.
#[local] Open Scope uniform_scope.

(** X19: on a uniform buffer as its constructor leaves it,
    [set_attribute_data] with a name that no attribute of the layout
    carries leaves by [std::out_of_range] (thrown by [attr_cache_.at])
    before any command is issued: the context is unchanged, whatever the
    data, the offset and the context of the call. *)
Theorem set_attribute_data_unknown_name_throws (contents : list float32)
    (layout : VertexBufferLayout) (binding_point : Z) (x : context) (n : string) :
  Z.of_nat (length contents) * 4 < 2 ^ 63 ->
  n ∉ name <$> Layout.get_attributes layout ->
  exists ubo x1,
    make contents layout binding_point x = Some (ubo, x1) /\
    forall (uniform_data : span.t) (float_offset : Z) (x2 : context),
      set_attribute_data_by_name_at ubo uniform_data n float_offset x2 =
        Some (thrown_out_of_range, x2).
Proof.
  intros Hsz Hn.
  destruct (UniformBuffer_make_spec contents layout binding_point x Hsz)
    as (_ & _ & x1 & Hmake & _).
  eexists _, x1. split; [exact Hmake|]. intros uniform_data float_offset x2.
  unfold set_attribute_data_by_name_at. cbn [UniformBuffer.attr_cache_].
  rewrite fill_attr_cache_lookup, lookup_empty. unfold first_named.
  destruct (list_find _ _) as [[i a]|] eqn:E; [|reflexivity].
  apply list_find_Some in E as (Hi & Ha & _). exfalso. apply Hn.
  rewrite <- Ha. apply list_elem_of_fmap. exists a. split; [done|].
  by eapply list_elem_of_lookup_2.
Qed.

Lemma set_attribute_data_unknown_name_throws_witness :
  exists ubo x1,
    make Examples.five_floats Examples.layout_pos_uv 0 Examples.uniform_initial
      = Some (ubo, x1) /\
    forall (uniform_data : span.t) (float_offset : Z) (x2 : context),
      set_attribute_data_by_name_at ubo uniform_data "normal" float_offset x2 =
        Some (thrown_out_of_range, x2).
Proof.
  apply (set_attribute_data_unknown_name_throws Examples.five_floats Examples.layout_pos_uv 0
           Examples.uniform_initial "normal"); [reflexivity|].
  vm_compute. intros H. repeat (apply elem_of_cons in H as [H|H]; [discriminate|]).
  by apply elem_of_nil in H.
Defined.

(** X20: on a uniform buffer as its constructor leaves it, addressing an
    attribute by name is addressing, by index, the first attribute of the
    layout that carries the name: when several attributes share a name the
    later ones cannot be reached by name. *)
Theorem set_attribute_data_by_name_is_first_match (contents : list float32)
    (layout : VertexBufferLayout) (binding_point : Z) (x : context) (n : string)
    (i : nat) (a : VertexAttribute) :
  Z.of_nat (length contents) * 4 < 2 ^ 63 ->
  first_named (Layout.get_attributes layout) n = Some (i, a) ->
  exists ubo x1,
    make contents layout binding_point x = Some (ubo, x1) /\
    forall (uniform_data : span.t) (float_offset : Z) (x2 : context),
      set_attribute_data_by_name_at ubo uniform_data n float_offset x2 =
        (set_attribute_data_by_index_at ubo uniform_data (Z.of_nat i) float_offset ;;
         ret returned) x2.
Proof.
  intros Hsz Hfirst.
  destruct (UniformBuffer_make_spec contents layout binding_point x Hsz)
    as (_ & _ & x1 & Hmake & _).
  eexists _, x1. split; [exact Hmake|]. intros uniform_data float_offset x2.
  unfold set_attribute_data_by_name_at, set_attribute_data_by_index_at.
  cbn [UniformBuffer.attr_cache_ UniformBuffer.layout_].
  rewrite fill_attr_cache_lookup, lookup_empty, Hfirst. cbn [fmap option_fmap option_map fst].
  unfold first_named in Hfirst. apply list_find_Some in Hfirst as (Hi & _ & _).
  unfold Layout.get_attributes in Hi. cbn [Nat.add]. rewrite Hi.
  by rewrite (at_index_in_range layout i a Hi).
Qed.

Lemma set_attribute_data_by_name_is_first_match_witness :
  exists ubo x1,
    make [] Examples.layout_duplicate_name 0 Examples.uniform_initial = Some (ubo, x1) /\
    forall (uniform_data : span.t) (float_offset : Z) (x2 : context),
      set_attribute_data_by_name_at ubo uniform_data "a" float_offset x2 =
        (set_attribute_data_by_index_at ubo uniform_data 0 float_offset ;; ret returned) x2.
Proof.
  apply (set_attribute_data_by_name_is_first_match [] Examples.layout_duplicate_name 0
           Examples.uniform_initial "a" 0
           {| type := shader_data_type.vec4; name := "a"; offset := 0; element_count := 1 |});
    reflexivity.
Defined.

(** X21: after [bind()], [set_attribute_data] by index writes the floats at
    byte [attr.offset + 4 * offset] of the buffer's own data store, when
    that range lies inside the store: reading the range back gives the
    bytes written, the size of the store is unchanged and no other buffer
    object changes. *)
Theorem set_attribute_data_round_trip (ubo : UniformBuffer.t) (x : context)
    (store : list Byte.byte) (i : nat) (attr : VertexAttribute) (elems : list float32)
    (float_offset : Z) :
  UniformBuffer.id_ ubo <> 0%N ->
  GL.buffers (gl x) !! UniformBuffer.id_ ubo = Some store ->
  Layout.get_attributes (UniformBuffer.layout_ ubo) !! i = Some attr ->
  0 <= offset attr -> 0 <= float_offset ->
  offset attr + 4 * float_offset + Z.of_nat (length (span.bytes elems))
    <= Z.of_nat (length store) ->
  Z.of_nat (length store) < 2 ^ 63 ->
  exists x' store',
    (bind ubo ;;
     set_attribute_data_by_index_at ubo (span.of_list elems) (Z.of_nat i) float_offset) x
      = Some (tt, x') /\
    GL.buffers (gl x') !! UniformBuffer.id_ ubo = Some store' /\
    GL.read_range store' (Z.to_nat (offset attr + 4 * float_offset))
      (length (span.bytes elems)) = span.bytes elems /\
    length store' = length store /\
    (forall id, id <> UniformBuffer.id_ ubo ->
       GL.buffers (gl x') !! id = GL.buffers (gl x) !! id).
Proof.
  intros Hid Hb Hi Hoff Hk Hfit Hlen.
  assert (H63 : 2 ^ 63 = 9223372036854775808) by reflexivity.
  assert (H64 : 2 ^ 64 = 18446744073709551616) by reflexivity.
  pose proof (length_span_bytes elems) as Hbytes.
  unfold UniformGL.bind, UniformBuffer_impl.bind, glBindBuffer, set_attribute_data_by_index_at.
  rewrite (at_index_in_range _ i attr Hi).
  change shader_data_type.sizeof_float with 4.
  rewrite (to_size_t_small (float_offset * 4)) by lia.
  rewrite (to_size_t_small (offset attr + float_offset * 4)) by lia.
  rewrite to_ptrdiff_t_small by lia.
  rewrite size_bytes_of_list by lia. rewrite to_ptrdiff_t_small by lia.
  cbn [span.data].
  rewrite (uniform_glBufferSubData_in_range _ store); [| |lia|lia].
  2:{ unfold data_store. cbn [uniform_buffer set_uniform_buffer gl].
      destruct (N.eqb_spec (UniformBuffer.id_ ubo) 0); [done|exact Hb]. }
  replace (offset attr + float_offset * 4) with (offset attr + 4 * float_offset) by lia.
  eexists _, _. split; [reflexivity|].
  cbn [set_data_store set_uniform_buffer set_gl gl uniform_buffer GL.buffers GL.set_buffers].
  split; [apply lookup_insert_eq|].
  split; [apply read_write_range; lia|].
  split; [apply length_write_range; lia|].
  intros id Hne. by apply lookup_insert_ne.
Qed.

Lemma set_attribute_data_round_trip_witness :
  exists x' store',
    (bind Examples.pos_uv_ubo ;;
     set_attribute_data_by_index_at Examples.pos_uv_ubo
       (span.of_list [Examples.fl Byte.xaa; Examples.fl Byte.xbb]) 1 0) Examples.uniform_context
      = Some (tt, x') /\
    GL.buffers (gl x') !! 1%N = Some store' /\
    GL.read_range store' 12 8 = span.bytes [Examples.fl Byte.xaa; Examples.fl Byte.xbb].
Proof.
  destruct (set_attribute_data_round_trip Examples.pos_uv_ubo Examples.uniform_context
              (span.bytes Examples.five_floats) 1
              {| type := shader_data_type.vec2; name := "uv"; offset := 12;
                 element_count := 1 |}
              [Examples.fl Byte.xaa; Examples.fl Byte.xbb] 0)
    as (x' & store' & Hrun & Hb & Hread & _);
    [done|reflexivity|reflexivity|done|done|vm_compute; congruence|reflexivity|].
  exists x', store'. split; [exact Hrun|]. split; [exact Hb|exact Hread].
Defined.

(** X22: the constructor ends by binding 0 to [GL_UNIFORM_BUFFER], and
    [set_attribute_data] does not bind the buffer: called on a uniform
    buffer as its constructor leaves it, without [bind()] first, it is
    rejected by the driver and writes nothing; the context is unchanged
    whatever the data and the offset. *)
Theorem set_attribute_data_without_bind_writes_nothing (contents : list float32)
    (layout : VertexBufferLayout) (binding_point : Z) (x : context) (i : nat)
    (a : VertexAttribute) :
  Z.of_nat (length contents) * 4 < 2 ^ 63 ->
  Layout.get_attributes layout !! i = Some a ->
  exists ubo x1,
    make contents layout binding_point x = Some (ubo, x1) /\
    uniform_buffer x1 = 0%N /\
    forall (uniform_data : span.t) (float_offset : Z),
      set_attribute_data_by_index_at ubo uniform_data (Z.of_nat i) float_offset x1 =
        Some (tt, x1).
Proof.
  intros Hsz Hi.
  destruct (UniformBuffer_make_spec contents layout binding_point x Hsz)
    as (_ & _ & x1 & Hmake & _ & Hun & _).
  eexists _, x1. split; [exact Hmake|]. split; [exact Hun|].
  intros uniform_data float_offset. unfold set_attribute_data_by_index_at.
  cbn [UniformBuffer.layout_]. rewrite (at_index_in_range layout i a Hi).
  unfold glBufferSubData, data_store. by rewrite Hun.
Qed.

Lemma set_attribute_data_without_bind_writes_nothing_witness :
  exists ubo x1,
    make Examples.five_floats Examples.layout_pos_uv 0 Examples.uniform_initial
      = Some (ubo, x1) /\
    uniform_buffer x1 = 0%N /\
    forall (uniform_data : span.t) (float_offset : Z),
      set_attribute_data_by_index_at ubo uniform_data 1 float_offset x1 = Some (tt, x1).
Proof.
  apply (set_attribute_data_without_bind_writes_nothing Examples.five_floats
           Examples.layout_pos_uv 0 Examples.uniform_initial 1
           {| type := shader_data_type.vec2; name := "uv"; offset := 12;
              element_count := 1 |}); reflexivity.
Defined.

(** X23: both constructors create a fresh buffer object and touch no other:
    the one given contents sizes the data store to the contents (four
    bytes per float, whatever the stride of the layout), the one given only
    a layout sizes it to the stride of the layout.  Both attach the buffer
    to the indexed binding point when that is one the implementation has,
    and leave nothing bound to [GL_UNIFORM_BUFFER]. *)
Theorem uniform_buffer_constructors_allocate (contents : list float32)
    (layout : VertexBufferLayout) (binding_point : Z) (x : context) :
  Z.of_nat (length contents) * 4 < 2 ^ 63 ->
  0 <= Layout.stride layout < 2 ^ 63 ->
  0 <= binding_point < max_uniform_buffer_bindings x ->
  binding_point < 2 ^ 31 ->
  (exists ubo x1,
     make contents layout binding_point x = Some (ubo, x1) /\
     UniformBuffer.id_ ubo <> 0%N /\
     GL.buffers (gl x) !! UniformBuffer.id_ ubo = None /\
     GL.buffers (gl x1) !! UniformBuffer.id_ ubo = Some (span.bytes contents) /\
     (forall id, id <> UniformBuffer.id_ ubo ->
        GL.buffers (gl x1) !! id = GL.buffers (gl x) !! id) /\
     uniform_buffer_bindings x1 !! binding_point = Some (UniformBuffer.id_ ubo) /\
     uniform_buffer x1 = 0%N) /\
  (exists ubo x1 store,
     make_from_layout layout binding_point x = Some (ubo, x1) /\
     UniformBuffer.id_ ubo <> 0%N /\
     GL.buffers (gl x) !! UniformBuffer.id_ ubo = None /\
     GL.buffers (gl x1) !! UniformBuffer.id_ ubo = Some store /\
     Z.of_nat (length store) = Layout.stride layout /\
     (forall id, id <> UniformBuffer.id_ ubo ->
        GL.buffers (gl x1) !! id = GL.buffers (gl x) !! id) /\
     uniform_buffer_bindings x1 !! binding_point = Some (UniformBuffer.id_ ubo) /\
     uniform_buffer x1 = 0%N).
Proof.
  intros Hsz Hstride Hbp Hbp31.
  assert (H32 : 2 ^ 31 < 2 ^ 32) by reflexivity.
  assert (Hu : Machine.to_uint32_t binding_point = binding_point)
    by (apply to_uint32_t_small; lia).
  split.
  - destruct (UniformBuffer_make_spec contents layout binding_point x Hsz)
      as (Hid & Hfresh & x1 & Hmake & Hbuf & Hun & _ & Hbind).
    eexists _, x1. split; [exact Hmake|]. cbn [UniformBuffer.id_].
    split; [exact Hid|]. split; [exact Hfresh|].
    split; [rewrite Hbuf; apply lookup_insert_eq|].
    split; [intros id Hne; rewrite Hbuf; by apply lookup_insert_ne|].
    split; [|exact Hun].
    rewrite Hbind, Hu.
    destruct (Z.ltb_spec binding_point 0); [lia|].
    destruct (Z.leb_spec (max_uniform_buffer_bindings x) binding_point); [lia|].
    apply lookup_insert_eq.
  - set (id := fresh ({[0%N]} ∪ dom (GL.buffers (gl x)))).
    assert (Hid : id <> 0%N).
    { intros H. apply (is_fresh ({[0%N]} ∪ dom (GL.buffers (gl x)))). fold id. rewrite H.
      apply elem_of_union_l, elem_of_singleton. reflexivity. }
    assert (Hfresh : GL.buffers (gl x) !! id = None).
    { apply not_elem_of_dom. intros H.
      apply (is_fresh ({[0%N]} ∪ dom (GL.buffers (gl x)))). by apply elem_of_union_r. }
    unfold make_from_layout, UniformGL.bind, glGenBuffers, lift, GL.glGenBuffers, glBindBuffer.
    fold id. unfold glBufferData, data_store.
    cbn [uniform_buffer set_uniform_buffer set_gl gl GL.buffers GL.set_buffers].
    destruct (N.eqb_spec id 0); [done|]. rewrite lookup_insert_eq.
    rewrite to_ptrdiff_t_small by lia.
    destruct (Z.ltb_spec (Layout.stride layout) 0); [lia|].
    unfold glBindBufferBase, set_data_store.
    cbn [uniform_buffer set_uniform_buffer set_gl gl GL.buffers GL.set_buffers
         max_uniform_buffer_bindings uniform_buffer_bindings].
    rewrite insert_insert_eq, Hu.
    destruct (Z.ltb_spec binding_point 0); [lia|].
    destruct (Z.leb_spec (max_uniform_buffer_bindings x) binding_point); [lia|].
    cbn [orb]. destruct (N.eqb_spec id 0); [done|]. cbn [negb andb].
    rewrite lookup_insert_eq. rewrite bool_decide_eq_false_2 by done.
    eexists _, _, _. split; [reflexivity|].
    cbn [UniformBuffer.id_ gl GL.buffers uniform_buffer uniform_buffer_bindings
         set_uniform_buffer].
    split; [exact Hid|]. split; [exact Hfresh|].
    split; [apply lookup_insert_eq|].
    split; [rewrite length_replicate; lia|].
    split; [intros id' Hne; by apply lookup_insert_ne|].
    split; [apply lookup_insert_eq|reflexivity].
Qed.

Lemma uniform_buffer_constructors_allocate_witness :
  (exists ubo x1,
     make Examples.five_floats Examples.layout_f32 2 Examples.uniform_initial
       = Some (ubo, x1) /\
     GL.buffers (gl x1) !! UniformBuffer.id_ ubo = Some (span.bytes Examples.five_floats) /\
     uniform_buffer_bindings x1 !! 2 = Some (UniformBuffer.id_ ubo)) /\
  (exists ubo x1 store,
     make_from_layout Examples.layout_pos_uv 2 Examples.uniform_initial = Some (ubo, x1) /\
     GL.buffers (gl x1) !! UniformBuffer.id_ ubo = Some store /\
     Z.of_nat (length store) = 20).
Proof.
  destruct (uniform_buffer_constructors_allocate Examples.five_floats Examples.layout_f32 2
              Examples.uniform_initial) as ((ubo & x1 & Hrun & _ & _ & Hb & _ & Hbind & _) & _);
    [reflexivity|vm_compute; intuition congruence|vm_compute; intuition congruence|reflexivity|].
  destruct (uniform_buffer_constructors_allocate [] Examples.layout_pos_uv 2
              Examples.uniform_initial)
    as (_ & (ubo' & x1' & store & Hrun' & _ & _ & Hb' & Hlen & _));
    [reflexivity|vm_compute; intuition congruence|vm_compute; intuition congruence|reflexivity|].
  split.
  - exists ubo, x1. split; [exact Hrun|]. split; [exact Hb|exact Hbind].
  - exists ubo', x1', store. split; [exact Hrun'|]. split; [exact Hb'|exact Hlen].
Defined.

(** X24: constructing a uniform buffer and destroying it again gives back
    the buffer objects of the context exactly as they were, and leaves no
    binding point referring to the deleted buffer: the indexed binding
    point the constructor attached it to reverts to 0 and nothing is bound
    to [GL_UNIFORM_BUFFER]. *)
Theorem uniform_buffer_construct_then_destroy (contents : list float32)
    (layout : VertexBufferLayout) (binding_point : Z) (x : context) :
  Z.of_nat (length contents) * 4 < 2 ^ 63 ->
  0 <= binding_point < max_uniform_buffer_bindings x ->
  binding_point < 2 ^ 31 ->
  exists ubo x1 x2,
    make contents layout binding_point x = Some (ubo, x1) /\
    uniform_buffer_bindings x1 !! binding_point = Some (UniformBuffer.id_ ubo) /\
    destroy ubo x1 = Some (tt, x2) /\
    GL.buffers (gl x2) = GL.buffers (gl x) /\
    uniform_buffer_bindings x2 !! binding_point = Some 0%N /\
    uniform_buffer x2 = 0%N.
Proof.
  intros Hsz Hbp Hbp31.
  assert (H32 : 2 ^ 31 < 2 ^ 32) by reflexivity.
  assert (Hu : Machine.to_uint32_t binding_point = binding_point)
    by (apply to_uint32_t_small; lia).
  destruct (UniformBuffer_make_spec contents layout binding_point x Hsz)
    as (Hid & Hfresh & x1 & Hmake & Hbuf & Hun & _ & Hbind).
  set (id := fresh ({[0%N]} ∪ dom (GL.buffers (gl x)))) in *.
  rewrite Hu in Hbind.
  destruct (Z.ltb_spec binding_point 0); [lia|].
  destruct (Z.leb_spec (max_uniform_buffer_bindings x) binding_point); [lia|].
  cbn [orb] in Hbind.
  eexists _, x1, _. split; [exact Hmake|]. cbn [UniformBuffer.id_].
  split; [rewrite Hbind; apply lookup_insert_eq|].
  unfold destroy, glDeleteBuffers, GL.glDeleteBuffers. cbn [UniformBuffer.id_].
  destruct (N.eqb_spec id 0); [done|].
  split; [reflexivity|]. cbn [gl GL.buffers uniform_buffer uniform_buffer_bindings].
  split; [rewrite Hbuf; by apply delete_insert_id|].
  split; [|rewrite Hun; by destruct (0 =? id)%N].
  rewrite lookup_fmap, Hbind, lookup_insert_eq. cbn. by rewrite N.eqb_refl.
Qed.

Lemma uniform_buffer_construct_then_destroy_witness :
  exists ubo x1 x2,
    make Examples.five_floats Examples.layout_pos_uv 3 Examples.uniform_context
      = Some (ubo, x1) /\
    uniform_buffer_bindings x1 !! 3 = Some (UniformBuffer.id_ ubo) /\
    destroy ubo x1 = Some (tt, x2) /\
    GL.buffers (gl x2) = GL.buffers (gl Examples.uniform_context) /\
    uniform_buffer_bindings x2 !! 3 = Some 0%N /\
    uniform_buffer x2 = 0%N.
Proof.
  apply (uniform_buffer_construct_then_destroy Examples.five_floats Examples.layout_pos_uv 3
           Examples.uniform_context);
    [reflexivity|vm_compute; intuition congruence|reflexivity].
Defined.

End UniformBufferProperties.
